(** * Azure DevOps integration: the Lightning components and the service
      excerpts, embedded and verified.

    The JavaScript sources are the Lightning web components
    [universalModal], [azureDevOpsWorkItemCreator], the work item manager,
    the work item editor, the work item list and the [azureIntegration]
    wrappers.  Each component is embedded as a record for its fields and one
    function per method; a method returns the new component together with
    the list of effects it performed (Apex calls, toasts, modal closes), in
    program order.  An [await]ed Apex call takes its outcome as an argument
    of the method. *)

From Stdlib Require Import List String Ascii ZArith Bool Lia Permutation.
From Stdlib Require Import Sorting.Sorted.
From Stdlib Require Import Numbers.DecimalString.
From Stdlib Require DecimalPos.
Import ListNotations.
Local Open Scope string_scope.
Local Open Scope list_scope.
Local Open Scope Z_scope.

(* ------------------------------------------------------------------ *)
(** ** JavaScript values and strings *)

Module Js.

(** A JavaScript string is a sequence of UTF-16 code units; the model
    keeps the code units below 256, one [ascii] each.  Numbers are the
    Numbers with an integer value, the two infinities and NaN, which is
    all the components ever compute: [JNum z] is the double that equals
    [z], so [z] is a double ([roundMagnitude] leaves its magnitude alone);
    [number] gives the Number of any integer. *)
Inductive JsVal : Type :=
| JUndefined
| JNull
| JBool (b : bool)
| JNum (z : Z)
| JNaN
| JStr (s : string)
| JInfinity (negative : bool).

(** ToBoolean *)
Definition truthy (v : JsVal) : bool :=
  match v with
  | JUndefined | JNull | JNaN => false
  | JBool b => b
  | JNum z => negb (z =? 0)
  | JStr s => negb (s =? "")%string
  | JInfinity _ => true
  end.

(** [a || b] *)
Definition or_else (a b : JsVal) : JsVal := if truthy a then a else b.

(** [typeof v === 'number'] and [typeof v === 'string'] *)
Definition is_number (v : JsVal) : bool :=
  match v with JNum _ | JNaN | JInfinity _ => true | _ => false end.

Definition is_string (v : JsVal) : bool :=
  match v with JStr _ => true | _ => false end.

(** [Number.isInteger] *)
Definition isInteger (v : JsVal) : bool :=
  match v with JNum _ => true | _ => false end.

Definition code (c : ascii) : nat := nat_of_ascii c.

(** WhiteSpace and LineTerminator code units below 256. *)
Definition isWhitespace (c : ascii) : bool :=
  let n := code c in
  ((9 <=? n)%nat && (n <=? 13)%nat) || (n =? 32)%nat || (n =? 160)%nat.

Definition isDigit (c : ascii) : bool :=
  let n := code c in (48 <=? n)%nat && (n <=? 57)%nat.

Definition digitValue (c : ascii) : Z := Z.of_nat (code c) - 48.

(** Upper-case letters below 256: A-Z and the Latin-1 capitals. *)
Definition isUpper (c : ascii) : bool :=
  let n := code c in
  ((65 <=? n)%nat && (n <=? 90)%nat)
  || ((192 <=? n)%nat && (n <=? 222)%nat && negb (n =? 215)%nat).

Definition lowerChar (c : ascii) : ascii :=
  if isUpper c then ascii_of_nat (code c + 32) else c.

Fixpoint toLowerCase (s : string) : string :=
  match s with
  | EmptyString => EmptyString
  | String c r => String (lowerChar c) (toLowerCase r)
  end.

Fixpoint trimStart (s : string) : string :=
  match s with
  | EmptyString => EmptyString
  | String c r => if isWhitespace c then trimStart r else s
  end.

Fixpoint trimEnd (s : string) : string :=
  match s with
  | EmptyString => EmptyString
  | String c r =>
      let r' := trimEnd r in
      if isWhitespace c && (r' =? "")%string then EmptyString
      else String c r'
  end.

Definition trim (s : string) : string := trimEnd (trimStart s).

(** [s.includes(sub)] *)
Fixpoint includes (sub s : string) : bool :=
  String.prefix sub s
  || match s with
     | EmptyString => false
     | String _ r => includes sub r
     end.

(** The decimal numeral of an integer, with all its digits. *)
Definition string_of_Z (z : Z) : string :=
  NilZero.string_of_int (Z.to_int z).

(** *** Numbers

    A double holds 53 significant bits.  Every integer of magnitude up to
    2^53 is a double; a larger one is a double when the bits below its
    first 53 are zero, and the doubles end below 2^1024. *)
Definition twoTo53 : Z := 2 ^ 53.
Definition twoTo1024 : Z := 2 ^ 1024.

(** [Number.isSafeInteger] on an integer: its magnitude is at most
    2^53 - 1. *)
Definition isSafeInteger (z : Z) : bool := Z.abs z <? twoTo53.

(** The double nearest to the magnitude [a]: [a] keeps its first 53 bits,
    rounded to nearest, a tie going to the even significand. *)
Definition roundMagnitude (a : Z) : Z :=
  if a <? twoTo53 then a
  else
    let e := Z.log2 a - 52 in
    let q := Z.shiftr a e in
    let r := a - Z.shiftl q e in
    let half := Z.shiftl 1 (e - 1) in
    let q' := if r <? half then q
              else if half <? r then q + 1
              else if Z.even q then q else q + 1 in
    Z.shiftl q' e.

(** The Number value of an integer: the nearest double, an infinity when
    that is beyond the doubles. *)
Definition number (z : Z) : JsVal :=
  let a := roundMagnitude (Z.abs z) in
  if a <? twoTo1024 then JNum (Z.sgn z * a) else JInfinity (z <? 0).

Definition digitCount (a : Z) : Z :=
  Z.of_nat (String.length (string_of_Z a)).

(** The integer with [k] significant digits that reads back as the double
    [x], if there is one: of the two multiples of a power of ten around
    [x] the one that rounds to [x], the nearer when both do, the one with
    the even last digit when they are as near. *)
Definition nearest (x k : Z) : option Z :=
  let p := 10 ^ (digitCount x - k) in
  let lo := (x / p) * p in
  let hi := lo + p in
  let okLo := (0 <? p) && (roundMagnitude lo =? x) in
  let okHi := (0 <? p) && (roundMagnitude hi =? x) in
  if okLo && okHi then
    if x - lo <? hi - x then Some lo
    else if hi - x <? x - lo then Some hi
    else if Z.even (x / p) then Some lo else Some hi
  else if okLo then Some lo
  else if okHi then Some hi
  else None.

Fixpoint shortestFrom (fuel : nat) (x k : Z) : Z :=
  match fuel with
  | O => x
  | S f => match nearest x k with
           | Some v => v
           | None => shortestFrom f x (k + 1)
           end
  end.

(** The integer with the fewest significant digits that reads back as
    the double [x]; seventeen digits always do. *)
Definition shortest (x : Z) : Z := shortestFrom 17 x 1.

Fixpoint dropZeros (s : string) : string :=
  match s with
  | EmptyString => EmptyString
  | String c r =>
      let r' := dropZeros r in
      if Ascii.eqb c "0" && (r' =? "")%string then EmptyString
      else String c r'
  end.

(** The digits of [v], in full up to 21 of them, and from 22 as
    [d.ddde+n]. *)
Definition exponential (v : Z) : string :=
  let n := digitCount v in
  if n <=? 21 then string_of_Z v
  else
    match dropZeros (string_of_Z v) with
    | EmptyString => string_of_Z v
    | String d EmptyString => String d ("e+" ++ string_of_Z (n - 1))%string
    | String d rest =>
        String d ("." ++ rest ++ "e+" ++ string_of_Z (n - 1))%string
    end.

(** [String(n)] for the Number of the integer [z]: all the digits of a
    safe integer; beyond, the fewest digits that read back as the same
    double, in exponent form from 10^21. *)
Definition numberToString (z : Z) : string :=
  if isSafeInteger z then string_of_Z z
  else
    let a := roundMagnitude (Z.abs z) in
    if twoTo1024 <=? a then (if z <? 0 then "-Infinity" else "Infinity")
    else ((if (z <? 0)%Z then "-" else "") ++ exponential (shortest a))%string.

(** ToString *)
Definition toString (v : JsVal) : string :=
  match v with
  | JUndefined => "undefined"
  | JNull => "null"
  | JBool true => "true"
  | JBool false => "false"
  | JNum z => numberToString z
  | JNaN => "NaN"
  | JStr s => s
  | JInfinity true => "-Infinity"
  | JInfinity false => "Infinity"
  end.

(** The digits at the front of [s], folded into [acc]; [seen] records
    whether a digit was read. *)
Fixpoint parseDigits (s : string) (acc : Z) (seen : bool) : option Z :=
  match s with
  | EmptyString => if seen then Some acc else None
  | String c r =>
      if isDigit c then parseDigits r (10 * acc + digitValue c) true
      else if seen then Some acc else None
  end.

(** [parseInt(s, 10)]: leading white space is skipped, one sign is read,
    then the longest prefix of decimal digits; no digit gives NaN.  The
    result is the Number of the integer read (an engine may take the
    digits after the twentieth for zeros; the model, like the engines in
    use, reads them all). *)
Definition parseInt10 (s : string) : JsVal :=
  match trimStart s with
  | String "-" r =>
      match parseDigits r 0 false with
      | Some n => number (- n)
      | None => JNaN
      end
  | String "+" r =>
      match parseDigits r 0 false with
      | Some n => number n
      | None => JNaN
      end
  | t =>
      match parseDigits t 0 false with
      | Some n => number n
      | None => JNaN
      end
  end.

(** [parseInt(v, 10)] on any value: the argument goes through ToString. *)
Definition parseInt (v : JsVal) : JsVal := parseInt10 (toString v).

(** The outcome of an awaited promise. *)
Record JsError : Type := mkError {
  body_message : option string;   (* e?.body?.message *)
  err_message : option string;    (* e.message *)
  err_string : string             (* String(e) *)
}.

Inductive Outcome (A : Type) : Type :=
| Resolved (a : A)
| Rejected (e : JsError).
Arguments Resolved {A} a.
Arguments Rejected {A} e.

Definition of_option (o : option string) : JsVal :=
  match o with Some s => JStr s | None => JUndefined end.

(** [e?.body?.message || String(e)] *)
Definition describe (e : JsError) : JsVal :=
  or_else (of_option (body_message e)) (JStr (err_string e)).

End Js.
Import Js.

(* ------------------------------------------------------------------ *)
(** ** Effects shared by the components *)

Inductive ToastVariant : Type := VSuccess | VError | VInfo.
Inductive ToastMode : Type := Dismissible | Sticky.

Record Toast : Type := mkToast {
  toast_title : string;
  toast_message : JsVal;
  toast_variant : ToastVariant;
  toast_mode : option ToastMode
}.

(** The arguments of the imported Apex methods. *)
Record CreateArgs : Type := mkCreateArgs {
  c_configName : JsVal;
  c_workItemType : JsVal;
  c_title : JsVal;
  c_description : JsVal;
  c_state : JsVal;
  c_priority : JsVal
}.

Record UpdateArgs : Type := mkUpdateArgs {
  u_configName : JsVal;
  u_workItemId : JsVal;
  u_title : JsVal;
  u_description : JsVal;
  u_state : JsVal;
  u_priority : JsVal
}.

Record DeleteArgs : Type := mkDeleteArgs {
  d_configName : JsVal;
  d_workItemId : JsVal;
  d_reason : JsVal
}.

Record QueryArgs : Type := mkQueryArgs {
  q_configName : JsVal;
  q_workItemType : JsVal;
  q_state : JsVal;
  q_maxResults : JsVal
}.

Inductive ApexCall : Type :=
| hasEditPermission
| getAvailableConfigurations
| getWorkItemTypes
| getAvailableStatesForType (workItemType : JsVal)
| getPriorities
| getWorkItems (a : QueryArgs)
| createWorkItem (a : CreateArgs)
| updateWorkItem (a : UpdateArgs)
| deleteWorkItemWithReason (a : DeleteArgs).

(** What a modal hands to [this.close]. *)
Record ModalResult : Type := mkModalResult {
  confirmed : bool;
  res_reason : option string;
  res_action : string;
  res_formData : option (list (string * JsVal))
}.

(** What the work item creator hands to [this.close]. *)
Record WorkItemSummary : Type := mkSummary {
  s_workItemId : JsVal;
  s_workItemType : JsVal;
  s_title : JsVal;
  s_workItemUrl : JsVal
}.

Record CreatorResult : Type := mkCreatorResult {
  cr_success : bool;
  cr_workItem : option WorkItemSummary;
  cr_message : JsVal
}.

(** The options of [UniversalModal.open]. *)
Record ModalOptions : Type := mkModalOptions {
  mo_size : string;
  mo_modalType : string;
  mo_title : string;
  mo_message : string;
  mo_confirmLabel : string;
  mo_cancelLabel : string;
  mo_variant : string;
  mo_requireReason : option bool
}.

(** The [@api] properties the work item editor is opened with. *)
Record EditorProps : Type := mkProps {
  workItemId : JsVal;
  workItemType : JsVal;
  initialTitle : JsVal;
  initialDescription : JsVal;
  initialState : JsVal;
  initialPriority : JsVal;
  configName : JsVal;
  currentTitle : JsVal;
  currentDescription : JsVal;
  currentState : JsVal;
  currentPriority : JsVal
}.

Inductive Effect : Type :=
| Apex (c : ApexCall)
| ShowToast (t : Toast)
| CloseModal (r : ModalResult)
| CloseCreator (r : CreatorResult)
| CloseEditor (success : bool) (workItemId : JsVal)
| OpenUniversalModal (o : ModalOptions)
| OpenCreator
| OpenEditor (p : EditorProps)
| OpenWindow (url : JsVal).

(** [c/toastUtils]; every component that calls them can dispatch events. *)
Definition showSuccessToast (title : string) (message : JsVal) : Effect :=
  ShowToast (mkToast title message VSuccess (Some Dismissible)).

Definition showErrorToast (title : string) (message : JsVal) : Effect :=
  ShowToast (mkToast title message VError (Some Sticky)).

Definition showInfoToast (title : string) (message : JsVal) : Effect :=
  ShowToast (mkToast title message VInfo (Some Dismissible)).

(** The response object of the Apex write and read methods; [None] is a
    null response. *)
Record ApexResponse : Type := mkResponse {
  r_success : bool;
  r_message : JsVal;
  r_workItemId : JsVal;
  r_workItemType : JsVal;
  r_title : JsVal;
  r_workItemUrl : JsVal
}.

(** [res && res.message] *)
Definition response_message (res : option ApexResponse) : JsVal :=
  match res with
  | None => JNull
  | Some r => r_message r
  end.

(** [res && res.message ? res.message : 'Unknown error'] *)
Definition message_or_unknown (res : option ApexResponse) : JsVal :=
  if truthy (response_message res) then response_message res
  else JStr "Unknown error".

(** Is this effect a call of a write method of the controller? *)
Definition is_write (e : Effect) : bool :=
  match e with
  | Apex (createWorkItem _) | Apex (updateWorkItem _)
  | Apex (deleteWorkItemWithReason _) => true
  | _ => false
  end.

Definition is_create (e : Effect) : bool :=
  match e with Apex (createWorkItem _) => true | _ => false end.

Definition is_delete (e : Effect) : bool :=
  match e with Apex (deleteWorkItemWithReason _) => true | _ => false end.

Definition count (p : Effect -> bool) (l : list Effect) : nat :=
  List.length (filter p l).

(* ------------------------------------------------------------------ *)
(** ** universalModal.js *)

Module UniversalModal.

Record FormField : Type := mkField {
  f_name : string;
  f_required : bool;
  f_defaultValue : JsVal
}.

Record Modal : Type := mkModal {
  modalType : string;
  requireReason : bool;
  formConfig : option (list FormField);   (* formConfig?.fields *)
  formData : list (string * JsVal);
  reason : option string;                 (* [None]: null or undefined *)
  loading : bool
}.

Definition set_reason (r : option string) (m : Modal) : Modal :=
  mkModal (modalType m) (requireReason m) (formConfig m) (formData m)
          r (loading m).

Definition set_loading (b : bool) (m : Modal) : Modal :=
  mkModal (modalType m) (requireReason m) (formConfig m) (formData m)
          (reason m) b.

Definition set_formData (d : list (string * JsVal)) (m : Modal) : Modal :=
  mkModal (modalType m) (requireReason m) (formConfig m) d
          (reason m) (loading m).

(** The form data are an object made by an object literal: [formData]
    lists its own properties, and its prototype is [Object.prototype].

    [lookup] reads an own property, undefined when the object has none of
    that name. *)
Fixpoint lookup (name : string) (d : list (string * JsVal)) : JsVal :=
  match d with
  | [] => JUndefined
  | (k, v) :: r => if (k =? name)%string then v else lookup name r
  end.

(** [Object.hasOwn(formData, name)] *)
Definition hasOwn (name : string) (d : list (string * JsVal)) : bool :=
  existsb (fun kv => (fst kv =? name)%string) d.

(** The properties every object inherits from [Object.prototype]. *)
Definition objectPrototypeNames : list string :=
  ["constructor"; "hasOwnProperty"; "isPrototypeOf"; "propertyIsEnumerable";
   "toLocaleString"; "toString"; "valueOf"; "__proto__";
   "__defineGetter__"; "__defineSetter__"; "__lookupGetter__";
   "__lookupSetter__"].

Definition inherited (name : string) : bool :=
  existsb (String.eqb name) objectPrototypeNames.

(** What [formData[name]] evaluates to: the value of an own property; or
    else, under an inherited name, a member of [Object.prototype] (a
    function, and the prototype itself under [__proto__]), which is no
    [JsVal]; or else undefined. *)
Inductive Member : Type :=
| Own (v : JsVal)
| Inherited.

(** [formData[name]] *)
Definition get (name : string) (d : list (string * JsVal)) : Member :=
  if hasOwn name d then Own (lookup name d)
  else if inherited name then Inherited
  else Own JUndefined.

(** [!this.reason?.trim()] *)
Definition reasonMissing (m : Modal) : bool :=
  match reason m with
  | None => true
  | Some s => (trim s =? "")%string
  end.

(** The callback of [isFormValid].  An inherited member is neither null
    nor undefined, and [String] writes it as the source text of a function
    or as [[object Object]], which is not blank. *)
Definition fieldFilled (d : list (string * JsVal)) (f : FormField) : bool :=
  if f_required f then
    match get (f_name f) d with
    | Own JNull | Own JUndefined => false
    | Own v => negb (trim (toString v) =? "")%string
    | Inherited => true
    end
  else true.

Definition isFormValid (m : Modal) : bool :=
  match formConfig m with
  | None => true
  | Some fields => forallb (fieldFilled (formData m)) fields
  end.

Definition isConfirmDisabled (m : Modal) : bool :=
  if (modalType m =? "confirm")%string then
    requireReason m && reasonMissing m
  else if (modalType m =? "form")%string then
    loading m || negb (isFormValid m)
  else false.

(** The own property [name] is given the value [v]: a key the object has
    keeps its place and takes the new value, a new key goes last (the
    list does not tell that an object lists its array-index keys
    first). *)
Fixpoint store (name : string) (v : JsVal) (d : list (string * JsVal))
  : list (string * JsVal) :=
  match d with
  | [] => [(name, v)]
  | (k, w) :: r =>
      if (k =? name)%string then (k, v) :: r else (k, w) :: store name v r
  end.

(** [initialData[name] = v] in [initializeFormData], where [initialData]
    has only the properties these assignments gave it and [v], a default
    value or the empty string, is neither null nor an object.  The
    assignment makes an own property, but for the name [__proto__]:
    that one reaches the setter of [Object.prototype], which ignores such
    a value. *)
Definition assign (name : string) (v : JsVal) (d : list (string * JsVal))
  : list (string * JsVal) :=
  if (name =? "__proto__")%string then d else store name v d.

Definition initializeFormData (m : Modal) : Modal :=
  match formConfig m with
  | None => set_formData [] m
  | Some fields =>
      set_formData
        (fold_left
           (fun d f => assign (f_name f) (or_else (f_defaultValue f) (JStr "")) d)
           fields [])
        m
  end.

(** The parts of a change event [handleFieldChange] reads;
    [detail_value] is [event.detail?.value]. *)
Record FieldEvent : Type := mkFieldEvent {
  target_name : JsVal;
  dataset_fieldName : JsVal;
  detail_value : JsVal;
  target_value : JsVal
}.

(** [{ ...this.formData, [fieldName]: value }]: a computed key makes an
    own property under any name. *)
Definition handleFieldChange (e : FieldEvent) (m : Modal) : Modal :=
  let fieldName := or_else (target_name e) (dataset_fieldName e) in
  let value := match detail_value e with
               | JUndefined => target_value e
               | v => v
               end in
  set_formData (store (toString fieldName) value (formData m)) m.

Definition handleReasonChange (value : string) (m : Modal) : Modal :=
  set_reason (Some value) m.

Definition handleConfirm (m : Modal) : Modal * list Effect :=
  if (modalType m =? "confirm")%string then
    if requireReason m && reasonMissing m then (m, [])
    else (m, [CloseModal (mkModalResult true (reason m) "confirm" None)])
  else if (modalType m =? "form")%string then
    if negb (isFormValid m) then (m, [])
    else (set_loading true m,
          [CloseModal (mkModalResult true None "submit" (Some (formData m)))])
  else if (modalType m =? "list")%string then
    (m, [CloseModal (mkModalResult true None "close" None)])
  else (m, [CloseModal (mkModalResult true None "confirm" None)]).

Definition handleCancel (m : Modal) : Modal * list Effect :=
  (m, [CloseModal (mkModalResult false None "cancel" None)]).

(** The initial fields of a modal opened with the given options. *)
Definition open (o : ModalOptions) : Modal :=
  mkModal (mo_modalType o)
          (match mo_requireReason o with Some b => b | None => false end)
          None [] (Some "") false.

End UniversalModal.

(* ------------------------------------------------------------------ *)
(** ** Options and records of the controller *)

(** A [{label, value}] pair as the comboboxes take them. *)
Record SelectOption : Type := mkOption {
  o_label : JsVal;
  o_value : JsVal;
  o_description : JsVal
}.

(** A record of the priority and state lists returned by the controller. *)
Record PriorityDef : Type := mkPriorityDef {
  p_label : JsVal;
  p_value : JsVal
}.

Record StateDef : Type := mkStateDef {
  st_label : JsVal;
  st_value : JsVal;
  st_description : JsVal
}.

(** What an awaited list-returning Apex method resolves to: an array, or
    some value that is not an array. *)
Inductive ApexData (A : Type) : Type :=
| Items (l : list A)
| NotArray (v : JsVal).
Arguments Items {A} l.
Arguments NotArray {A} v.

(** Strict equality [===] of two values. *)
Definition strict_eq (a b : JsVal) : bool :=
  match a, b with
  | JUndefined, JUndefined => true
  | JNull, JNull => true
  | JBool x, JBool y => Bool.eqb x y
  | JNum x, JNum y => x =? y
  | JStr x, JStr y => (x =? y)%string
  | JInfinity x, JInfinity y => Bool.eqb x y
  | _, _ => false
  end.

(** SameValueZero, the equality of [Set] and [Array.prototype.includes]:
    strict equality, but with NaN equal to itself. *)
Definition sameValueZero (a b : JsVal) : bool :=
  match a, b with
  | JNaN, JNaN => true
  | _, _ => strict_eq a b
  end.

(** [Array.from(new Set(l))]: the values of [l], each once, in the order
    the set first meets them. *)
Fixpoint uniq (l : list JsVal) : list JsVal :=
  match l with
  | [] => []
  | x :: r => x :: filter (fun y => negb (sameValueZero x y)) (uniq r)
  end.

(* ------------------------------------------------------------------ *)
(** ** universalModalHelper.js *)

Module UniversalModalHelper.

(** The [config] argument of [createField]; a property it lacks is
    [JUndefined], a missing [options] is [None]. *)
Record FieldConfig : Type := mkFieldConfig {
  cfg_label : JsVal;
  cfg_required : JsVal;
  cfg_placeholder : JsVal;
  cfg_defaultValue : JsVal;
  cfg_value : JsVal;
  cfg_options : option (list SelectOption);
  cfg_icon : JsVal;
  cfg_helpText : JsVal;
  cfg_rows : JsVal
}.

(** [config = {}] *)
Definition emptyConfig : FieldConfig :=
  mkFieldConfig JUndefined JUndefined JUndefined JUndefined JUndefined None
                JUndefined JUndefined JUndefined.

Record Field : Type := mkHelperField {
  name : string;
  label : JsVal;
  type : string;
  isText : bool;
  isTextarea : bool;
  isCombobox : bool;
  required : JsVal;
  placeholder : JsVal;
  defaultValue : JsVal;
  value : JsVal;
  options : list SelectOption;
  icon : JsVal;
  helpText : JsVal;
  rows : JsVal
}.

Definition createField (name type : string) (config : FieldConfig) : Field :=
  mkHelperField
    name
    (or_else (cfg_label config) (JStr name))
    type
    (type =? "text")%string
    (type =? "textarea")%string
    (type =? "combobox")%string
    (or_else (cfg_required config) (JBool false))
    (or_else (cfg_placeholder config) (JStr ""))
    (or_else (cfg_defaultValue config) (JStr ""))
    (or_else (or_else (cfg_value config) (cfg_defaultValue config)) (JStr ""))
    (match cfg_options config with Some l => l | None => [] end)
    (or_else (cfg_icon config) JNull)
    (or_else (cfg_helpText config) JNull)
    (or_else (cfg_rows config) (JNum 3)).

Definition createFormConfig (fields : list Field) : list Field := fields.

(** What the modal reads of a field: its name, whether [required] is
    truthy, and its default value. *)
Definition asFormField (f : Field) : UniversalModal.FormField :=
  UniversalModal.mkField (name f) (truthy (required f)) (defaultValue f).

(** A form modal as [UniversalModal.open] makes it for a form config. *)
Definition openForm (fields : list Field) : UniversalModal.Modal :=
  UniversalModal.mkModal "form" false
    (Some (map asFormField (createFormConfig fields))) [] (Some "") false.

End UniversalModalHelper.

(* ------------------------------------------------------------------ *)
(** ** azureDevOpsWorkItemCreator.js *)

Module Creator.

Record Creator : Type := mkCreator {
  selectedConfig : string;
  selectedWorkItemType : string;
  title : option string;            (* [None]: null or undefined *)
  description : string;
  selectedState : JsVal;
  selectedPriority : string;
  stateOptions : list SelectOption;
  priorityOptions : list SelectOption;
  isLoading : bool;
  lastCreatedWorkItem : option WorkItemSummary;
  hasEdit : bool;
  modalMode : bool                  (* never assigned by the class *)
}.

(** The field initialisers of the class. *)
Definition initial : Creator :=
  mkCreator "" "" (Some "") "" (JStr "To Do") "2" [] [] false None false false.

Definition set_hasEdit (b : bool) (c : Creator) : Creator :=
  mkCreator (selectedConfig c) (selectedWorkItemType c) (title c)
    (description c) (selectedState c) (selectedPriority c) (stateOptions c)
    (priorityOptions c) (isLoading c) (lastCreatedWorkItem c) b (modalMode c).

Definition set_isLoading (b : bool) (c : Creator) : Creator :=
  mkCreator (selectedConfig c) (selectedWorkItemType c) (title c)
    (description c) (selectedState c) (selectedPriority c) (stateOptions c)
    (priorityOptions c) b (lastCreatedWorkItem c) (hasEdit c) (modalMode c).

Definition set_priorityOptions (l : list SelectOption) (c : Creator) : Creator :=
  mkCreator (selectedConfig c) (selectedWorkItemType c) (title c)
    (description c) (selectedState c) (selectedPriority c) (stateOptions c)
    l (isLoading c) (lastCreatedWorkItem c) (hasEdit c) (modalMode c).

Definition set_states (l : list SelectOption) (sel : JsVal) (c : Creator)
  : Creator :=
  mkCreator (selectedConfig c) (selectedWorkItemType c) (title c)
    (description c) sel (selectedPriority c) l
    (priorityOptions c) (isLoading c) (lastCreatedWorkItem c) (hasEdit c)
    (modalMode c).

Definition set_lastCreatedWorkItem (w : WorkItemSummary) (c : Creator)
  : Creator :=
  mkCreator (selectedConfig c) (selectedWorkItemType c) (title c)
    (description c) (selectedState c) (selectedPriority c) (stateOptions c)
    (priorityOptions c) (isLoading c) (Some w) (hasEdit c) (modalMode c).

Definition checkPermission (o : Outcome JsVal) (c : Creator)
  : Creator * list Effect :=
  match o with
  | Resolved res => (set_hasEdit (truthy res) c, [Apex hasEditPermission])
  | Rejected _ => (set_hasEdit false c, [Apex hasEditPermission])
  end.

Definition terminalStates : list string := ["done"; "closed"; "resolved"].

(** [terminalStates.has(v)] *)
Definition has (v : string) (set : list string) : bool :=
  existsb (String.eqb v) set.

(** The filter callback of [loadStatesForType]. *)
Definition keepOption (o : SelectOption) : bool :=
  let v := toLowerCase (trim (toString (or_else (o_value o) (JStr "")))) in
  negb (has v terminalStates).

Definition loadStatesForType (o : Outcome (ApexData StateDef)) (c : Creator)
  : Creator * list Effect :=
  let call := Apex (getAvailableStatesForType (JStr (selectedWorkItemType c))) in
  match o with
  | Resolved (Items data) =>
      let options :=
        map (fun s => mkOption (st_label s) (st_value s) (st_description s))
            data in
      let options := if modalMode c then filter keepOption options
                     else options in
      let sel :=
        if existsb (fun opt => strict_eq (o_value opt) (selectedState c))
                   options
        then selectedState c
        else match options with
             | first :: _ => o_value first
             | [] => JStr "To Do"
             end in
      (set_states options sel c, [call])
  | Resolved (NotArray _) => (c, [call])
  | Rejected e => (c, [call; showErrorToast "Error loading states" (describe e)])
  end.

Definition getDefaultPriorityOptions : list SelectOption :=
  map (fun v => mkOption (JStr v) (JStr v) JUndefined) ["1"; "2"; "3"; "4"].

Definition loadPriorities (o : Outcome (ApexData PriorityDef)) (c : Creator)
  : Creator * list Effect :=
  match o with
  | Resolved (Items (p :: ps)) =>
      (set_priorityOptions
         (map (fun p => mkOption (p_label p) (JStr (toString (p_value p)))
                                 JUndefined)
              (p :: ps)) c,
       [Apex getPriorities])
  | Resolved _ =>
      (set_priorityOptions getDefaultPriorityOptions c, [Apex getPriorities])
  | Rejected e =>
      (set_priorityOptions getDefaultPriorityOptions c,
       [Apex getPriorities;
        showErrorToast "Error loading priorities" (describe e)])
  end.

(** [!this.title?.trim()] *)
Definition titleMissing (c : Creator) : bool :=
  match title c with
  | None => true
  | Some s => (trim s =? "")%string
  end.

Definition trimmedTitle (c : Creator) : string :=
  match title c with
  | None => ""
  | Some s => trim s
  end.

Definition isCreateDisabled (c : Creator) : bool :=
  isLoading c || (selectedConfig c =? "")%string
  || (selectedWorkItemType c =? "")%string
  || titleMissing c || negb (hasEdit c).

Definition createArgs (c : Creator) : CreateArgs :=
  mkCreateArgs
    (JStr (selectedConfig c))
    (JStr (selectedWorkItemType c))
    (JStr (trimmedTitle c))
    (or_else (JStr (description c)) (JStr ""))
    (or_else (selectedState c) (JStr "To Do"))
    (parseInt10 (selectedPriority c)).

Definition handleCreateWorkItem (o : Outcome (option ApexResponse))
  (c : Creator) : Creator * list Effect :=
  if negb (hasEdit c) then
    (c, [showErrorToast "Permission Denied"
           (JStr "You do not have permission to create work items.")])
  else if (selectedConfig c =? "")%string
          || (selectedWorkItemType c =? "")%string || titleMissing c then
    (c, [showErrorToast "Validation Error"
           (JStr "Configuration, type and title are required")])
  else
    let call := Apex (createWorkItem (createArgs c)) in
    match o with
    | Resolved (Some res) =>
        if r_success res then
          let w := mkSummary (r_workItemId res) (r_workItemType res)
                             (r_title res) (r_workItemUrl res) in
          (set_isLoading false (set_lastCreatedWorkItem w c),
           [call; CloseCreator (mkCreatorResult true (Some w) (r_message res))])
        else
          (set_isLoading false c,
           [call; showErrorToast "Creation Failed" (message_or_unknown (Some res))])
    | Resolved None =>
        (set_isLoading false c,
         [call; showErrorToast "Creation Failed" (JStr "Unknown error")])
    | Rejected err =>
        (set_isLoading false c,
         [call; showErrorToast "Unexpected Error" (describe err)])
    end.

Definition handleCancel (c : Creator) : Creator * list Effect :=
  (c, [CloseCreator (mkCreatorResult false None JUndefined)]).

Definition handleConfigChange (value : string) (c : Creator) : Creator :=
  mkCreator value (selectedWorkItemType c) (title c)
    (description c) (selectedState c) (selectedPriority c) (stateOptions c)
    (priorityOptions c) (isLoading c) (lastCreatedWorkItem c) (hasEdit c)
    (modalMode c).

Definition handleWorkItemTypeChange (value : string)
  (o : Outcome (ApexData StateDef)) (c : Creator) : Creator * list Effect :=
  loadStatesForType o
    (mkCreator (selectedConfig c) value (title c)
       (description c) (selectedState c) (selectedPriority c) (stateOptions c)
       (priorityOptions c) (isLoading c) (lastCreatedWorkItem c) (hasEdit c)
       (modalMode c)).

Definition handleStateChange (value : JsVal) (c : Creator) : Creator :=
  set_states (stateOptions c) value c.

Definition handlePriorityChange (value : string) (c : Creator) : Creator :=
  mkCreator (selectedConfig c) (selectedWorkItemType c) (title c)
    (description c) (selectedState c) value (stateOptions c)
    (priorityOptions c) (isLoading c) (lastCreatedWorkItem c) (hasEdit c)
    (modalMode c).

Definition resetFormFields (c : Creator) : Creator :=
  mkCreator (selectedConfig c) (selectedWorkItemType c) (Some "")
    "" (JStr "To Do") "2" (stateOptions c)
    (priorityOptions c) (isLoading c) (lastCreatedWorkItem c) (hasEdit c)
    (modalMode c).

End Creator.

(* ------------------------------------------------------------------ *)
(** ** Exceptions *)

(** The TypeError raised by calling a method a value does not have; engines
    word its message differently. *)
Definition typeError : JsError :=
  mkError None (Some "toLowerCase is not a function")
          "TypeError: toLowerCase is not a function".

(** [try]/[catch] over fallible steps: [inl] carries the thrown error. *)
Definition Throws (A : Type) : Type := (JsError + A)%type.

Definition bindT {A B : Type} (m : Throws A) (k : A -> Throws B) : Throws B :=
  match m with
  | inl e => inl e
  | inr a => k a
  end.

Notation "'let*' x ':=' m 'in' k" := (bindT m (fun x => k))
  (at level 10, x name, m at level 100, k at level 200).

(* ------------------------------------------------------------------ *)
(** ** The work item editor (AzureDevOpsWorkItemEditor) *)

(** [a ?? b] *)
Definition coalesce (a b : JsVal) : JsVal :=
  match a with
  | JUndefined | JNull => b
  | _ => a
  end.

(** A wire adapter provisions [{error, data}], each possibly undefined. *)
Record Wired (A : Type) : Type := mkWired {
  w_error : option JsError;
  w_data : option (list A)
}.
Arguments mkWired {A} w_error w_data.
Arguments w_error {A} w.
Arguments w_data {A} w.

Module Editor.

Record Editor : Type := mkEditor {
  props : EditorProps;
  title : JsVal;
  description : JsVal;
  state : JsVal;
  priority : JsVal;
  stateOptions : list SelectOption;
  isSaving : bool;
  priorityOptions : list SelectOption
}.

Definition initial (p : EditorProps) : Editor :=
  mkEditor p (JStr "") (JStr "") (JStr "") (JStr "2") [] false [].

Definition set_isSaving (b : bool) (e : Editor) : Editor :=
  mkEditor (props e) (title e) (description e) (state e) (priority e)
           (stateOptions e) b (priorityOptions e).

Definition set_priority (v : JsVal) (e : Editor) : Editor :=
  mkEditor (props e) (title e) (description e) (state e) v
           (stateOptions e) (isSaving e) (priorityOptions e).

Definition set_priorityOptions (l : list SelectOption) (e : Editor) : Editor :=
  mkEditor (props e) (title e) (description e) (state e) (priority e)
           (stateOptions e) (isSaving e) l.

Definition connectedCallback (e : Editor) : Editor :=
  let p := props e in
  mkEditor p
    (coalesce (currentTitle p) (coalesce (initialTitle p) (JStr "")))
    (coalesce (currentDescription p) (coalesce (initialDescription p) (JStr "")))
    (coalesce (currentState p) (coalesce (initialState p) (JStr "")))
    (JStr (toString
             (coalesce (currentPriority p)
                       (coalesce (initialPriority p) (JStr "2")))))
    (stateOptions e) (isSaving e) (priorityOptions e).

Definition defaultPriorityOptions : list SelectOption :=
  [ mkOption (JStr "1") (JStr "1") JUndefined;
    mkOption (JStr "2") (JStr "2") JUndefined;
    mkOption (JStr "3") (JStr "3") JUndefined;
    mkOption (JStr "4") (JStr "4") JUndefined ].

Definition wiredPriorities (w : Wired PriorityDef) (e : Editor)
  : Editor * list Effect :=
  match w_data w with
  | Some data =>
      let options :=
        map (fun p => mkOption (p_label p) (p_value p) JUndefined) data in
      match options with
      | [] => (set_priorityOptions defaultPriorityOptions e, [])
      | _ :: _ => (set_priorityOptions options e, [])
      end
  | None =>
      match w_error w with
      | Some error =>
          (set_priorityOptions defaultPriorityOptions e,
           [showErrorToast "Error loading priorities" (describe error)])
      | None => (e, [])
      end
  end.

(** [handlePriorityChange]: the value goes through [String]. *)
Definition handlePriorityChange (value : JsVal) (e : Editor) : Editor :=
  set_priority (JStr (toString value)) e.

Definition handleReset (e : Editor) : Editor :=
  let p := props e in
  mkEditor p
    (or_else (initialTitle p) (JStr ""))
    (or_else (initialDescription p) (JStr ""))
    (or_else (initialState p) (JStr ""))
    (or_else (initialPriority p) (JStr "2"))
    (stateOptions e) (isSaving e) (priorityOptions e).

(** [Number.isInteger(v) ? v : parseInt(v, 10)] *)
Definition toInt (v : JsVal) : JsVal :=
  if isInteger v then v else parseInt v.

Definition updateArgs (e : Editor) : UpdateArgs :=
  mkUpdateArgs (configName (props e)) (toInt (workItemId (props e)))
               (title e) (description e) (state e) (toInt (priority e)).

Definition handleSave (o : Outcome (option ApexResponse)) (e : Editor)
  : Editor * list Effect :=
  if negb (truthy (configName (props e)))
     || negb (truthy (workItemId (props e))) then
    (e, [showErrorToast "Validation Error"
           (JStr "Missing configuration or work item id")])
  else
    let call := Apex (updateWorkItem (updateArgs e)) in
    match o with
    | Resolved (Some res) =>
        if r_success res then
          (set_isSaving false e,
           [call;
            showSuccessToast "Saved"
              (or_else (r_message res) (JStr "Work item updated"));
            CloseEditor true (toInt (workItemId (props e)))])
        else
          (set_isSaving false e,
           [call; showErrorToast "Update Failed" (message_or_unknown (Some res))])
    | Resolved None =>
        (set_isSaving false e,
         [call; showErrorToast "Update Failed" (JStr "Unknown error")])
    | Rejected err =>
        (set_isSaving false e,
         [call; showErrorToast "Unexpected Error" (describe err)])
    end.

(** [a !== b] *)
Definition strict_ne (a b : JsVal) : bool := negb (strict_eq a b).

Definition hasChanges (e : Editor) : bool :=
  let p := props e in
  strict_ne (title e) (or_else (initialTitle p) (JStr ""))
  || strict_ne (description e) (or_else (initialDescription p) (JStr ""))
  || strict_ne (state e) (or_else (initialState p) (JStr ""))
  || strict_ne (priority e) (or_else (initialPriority p) (JStr "2")).

(** [!v?.trim()]: a value that is neither a string nor null nor undefined
    has no [trim] to call. *)
Definition trimMissing (v : JsVal) : Throws bool :=
  match v with
  | JUndefined | JNull => inr true
  | JStr s => inr (trim s =? "")%string
  | _ => inl typeError
  end.

Definition isSaveDisabled (e : Editor) : Throws bool :=
  if isSaving e then inr true
  else if negb (hasChanges e) then inr true
  else trimMissing (title e).

Definition handleCancel (e : Editor) : Editor * list Effect :=
  (e, [CloseEditor false JUndefined]).

End Editor.

(* ------------------------------------------------------------------ *)
(** ** The work item manager (AzureDevOpsWorkItemManager) *)

(** ToNumber, as far as a comparison needs it: [None] is NaN, and an
    infinity is placed at 2^1024, beyond every double.  A string converts
    when it is blank or a signed run of decimal digits; the other numeric
    literals denote numbers outside the integers kept by [JsVal]. *)
Fixpoint allDigits (s : string) : bool :=
  match s with
  | EmptyString => true
  | String c r => isDigit c && allDigits r
  end.

Definition stringToNumber (s : string) : option Z :=
  match trim s with
  | EmptyString => Some 0
  | String "-" r =>
      if allDigits r then option_map Z.opp (parseDigits r 0 false) else None
  | String "+" r => if allDigits r then parseDigits r 0 false else None
  | t => if allDigits t then parseDigits t 0 false else None
  end.

Definition toNumber (v : JsVal) : option Z :=
  match v with
  | JUndefined | JNaN => None
  | JNull => Some 0
  | JBool b => Some (if b then 1 else 0)
  | JNum z => Some z
  | JStr s => stringToNumber s
  | JInfinity negative => Some (if negative then - twoTo1024 else twoTo1024)
  end.

(** [a < b]: two strings compare by code units, anything else as numbers,
    and a NaN operand makes the comparison false. *)
Definition js_lt (a b : JsVal) : bool :=
  match a, b with
  | JStr x, JStr y => String.ltb x y
  | _, _ =>
      match toNumber a, toNumber b with
      | Some n, Some m => n <? m
      | _, _ => false
      end
  end.

(** A row of the work item table, as the controller returns it; a field the
    response leaves out is [JUndefined]. *)
Record WorkItem : Type := mkWorkItem {
  wi_workItemId : JsVal;
  wi_title : JsVal;
  wi_workItemType : JsVal;
  wi_state : JsVal;
  wi_assignedTo : JsVal;
  wi_createdDate : JsVal;
  wi_priority : JsVal;
  wi_description : JsVal;
  wi_url : JsVal;
  wi_id : JsVal
}.

(** [w[k]] *)
Definition getField (k : string) (w : WorkItem) : JsVal :=
  if (k =? "workItemId")%string then wi_workItemId w
  else if (k =? "title")%string then wi_title w
  else if (k =? "workItemType")%string then wi_workItemType w
  else if (k =? "state")%string then wi_state w
  else if (k =? "assignedTo")%string then wi_assignedTo w
  else if (k =? "createdDate")%string then wi_createdDate w
  else if (k =? "priority")%string then wi_priority w
  else if (k =? "description")%string then wi_description w
  else if (k =? "url")%string then wi_url w
  else if (k =? "id")%string then wi_id w
  else JUndefined.

(** [{ ...w, id: `${w.workItemId}` }] *)
Definition withId (w : WorkItem) : WorkItem :=
  mkWorkItem (wi_workItemId w) (wi_title w) (wi_workItemType w) (wi_state w)
             (wi_assignedTo w) (wi_createdDate w) (wi_priority w)
             (wi_description w) (wi_url w)
             (JStr (toString (wi_workItemId w))).

Record QueryResponse : Type := mkQueryResponse {
  qr_success : bool;
  qr_message : JsVal;
  qr_workItems : option (list WorkItem)     (* [None]: null or undefined *)
}.

(** What [handleError] receives: a plain value or an error object. *)
Inductive ErrVal : Type :=
| ErrValue (v : JsVal)
| ErrObject (e : JsError).

Record RowAction : Type := mkRowAction {
  a_label : string;
  a_name : string
}.

Inductive Column : Type :=
| DataColumn (label fieldName type : string) (sortable wrapText : bool)
             (initialWidth : Z)
| ActionColumn (rowActions : list RowAction) (initialWidth : option Z).

(** The row actions a column list offers. *)
Definition rowActionsOf (cols : list Column) : list RowAction :=
  flat_map (fun c => match c with
                     | ActionColumn acts _ => acts
                     | DataColumn _ _ _ _ _ _ => []
                     end) cols.

(** [arr.filter(p)] with a callback that may throw. *)
Fixpoint filterT {A : Type} (p : A -> Throws bool) (l : list A)
  : Throws (list A) :=
  match l with
  | [] => inr []
  | x :: r =>
      let* b := p x in
      let* r' := filterT p r in
      inr (if b then x :: r' else r')
  end.

(** [v.toLowerCase()] on any value. *)
Definition lowerOf (v : JsVal) : Throws string :=
  match v with
  | JStr s => inr (toLowerCase s)
  | _ => inl typeError
  end.

Module Manager.

Record Stats : Type := mkStats {
  total : nat;
  inProgress : nat;
  completed : nat
}.

Record Manager : Type := mkManager {
  maxRows : JsVal;                 (* [@api], 10 unless the page sets it *)
  workItems : list WorkItem;
  filteredWorkItems : list WorkItem;
  isLoading : bool;
  error : option ErrVal;           (* [None]: null *)
  selectedConfig : string;
  selectedTypeFilter : string;
  selectedStateFilter : string;
  searchTerm : option string;      (* [None]: null or undefined *)
  sortedBy : string;
  sortedDirection : string;
  workItemStats : Stats;
  columns : list Column;
  hasEdit : bool
}.

Definition initial : Manager :=
  mkManager (JNum 10) [] [] false None "" "" "" (Some "") "title" "asc"
            (mkStats 0 0 0) [] false.

Definition set_isLoading (b : bool) (m : Manager) : Manager :=
  mkManager (maxRows m) (workItems m) (filteredWorkItems m) b (error m)
    (selectedConfig m) (selectedTypeFilter m) (selectedStateFilter m)
    (searchTerm m) (sortedBy m) (sortedDirection m) (workItemStats m)
    (columns m) (hasEdit m).

Definition set_workItems (l : list WorkItem) (m : Manager) : Manager :=
  mkManager (maxRows m) l (filteredWorkItems m) (isLoading m) (error m)
    (selectedConfig m) (selectedTypeFilter m) (selectedStateFilter m)
    (searchTerm m) (sortedBy m) (sortedDirection m) (workItemStats m)
    (columns m) (hasEdit m).

Definition set_filteredWorkItems (l : list WorkItem) (m : Manager) : Manager :=
  mkManager (maxRows m) (workItems m) l (isLoading m) (error m)
    (selectedConfig m) (selectedTypeFilter m) (selectedStateFilter m)
    (searchTerm m) (sortedBy m) (sortedDirection m) (workItemStats m)
    (columns m) (hasEdit m).

(** [this.error = e]; the field holds [None] for null, as it does at
    first. *)
Definition set_error (e : ErrVal) (m : Manager) : Manager :=
  mkManager (maxRows m) (workItems m) (filteredWorkItems m) (isLoading m)
    (match e with
     | ErrValue JNull => None
     | _ => Some e
     end)
    (selectedConfig m) (selectedTypeFilter m) (selectedStateFilter m)
    (searchTerm m) (sortedBy m) (sortedDirection m) (workItemStats m)
    (columns m) (hasEdit m).

Definition set_filters (ty st : string) (m : Manager) : Manager :=
  mkManager (maxRows m) (workItems m) (filteredWorkItems m) (isLoading m)
    (error m) (selectedConfig m) ty st
    (searchTerm m) (sortedBy m) (sortedDirection m) (workItemStats m)
    (columns m) (hasEdit m).

Definition set_workItemStats (s : Stats) (m : Manager) : Manager :=
  mkManager (maxRows m) (workItems m) (filteredWorkItems m) (isLoading m)
    (error m) (selectedConfig m) (selectedTypeFilter m)
    (selectedStateFilter m) (searchTerm m) (sortedBy m) (sortedDirection m)
    s (columns m) (hasEdit m).

Definition set_columns (c : list Column) (m : Manager) : Manager :=
  mkManager (maxRows m) (workItems m) (filteredWorkItems m) (isLoading m)
    (error m) (selectedConfig m) (selectedTypeFilter m)
    (selectedStateFilter m) (searchTerm m) (sortedBy m) (sortedDirection m)
    (workItemStats m) c (hasEdit m).

Definition set_hasEdit (b : bool) (m : Manager) : Manager :=
  mkManager (maxRows m) (workItems m) (filteredWorkItems m) (isLoading m)
    (error m) (selectedConfig m) (selectedTypeFilter m)
    (selectedStateFilter m) (searchTerm m) (sortedBy m) (sortedDirection m)
    (workItemStats m) (columns m) b.

Definition buildColumns (m : Manager) : list Column :=
  let base :=
    [ DataColumn "ID" "workItemId" "number" true false 80;
      DataColumn "Title" "title" "text" true true 300;
      DataColumn "Type" "workItemType" "text" true false 120;
      DataColumn "State" "state" "text" true false 110;
      DataColumn "Assigned To" "assignedTo" "text" true false 150;
      DataColumn "Created Date" "createdDate" "date" true false 130;
      DataColumn "Priority" "priority" "text" true false 100 ] in
  let actions := [] in
  let actions :=
    if hasEdit m then
      (actions ++ [mkRowAction "Edit" "edit"]) ++ [mkRowAction "Delete" "delete"]
    else actions in
  let actions := actions ++ [mkRowAction "Open in Azure" "open_azure"] in
  base ++ [ActionColumn actions (Some 100)].

Definition checkPermission (o : Outcome JsVal) (m : Manager)
  : Manager * list Effect :=
  let m1 := match o with
            | Resolved res => set_hasEdit (truthy res) m
            | Rejected _ => set_hasEdit false m
            end in
  (set_columns (buildColumns m1) m1, [Apex hasEditPermission]).

Definition createDisabled (m : Manager) : bool := negb (hasEdit m).

(** The comparator handed to [d.sort]. *)
Definition compareRows (k : string) (rev : Z) (a b : WorkItem) : Throws Z :=
  let va := getField k a in
  let vb := getField k b in
  let* vs :=
    (if is_string va then
       let* la := lowerOf va in
       let* lb := lowerOf vb in
       inr (JStr la, JStr lb)
     else inr (va, vb)) in
  inr (if js_lt (fst vs) (snd vs) then -1 * rev
       else if js_lt (snd vs) (fst vs) then 1 * rev
       else 0).

(** [Array.prototype.sort] is stable, and sorts by calls of the
    comparator: here each element in turn is placed in front of the
    first one it compares below.  Which pairs an engine compares, and in
    which order, is its own choice, and so is the order it returns when
    the comparator is not consistent (say with an undefined value among
    numbers, which compares equal to each of them).  When the comparator
    cannot throw and is consistent the choice does not show: every stable
    sort returns the same list ([sortData_stable]), and the properties of
    the order are stated for such columns. *)
Fixpoint insertRow (cmp : WorkItem -> WorkItem -> Throws Z) (x : WorkItem)
  (l : list WorkItem) : Throws (list WorkItem) :=
  match l with
  | [] => inr [x]
  | y :: r =>
      let* n := cmp x y in
      if n <? 0 then inr (x :: y :: r)
      else let* r' := insertRow cmp x r in inr (y :: r')
  end.

Fixpoint sortRows (cmp : WorkItem -> WorkItem -> Throws Z)
  (done todo : list WorkItem) : Throws (list WorkItem) :=
  match todo with
  | [] => inr done
  | x :: r =>
      let* done' := insertRow cmp x done in
      sortRows cmp done' r
  end.

Definition sortData (m : Manager) (d : list WorkItem)
  : Throws (list WorkItem) :=
  let k := sortedBy m in
  let rev := if (sortedDirection m =? "desc")%string then -1 else 1 in
  sortRows (compareRows k rev) [] d.

(** The search callback of [applyFilters]. *)
Definition matchesSearch (s : string) (i : WorkItem) : Throws bool :=
  let* t := lowerOf (or_else (wi_title i) (JStr "")) in
  if includes s t then inr true
  else if includes s (toString (wi_workItemId i)) then inr true
  else
    let* a := lowerOf (or_else (wi_assignedTo i) (JStr "")) in
    inr (includes s a).

(** [this.searchTerm?.toLowerCase()], kept when it is truthy. *)
Definition activeSearch (m : Manager) : option string :=
  match searchTerm m with
  | None => None
  | Some t => if (toLowerCase t =? "")%string then None
              else Some (toLowerCase t)
  end.

Definition typeMatches (m : Manager) (i : WorkItem) : bool :=
  strict_eq (wi_workItemType i) (JStr (selectedTypeFilter m)).

Definition stateMatches (m : Manager) (i : WorkItem) : bool :=
  strict_eq (wi_state i) (JStr (selectedStateFilter m)).

Definition applyFilters (m : Manager) : Throws Manager :=
  let f := workItems m in
  let* f := match activeSearch m with
            | Some s => filterT (matchesSearch s) f
            | None => inr f
            end in
  let f := if (selectedTypeFilter m =? "")%string then f
           else filter (typeMatches m) f in
  let f := if (selectedStateFilter m =? "")%string then f
           else filter (stateMatches m) f in
  let* f := sortData m f in
  inr (set_filteredWorkItems f m).

(** [list.includes(v)] on a list of strings. *)
Definition oneOf (names : list string) (v : JsVal) : bool :=
  existsb (fun n => strict_eq (JStr n) v) names.

Definition calculateStats (m : Manager) : Manager :=
  set_workItemStats
    (mkStats
       (List.length (workItems m))
       (List.length (filter (fun i => oneOf ["Active"; "Doing"; "In Progress"]
                                            (wi_state i)) (workItems m)))
       (List.length (filter (fun i => oneOf ["Closed"; "Done"; "Resolved"]
                                            (wi_state i)) (workItems m))))
    m.

(** [err && err.message ? err.message : String(err)] *)
Definition errorText (err : ErrVal) : JsVal :=
  match err with
  | ErrValue v => JStr (toString v)
  | ErrObject e =>
      if truthy (of_option (err_message e)) then of_option (err_message e)
      else JStr (err_string e)
  end.

Definition handleError (title : string) (err : ErrVal) (m : Manager)
  : Manager * list Effect :=
  (set_error err m, [ShowToast (mkToast title (errorText err) VError None)]).

Definition queryArgs (m : Manager) : QueryArgs :=
  mkQueryArgs (JStr (selectedConfig m))
              (or_else (JStr (selectedTypeFilter m)) JNull)
              (or_else (JStr (selectedStateFilter m)) JNull)
              (or_else (maxRows m) (JNum 50)).

Definition loadWorkItems (o : Outcome (option QueryResponse)) (m : Manager)
  : Manager * list Effect :=
  if (selectedConfig m =? "")%string then (m, [])
  else
    let call := Apex (getWorkItems (queryArgs m)) in
    let m1 := set_isLoading true m in
    let '(m2, effs) :=
      match o with
      | Resolved (Some res) =>
          if qr_success res then
            let items := match qr_workItems res with
                         | Some l => l
                         | None => []
                         end in
            let m2 := set_workItems (map withId items) m1 in
            match applyFilters m2 with
            | inr m3 => (calculateStats m3, [])
            | inl e => handleError "Failed to load work items" (ErrObject e) m2
            end
          else handleError "Failed to load work items"
                           (ErrValue (qr_message res)) m1
      | Resolved None =>
          handleError "Failed to load work items" (ErrValue JNull) m1
      | Rejected e =>
          handleError "Failed to load work items" (ErrObject e) m1
      end in
    (set_isLoading false m2, call :: effs).

(** The event handlers of the two filter comboboxes; an exception of
    [applyFilters] leaves the handler and the component as it was set. *)
Definition handleTypeFilterChange (value : string) (m : Manager)
  : Throws Manager :=
  applyFilters (set_filters value (selectedStateFilter m) m).

Definition handleStateFilterChange (value : string) (m : Manager)
  : Throws Manager :=
  applyFilters (set_filters (selectedTypeFilter m) value m).

Definition deleteOptions : ModalOptions :=
  mkModalOptions "small" "confirm" "Confirm Deletion"
    "Are you sure you want to delete the record?" "Delete" "Cancel"
    "destructive" (Some false).

Definition handleDeleteAction (row : WorkItem)
  (modalResult : option ModalResult)
  (o : Outcome (option ApexResponse))
  (reload : Outcome (option QueryResponse))
  (m : Manager) : Manager * list Effect :=
  let id := or_else (wi_workItemId row) (wi_id row) in
  let conf := JStr (selectedConfig m) in
  let opened := OpenUniversalModal deleteOptions in
  match modalResult with
  | None => (m, [opened])
  | Some r =>
      if negb (confirmed r) then (m, [opened])
      else
        let call :=
          Apex (deleteWorkItemWithReason
                  (mkDeleteArgs conf id
                     (or_else (of_option (res_reason r)) JNull))) in
        match o with
        | Resolved (Some res) =>
            if r_success res then
              let '(m', effs) := loadWorkItems reload m in
              (m', [opened; call;
                    showSuccessToast "Deleted"
                      (or_else (r_message res) (JStr "Work item deleted"))]
                   ++ effs)
            else
              (m, [opened; call;
                   showErrorToast "Delete Failed" (message_or_unknown (Some res))])
        | Resolved None =>
            (m, [opened; call;
                 showErrorToast "Delete Failed" (JStr "Unknown error")])
        | Rejected e =>
            let '(m', effs) := handleError "Delete failed" (ErrObject e) m in
            (m', [opened; call] ++ effs)
        end
  end.

(** [handleCreateWorkItem]: open the creator, reload on success. *)
Definition handleCreateWorkItem (result : option CreatorResult)
  (reload : Outcome (option QueryResponse)) (m : Manager)
  : Manager * list Effect :=
  match result with
  | Some r =>
      if cr_success r then
        let '(m', effs) := loadWorkItems reload m in
        (m', [OpenCreator;
              showSuccessToast "Success!"
                (or_else (cr_message r) (JStr "Work item created"))] ++ effs)
      else (m, [OpenCreator])
  | None => (m, [OpenCreator])
  end.

(** [handleEditAction]: open the editor on the row, reload on success;
    [result] is the [success] field of what the editor closed with. *)
Definition handleEditAction (row : WorkItem) (result : option bool)
  (reload : Outcome (option QueryResponse)) (m : Manager)
  : Manager * list Effect :=
  let opened :=
    OpenEditor
      (mkProps (or_else (wi_workItemId row) (wi_id row))
               (or_else (wi_workItemType row) (JStr ""))
               (or_else (wi_title row) (JStr ""))
               (or_else (wi_description row) (JStr ""))
               (or_else (wi_state row) (JStr ""))
               (or_else (wi_priority row) (JStr "2"))
               (JStr (selectedConfig m))
               (or_else (wi_title row) (JStr ""))
               (or_else (wi_description row) (JStr ""))
               (or_else (wi_state row) (JStr ""))
               (or_else (wi_priority row) (JStr "2"))) in
  match result with
  | Some true =>
      let '(m', effs) := loadWorkItems reload m in
      (m', [opened;
            showSuccessToast "Updated" (JStr "Work item updated successfully")]
           ++ effs)
  | _ => (m, [opened])
  end.

(** [handleRowAction]: [a] is [e.detail.action && e.detail.action.name],
    [r] the row of the event. *)
Definition handleRowAction (a : JsVal) (r : option WorkItem)
  (editorResult : option bool) (modalResult : option ModalResult)
  (o : Outcome (option ApexResponse))
  (reload : Outcome (option QueryResponse)) (m : Manager)
  : Manager * list Effect :=
  match r with
  | None => (m, [])
  | Some row =>
      if negb (truthy a) then (m, [])
      else if strict_eq a (JStr "open_azure") then
        if truthy (wi_url row) then (m, [OpenWindow (wi_url row)])
        else (m, [showInfoToast "No URL" (JStr "No external URL available")])
      else if strict_eq a (JStr "edit") then
        handleEditAction row editorResult reload m
      else if strict_eq a (JStr "delete") then
        handleDeleteAction row modalResult o reload m
      else
        (m, [showInfoToast "Action"
               (JStr ("Unknown action: " ++ toString a)%string)])
  end.

(** The options of a filter combobox and the hash they were built for. *)
Record OptionCache : Type := mkOptionCache {
  cachedOptions : option (list SelectOption);   (* [None]: null *)
  cachedHash : string
}.

Definition emptyCache : OptionCache := mkOptionCache None "".

(** The body the getters [typeFilterOptions] and [stateFilterOptions]
    share: [column] reads the column of a row, [allLabel] is the label of
    the first option, [stringify] is [JSON.stringify] on a list of values. *)
Definition filterOptions (stringify : list JsVal -> string)
  (column : WorkItem -> JsVal) (allLabel : string) (cache : OptionCache)
  (m : Manager) : OptionCache * option (list SelectOption) :=
  let hash :=
    stringify (map (fun i => or_else (column i) (JStr "")) (workItems m)) in
  let cache' :=
    if negb (cachedHash cache =? hash)%string then
      mkOptionCache
        (Some (mkOption (JStr allLabel) (JStr "") JUndefined
               :: map (fun t => mkOption t t JUndefined)
                      (uniq (map column (workItems m)))))
        hash
    else cache in
  (cache', cachedOptions cache').

Definition typeFilterOptions (stringify : list JsVal -> string)
  : OptionCache -> Manager -> OptionCache * option (list SelectOption) :=
  filterOptions stringify wi_workItemType "All Types".

Definition stateFilterOptions (stringify : list JsVal -> string)
  : OptionCache -> Manager -> OptionCache * option (list SelectOption) :=
  filterOptions stringify wi_state "All States".

Definition handleSort (fieldName sortDirection : string) (m : Manager)
  : Throws Manager :=
  applyFilters
    (mkManager (maxRows m) (workItems m) (filteredWorkItems m) (isLoading m)
       (error m) (selectedConfig m) (selectedTypeFilter m)
       (selectedStateFilter m) (searchTerm m) fieldName sortDirection
       (workItemStats m) (columns m) (hasEdit m)).

Definition handleRefresh (o : Outcome (option QueryResponse)) (m : Manager)
  : Manager * list Effect :=
  loadWorkItems o m.


End Manager.

(* ------------------------------------------------------------------ *)
(** ** The work item list (AzureWorkItemList) *)

Module WorkItemList.

Record WorkItemList : Type := mkList {
  configName : JsVal;
  maxRows : JsVal;
  workItems : list WorkItem;
  isLoading : bool;
  _lastWorkItemsSerialized : string
}.

Definition initial : WorkItemList := mkList JUndefined (JNum 25) [] false "".

Definition rowActions : list RowAction :=
  [mkRowAction "Delete" "delete"; mkRowAction "Edit" "edit"].

Definition columns : list Column :=
  [ DataColumn "ID" "workItemId" "number" false false 0;
    DataColumn "Title" "title" "text" false false 0;
    DataColumn "Type" "workItemType" "text" false false 0;
    ActionColumn rowActions None ].

Definition deleteOptions : ModalOptions :=
  mkModalOptions "small" "confirm" "Confirm Deletion"
    "Are you sure you want to delete the record?" "Delete" "Cancel"
    "destructive" None.

Section WithStringify.

(** [JSON.stringify] on the list of rows, a function of the platform. *)
Variable stringify : list WorkItem -> string.

Definition load (o : Outcome (option QueryResponse)) (c : WorkItemList)
  : WorkItemList * list Effect :=
  if negb (truthy (configName c)) then (c, [])
  else
    let call :=
      Apex (getWorkItems
              (mkQueryArgs (configName c) JUndefined JUndefined (maxRows c))) in
    match o with
    | Resolved (Some res) =>
        if qr_success res then
          let incoming := match qr_workItems res with
                          | Some l => l
                          | None => []
                          end in
          let serialized := stringify incoming in
          if (serialized =? _lastWorkItemsSerialized c)%string then
            (mkList (configName c) (maxRows c) (workItems c) false
                    (_lastWorkItemsSerialized c), [call])
          else
            (mkList (configName c) (maxRows c) (map withId incoming) false
                    serialized, [call])
        else
          (mkList (configName c) (maxRows c) (workItems c) false
                  (_lastWorkItemsSerialized c),
           [call; showErrorToast "Load failed" (qr_message res)])
    | Resolved None =>
        (mkList (configName c) (maxRows c) (workItems c) false
                (_lastWorkItemsSerialized c),
         [call; showErrorToast "Load failed" JNull])
    | Rejected e =>
        (mkList (configName c) (maxRows c) (workItems c) false
                (_lastWorkItemsSerialized c),
         [call; showErrorToast "Load failed" (of_option (err_message e))])
    end.

(** [a] is [e.detail.action && e.detail.action.name]. *)
Definition handleRowAction (a : JsVal) (r : WorkItem)
  (modalResult : option ModalResult)
  (o : Outcome (option ApexResponse))
  (reload : Outcome (option QueryResponse))
  (c : WorkItemList) : WorkItemList * list Effect :=
  if strict_eq a (JStr "delete") then
    let opened := OpenUniversalModal deleteOptions in
    match modalResult with
    | None => (c, [opened])
    | Some m =>
        if negb (confirmed m) then (c, [opened])
        else
          let call :=
            Apex (deleteWorkItemWithReason
                    (mkDeleteArgs (configName c) (wi_workItemId r)
                       (or_else (of_option (res_reason m)) JNull))) in
          match o with
          | Resolved (Some res) =>
              if r_success res then
                let '(c', effs) := load reload c in
                (c', [opened; call;
                      showSuccessToast "Deleted"
                        (or_else (r_message res) (JStr "Work item deleted"))]
                     ++ effs)
              else
                (c, [opened; call;
                     showErrorToast "Delete failed" (r_message res)])
          | Resolved None =>
              (c, [opened; call; showErrorToast "Delete failed" JNull])
          | Rejected err =>
              (c, [opened; call;
                   showErrorToast "Delete failed"
                     (of_option (err_message err))])
          end
    end
  else (c, []).

End WithStringify.

End WorkItemList.

(* ------------------------------------------------------------------ *)
(** ** azureIntegration.js *)

Module AzureIntegration.

(** A destructured parameter with a default: the default stands in for
    [undefined] only. *)
Definition withDefault (v d : JsVal) : JsVal :=
  match v with
  | JUndefined => d
  | _ => v
  end.

Definition fetchWorkItems (a : QueryArgs) : list Effect :=
  [Apex (getWorkItems
           (mkQueryArgs (q_configName a)
                        (withDefault (q_workItemType a) JNull)
                        (withDefault (q_state a) JNull)
                        (withDefault (q_maxResults a) (JNum 50))))].

Definition create (a : CreateArgs) : list Effect :=
  [Apex (createWorkItem a)].

Definition update (a : UpdateArgs) : list Effect :=
  [Apex (updateWorkItem a)].

Definition remove (a : DeleteArgs) : list Effect :=
  [Apex (deleteWorkItemWithReason a)].

End AzureIntegration.

(* ------------------------------------------------------------------ *)
(** ** The Apex service layer (AzureDevOpsService)

    The Apex classes reach this development through the excerpts quoted in
    the repository's coding instructions and through the design document. *)

Module Service.

(** A value of an Apex [Map<String, Object>]. *)
Inductive FieldValue : Type :=
| FText (s : string)
| FInteger (z : Z)
| FNull.

(** [Map<String, Object>]: keys in insertion order. *)
Definition FieldSet : Type := list (string * FieldValue).

Fixpoint get (k : string) (m : FieldSet) : option FieldValue :=
  match m with
  | [] => None
  | (k', v) :: r => if (k' =? k)%string then Some v else get k r
  end.

Definition containsKey (k : string) (m : FieldSet) : bool :=
  match get k m with Some _ => true | None => false end.

Definition remove (k : string) (m : FieldSet) : FieldSet :=
  filter (fun kv => negb (fst kv =? k)%string) m.

(** [m.put(k, v)]: a key that is present keeps its place. *)
Fixpoint put (k : string) (v : FieldValue) (m : FieldSet) : FieldSet :=
  match m with
  | [] => [(k, v)]
  | (k', v') :: r =>
      if (k' =? k)%string then (k, v) :: r else (k', v') :: put k v r
  end.

(** [String.valueOf] *)
Definition valueOf (v : FieldValue) : string :=
  match v with
  | FText s => s
  | FInteger z => string_of_Z z
  | FNull => "null"
  end.

Definition terminalStates : list string := ["Done"; "Closed"; "Resolved"].

(** Modelled from the spec: the membership test of [removeTerminalState],
    whose argument the excerpt elides.  The design document has the state
    value compared with the terminal-state names without regard to
    case. *)
Definition isTerminalState (v : FieldValue) : bool :=
  existsb (fun t => (toLowerCase t =? toLowerCase (valueOf v))%string)
          terminalStates.

(** [removeTerminalState], after the excerpt: the state entry leaves the
    copy when the map has one and its value is a terminal state. *)
Definition removeTerminalState (fields : FieldSet) : FieldSet :=
  let copy := fields in
  match get "System.State" fields with
  | Some v => if isTerminalState v then remove "System.State" copy else copy
  | None => copy
  end.

Record PatchOperation : Type := mkPatch {
  op : string;
  path : string;
  value : FieldValue
}.

(** Modelled from the spec: [buildPatch], the JSON-Patch builder of the
    service class, which is not among the sources.  Each entry of the
    field set becomes one "add" operation on [/fields/<key>], in the
    order of the field set. *)
Definition buildPatch (fields : FieldSet) : list PatchOperation :=
  map (fun kv => mkPatch "add" ("/fields/" ++ fst kv)%string (snd kv)) fields.

(** Modelled from the spec: the body a create request submits, the patch
    of the fields once the terminal state is stripped. *)
Definition createRequestBody (fields : FieldSet) : list PatchOperation :=
  buildPatch (removeTerminalState fields).

(** Modelled from the spec: the body of an update request, the patch of
    the fields as they are. *)
Definition updateRequestBody (fields : FieldSet) : list PatchOperation :=
  buildPatch fields.

(** *** Authentication with a fallback *)

Record AzureConfig : Type := mkConfig {
  organization : string;
  project : string;
  namedCredential : string;
  personalAccessToken : string
}.

Inductive ApexException : Type :=
| AzureDevOpsException (msg : string)
| ConfigurationError (msg : string)
| CalloutException (msg : string).

Record AzureResult : Type := mkResult {
  success : bool;
  workItemId : option Z;
  message : string;
  statusCode : Z
}.

Inductive Strategy : Type := ManagedCredential | SecretToken.

Section DualAuth.

(** The state of the world the callouts act on. *)
Variable World : Type.

(** A computation of the service: it ends in a value or an exception,
    changes the world, and extends the record of the authentication
    strategies it tried. *)
Definition ApexM (A : Type) : Type :=
  World * list Strategy -> (ApexException + A) * (World * list Strategy).

Definition ret {A : Type} (a : A) : ApexM A := fun s => (inr a, s).

Definition throw {A : Type} (e : ApexException) : ApexM A :=
  fun s => (inl e, s).

(** [try { body } catch (AzureDevOpsException ex) { handler }] *)
Definition tryCatch {A : Type} (body : ApexM A)
  (handler : string -> ApexM A) : ApexM A :=
  fun s =>
    match body s with
    | (inl (AzureDevOpsException ex), s') => handler ex s'
    | other => other
    end.

(** One call of a strategy, entered in the record. *)
Definition attempt {A : Type} (k : Strategy)
  (call : World -> (ApexException + A) * World) : ApexM A :=
  fun s =>
    let '(r, w') := call (fst s) in
    (r, (w', snd s ++ [k])).

(** The parts of the service class the excerpt calls. *)
Variable hasNamedCredential : AzureConfig -> bool.
Variable hasPersonalAccessToken : AzureConfig -> bool.
Variable createWorkItemWithNamedCredential :
  AzureConfig -> string -> FieldSet ->
  World -> (ApexException + AzureResult) * World.
Variable createWorkItemWithToken :
  string -> AzureConfig -> string -> FieldSet ->
  World -> (ApexException + AzureResult) * World.

(** The dual-auth excerpt of [createWorkItem]. *)
Definition createWorkItem (config : AzureConfig) (type : string)
  (fields : FieldSet) : ApexM AzureResult :=
  if hasNamedCredential config then
    tryCatch
      (attempt ManagedCredential
         (createWorkItemWithNamedCredential config type fields))
      (fun ex =>
         if hasPersonalAccessToken config then
           attempt SecretToken
             (createWorkItemWithToken (personalAccessToken config)
                                      config type fields)
         else throw (AzureDevOpsException ex))
  else
    (* Modelled from the spec: what follows the excerpt.  A config with
       only a secret token uses it directly; one with neither fails
       before any call. *)
    if hasPersonalAccessToken config then
      attempt SecretToken
        (createWorkItemWithToken (personalAccessToken config)
                                 config type fields)
    else throw (ConfigurationError "No authentication configured").

(** The strategies one call tries, in order, from an empty record. *)
Definition attempts (config : AzureConfig) (type : string)
  (fields : FieldSet) (w : World) : list Strategy :=
  snd (snd (createWorkItem config type fields (w, []))).

End DualAuth.

(** *** Reading work items *)

Inductive ServiceError : Type :=
| ValidationError (msg : string).

Definition defaultMaxResults : Z := 50.

(** Modelled from the spec: the [maxResults] check of [getWorkItems] in
    the controller, which is not among the sources.  An argument the
    request leaves unspecified (undefined or null) stands for 50; a
    positive integer stands for itself; anything else is a validation
    error. *)
Definition checkMaxResults (maxResults : JsVal) : ServiceError + Z :=
  match maxResults with
  | JUndefined | JNull => inr defaultMaxResults
  | JNum n =>
      if 0 <? n then inr n
      else inl (ValidationError "maxResults must be a positive integer")
  | _ => inl (ValidationError "maxResults must be a positive integer")
  end.

(** Modelled from the spec: [getWorkItems], with the remote query as the
    first [maxResults] rows the remote service holds. *)
Definition getWorkItems (remote : list WorkItem) (maxResults : JsVal)
  : ServiceError + list WorkItem :=
  match checkMaxResults maxResults with
  | inl e => inl e
  | inr n => inr (firstn (Z.to_nat n) remote)
  end.


End Service.

(* ------------------------------------------------------------------ *)
(** ** The vocabulary of the properties *)

(** A string made of white space only (the empty string included). *)
Fixpoint allWhitespace (s : string) : bool :=
  match s with
  | EmptyString => true
  | String c r => isWhitespace c && allWhitespace r
  end.

(** A reason that is missing, empty or white space only. *)
Definition blank (r : option string) : bool :=
  match r with
  | None => true
  | Some s => allWhitespace s
  end.

(** What [reason || null] forwards. *)
Definition forwarded (reason : option string) : JsVal :=
  match reason with
  | None => JNull
  | Some s => if (s =? "")%string then JNull else JStr s
  end.

(** The one row action left to a user without the edit permission. *)
Definition openInAzure : RowAction := mkRowAction "Open in Azure" "open_azure".

Definition permissionDenied : Effect :=
  showErrorToast "Permission Denied"
                 (JStr "You do not have permission to create work items.").

(** The rows of one column are all strings, or none is: then the
    comparator of [sortData] lower-cases both sides or neither. *)
Definition sortable (k : string) (l : list WorkItem) : bool :=
  forallb (fun i => is_string (getField k i)) l
  || forallb (fun i => negb (is_string (getField k i))) l.

(** The row passes the type filter and the state filter, an empty filter
    letting every row pass. *)
Definition passes (m : Manager.Manager) (i : WorkItem) : bool :=
  ((Manager.selectedTypeFilter m =? "")%string || Manager.typeMatches m i)
  && ((Manager.selectedStateFilter m =? "")%string || Manager.stateMatches m i).

(** A label that is a string with at least one character. *)
Definition nonEmptyLabel (o : SelectOption) : bool :=
  match o_label o with
  | JStr s => negb (s =? "")%string
  | _ => false
  end.

(** The key [sortData] compares a row by: the column value, lower-cased
    when it is a string. *)
Definition sortKey (k : string) (i : WorkItem) : JsVal :=
  match getField k i with
  | JStr s => JStr (toLowerCase s)
  | v => v
  end.

(** [b] is not below [a], and [b] is not above [a]. *)
Definition ascending (k : string) (a b : WorkItem) : Prop :=
  js_lt (sortKey k b) (sortKey k a) = false.

Definition descending (k : string) (a b : WorkItem) : Prop :=
  js_lt (sortKey k a) (sortKey k b) = false.

(** The order the manager displays its rows in. *)
Definition displayOrder (m : Manager.Manager) : WorkItem -> WorkItem -> Prop :=
  if (Manager.sortedDirection m =? "desc")%string
  then descending (Manager.sortedBy m)
  else ascending (Manager.sortedBy m).

(** A number that is not NaN. *)
Definition isNumeric (v : JsVal) : bool :=
  match v with
  | JNum _ | JInfinity _ => true
  | _ => false
  end.

(** The rows of one column are all strings, or all numbers other than
    NaN: then the comparator of [sortData] is consistent, it orders the
    rows. *)
Definition comparable (k : string) (l : list WorkItem) : bool :=
  forallb (fun i => is_string (getField k i)) l
  || forallb (fun i => isNumeric (getField k i)) l.

(** The comparator of [sortData] puts [a] in front of [b]. *)
Definition before (m : Manager.Manager) (a b : WorkItem) : bool :=
  if (Manager.sortedDirection m =? "desc")%string
  then js_lt (sortKey (Manager.sortedBy m) b) (sortKey (Manager.sortedBy m) a)
  else js_lt (sortKey (Manager.sortedBy m) a) (sortKey (Manager.sortedBy m) b).

(** Under a comparison [lt]: [b] does not go in front of [a]; and neither
    of the two goes in front of the other. *)
Definition notAfter (lt : WorkItem -> WorkItem -> bool) (a b : WorkItem)
  : Prop :=
  lt b a = false.

Definition equalUnder (lt : WorkItem -> WorkItem -> bool) (a b : WorkItem)
  : bool :=
  negb (lt a b) && negb (lt b a).

(** The comparator takes the two rows for equal. *)
Definition tied (m : Manager.Manager) : WorkItem -> WorkItem -> bool :=
  equalUnder (before m).

(** [l'] is [l] sorted the way a stable sort does it: the rows of [l],
    each as often, every row in display order with all the rows after it,
    and the rows the comparator takes for equal in the order [l] has
    them. *)
Definition stableSorting (m : Manager.Manager) (l l' : list WorkItem) : Prop :=
  Permutation l l'
  /\ StronglySorted (displayOrder m) l'
  /\ forall x, In x l -> filter (tied m x) l' = filter (tied m x) l.



(** The string starts with a decimal digit. *)
Definition startsWithDigit (s : string) : bool :=
  match s with
  | String c _ => isDigit c
  | EmptyString => false
  end.

(** After its leading white space and one sign, the string starts with a
    decimal digit: it starts with an integer written in base 10. *)
Definition startsWithInteger (s : string) : bool :=
  match trimStart s with
  | String "-" r => startsWithDigit r
  | String "+" r => startsWithDigit r
  | t => startsWithDigit t
  end.

(** A value the search can read: a string, or a falsy value, which the
    search replaces by the empty string. *)
Definition textual (v : JsVal) : bool := is_string v || negb (truthy v).

Definition searchable (l : list WorkItem) : bool :=
  forallb (fun i => textual (wi_title i) && textual (wi_assignedTo i)) l.

(** The search can read every fetched row: no term is set, or every
    title and assignee is a string or falsy. *)
Definition readable (m : Manager.Manager) : bool :=
  match Manager.activeSearch m with
  | None => true
  | Some _ => searchable (Manager.workItems m)
  end.

(** The lower-cased text the search looks into. *)
Definition searchText (v : JsVal) : string :=
  match v with
  | JStr t => toLowerCase t
  | _ => ""
  end.

(** The term occurs in the title, in the id or in the assignee. *)
Definition found (s : string) (i : WorkItem) : bool :=
  includes s (searchText (wi_title i))
  || includes s (toString (wi_workItemId i))
  || includes s (searchText (wi_assignedTo i)).

(** The row passes the search box, an empty box letting every row pass. *)
Definition searched (m : Manager.Manager) (i : WorkItem) : bool :=
  match Manager.activeSearch m with
  | None => true
  | Some s => found s i
  end.

(** A value a required form field counts as filled in. *)
Definition filledIn (v : JsVal) : bool :=
  match v with
  | JNull | JUndefined => false
  | _ => negb (allWhitespace (toString v))
  end.

(** What the form data hold under a name counts as filled in: an own
    value that does, or a member of the prototype. *)
Definition held (x : UniversalModal.Member) : bool :=
  match x with
  | UniversalModal.Own v => filledIn v
  | UniversalModal.Inherited => true
  end.

(** Neither null nor undefined. *)
Definition defined (v : JsVal) : bool :=
  match v with
  | JNull | JUndefined => false
  | _ => true
  end.

(* ------------------------------------------------------------------ *)
(** ** Proof steps *)

(** Closes the goal that a confirmed delete has the effects: the modal, the
    one call, and a rest [H] shows free of write calls. *)
Ltac shape_of_delete H :=
  eexists; split; [reflexivity|]; split; [assumption|];
  split; [|reflexivity]; first [exact H | reflexivity].

(** One digit of [String(n)] read by [parseDigits]. *)
Ltac digit_step :=
  cbn [NilEmpty.string_of_uint parseDigits Pos.of_uint_acc Pos.of_uint];
  repeat match goal with
    | |- context [isDigit ?c] => change (isDigit c) with true
    | |- context [digitValue ?c] =>
        let v := eval vm_compute in (digitValue c) in
        change (digitValue c) with v
    end;
  cbv iota.

(* ------------------------------------------------------------------ *)
(** ** Strings *)

Lemma trimStart_empty (s : string) :
  trimStart s = "" <-> allWhitespace s = true.
Proof.
  induction s as [|c r IH]; simpl.
  - tauto.
  - destruct (isWhitespace c); simpl.
    + exact IH.
    + split; discriminate.
Qed.

Lemma trimStart_head (s : string) (c : ascii) (r : string) :
  trimStart s = String c r -> isWhitespace c = false.
Proof.
  induction s as [|d t IH]; simpl.
  - discriminate.
  - destruct (isWhitespace d) eqn:Hd.
    + exact IH.
    + intros H. injection H as -> _. exact Hd.
Qed.

Lemma trimEnd_keeps_head (c : ascii) (r : string) :
  isWhitespace c = false -> trimEnd (String c r) <> "".
Proof.
  intros Hc. simpl. rewrite Hc. simpl. discriminate.
Qed.

Lemma trim_empty_iff (s : string) :
  trim s = "" <-> allWhitespace s = true.
Proof.
  unfold trim. split.
  - intros H. destruct (trimStart s) as [|c r] eqn:Hs.
    + now apply trimStart_empty.
    + exfalso. apply trimStart_head in Hs.
      now apply (trimEnd_keeps_head c r).
  - intros H. apply trimStart_empty in H. now rewrite H.
Qed.

Lemma trim_eqb_blank (s : string) :
  (trim s =? "")%string = allWhitespace s.
Proof.
  destruct (allWhitespace s) eqn:H.
  - apply String.eqb_eq. now apply trim_empty_iff.
  - apply String.eqb_neq. intros E. apply trim_empty_iff in E. congruence.
Qed.

(* ------------------------------------------------------------------ *)
(** ** universalModal: a required reason *)

Lemma reasonMissing_blank (m : UniversalModal.Modal) :
  UniversalModal.reasonMissing m = blank (UniversalModal.reason m).
Proof.
  unfold UniversalModal.reasonMissing, blank.
  destruct (UniversalModal.reason m); [apply trim_eqb_blank | reflexivity].
Qed.

(** C8. In a confirm modal that requires a reason, the confirm button is
    disabled exactly when the reason is blank (missing, empty or white space
    only); [handleConfirm] then leaves the modal open and unchanged; and
    every result [handleConfirm] closes the modal with is confirmed and
    carries a reason that is not blank. *)
Theorem confirm_requires_reason (m : UniversalModal.Modal) :
  UniversalModal.modalType m = "confirm" ->
  UniversalModal.requireReason m = true ->
  UniversalModal.isConfirmDisabled m = blank (UniversalModal.reason m)
  /\ (blank (UniversalModal.reason m) = true ->
      UniversalModal.handleConfirm m = (m, []))
  /\ (forall r,
        In (CloseModal r) (snd (UniversalModal.handleConfirm m)) ->
        confirmed r = true /\ blank (res_reason r) = false).
Proof.
  intros Hty Hreq.
  unfold UniversalModal.isConfirmDisabled, UniversalModal.handleConfirm.
  rewrite Hty, Hreq, reasonMissing_blank. simpl.
  split; [reflexivity|]. split.
  - intros ->. reflexivity.
  - intros r. destruct (blank (UniversalModal.reason m)) eqn:Hb; simpl.
    + tauto.
    + intros [H | []]. injection H as <-. simpl. auto.
Qed.

Lemma confirm_requires_reason_witness :
  let m := UniversalModal.mkModal "confirm" true None [] (Some "  ") false in
  UniversalModal.isConfirmDisabled m = blank (UniversalModal.reason m)
  /\ (blank (UniversalModal.reason m) = true ->
      UniversalModal.handleConfirm m = (m, []))
  /\ (forall r,
        In (CloseModal r) (snd (UniversalModal.handleConfirm m)) ->
        confirmed r = true /\ blank (res_reason r) = false).
Proof.
  apply (confirm_requires_reason
           (UniversalModal.mkModal "confirm" true None [] (Some "  ") false));
    reflexivity.
Defined.

(* ------------------------------------------------------------------ *)
(** ** Counting the calls of a handler *)

Lemma count_app (p : Effect -> bool) (l1 l2 : list Effect) :
  count p (l1 ++ l2) = (count p l1 + count p l2)%nat.
Proof.
  unfold count. now rewrite filter_app, length_app.
Qed.

Lemma count_zero_not_in (p : Effect -> bool) (l : list Effect) (e : Effect) :
  count p l = 0%nat -> In e l -> p e = false.
Proof.
  unfold count. intros H Hin.
  destruct (p e) eqn:Hp; [|reflexivity].
  assert (Hf : In e (filter p l)) by (apply filter_In; auto).
  destruct (filter p l); [destruct Hf | discriminate].
Qed.

Lemma manager_handleError_no_write (t : string) (err : ErrVal)
  (m : Manager.Manager) :
  count is_write (snd (Manager.handleError t err m)) = 0%nat.
Proof. reflexivity. Qed.

Lemma manager_load_no_write (o : Outcome (option QueryResponse))
  (m : Manager.Manager) :
  count is_write (snd (Manager.loadWorkItems o m)) = 0%nat.
Proof.
  unfold Manager.loadWorkItems.
  destruct (Manager.selectedConfig m =? "")%string; [reflexivity|].
  destruct o as [[res|]|e]; try reflexivity.
  destruct (qr_success res); [|reflexivity].
  destruct (Manager.applyFilters _); reflexivity.
Qed.

Lemma list_load_no_write (stringify : list WorkItem -> string)
  (o : Outcome (option QueryResponse)) (c : WorkItemList.WorkItemList) :
  count is_write (snd (WorkItemList.load stringify o c)) = 0%nat.
Proof.
  unfold WorkItemList.load.
  destruct (negb (truthy (WorkItemList.configName c))); [reflexivity|].
  destruct o as [[res|]|e]; try reflexivity.
  destruct (qr_success res); [|reflexivity].
  destruct (_ =? _)%string; reflexivity.
Qed.

Lemma is_delete_is_write (e : Effect) : is_delete e = true -> is_write e = true.
Proof. destruct e as [[]| | | | | | | |]; simpl; congruence. Qed.

Lemma no_write_no_delete (l : list Effect) :
  count is_write l = 0%nat -> count is_delete l = 0%nat.
Proof.
  unfold count. induction l as [|e l IH]; simpl; [reflexivity|].
  destruct (is_write e) eqn:Hw; simpl; [discriminate|].
  destruct (is_delete e) eqn:Hd.
  - apply is_delete_is_write in Hd. congruence.
  - exact IH.
Qed.

Lemma forwarded_or_else (r : option string) :
  or_else (of_option r) JNull = forwarded r.
Proof.
  destruct r as [s|]; [|reflexivity].
  unfold or_else, forwarded. simpl. now destruct (s =? "")%string.
Qed.

(* ------------------------------------------------------------------ *)
(** ** The edit permission *)

(** C4. While [hasEdit] is false, [handleCreateWorkItem] of the creator
    leaves the component as it is, shows the permission-denied error and
    calls no write method of the controller; and the action column built
    by [buildColumns] of the manager offers "Open in Azure" only, so
    neither Edit nor Delete, and no row action it offers makes
    [handleRowAction] call a write method. *)
Theorem no_write_without_edit_permission :
  (forall (o : Outcome (option ApexResponse)) (c : Creator.Creator),
      Creator.hasEdit c = false ->
      Creator.handleCreateWorkItem o c = (c, [permissionDenied])
      /\ count is_write (snd (Creator.handleCreateWorkItem o c)) = 0%nat)
  /\ (forall m : Manager.Manager,
        Manager.hasEdit m = false ->
        rowActionsOf (Manager.buildColumns m) = [openInAzure]
        /\ (forall a, In a (rowActionsOf (Manager.buildColumns m)) ->
                      a_name a <> "edit" /\ a_name a <> "delete"
                      /\ a_label a <> "Edit" /\ a_label a <> "Delete")
        /\ (forall a row editorResult modalResult o reload,
               In a (rowActionsOf (Manager.buildColumns m)) ->
               count is_write
                 (snd (Manager.handleRowAction (JStr (a_name a)) row
                         editorResult modalResult o reload m)) = 0%nat)).
Proof.
  split.
  - intros o c H. unfold Creator.handleCreateWorkItem. rewrite H. simpl.
    split; reflexivity.
  - intros m H.
    assert (E : rowActionsOf (Manager.buildColumns m) = [openInAzure]).
    { unfold Manager.buildColumns. rewrite H. reflexivity. }
    split; [exact E|]. rewrite E. split.
    + intros a [<- | []]. simpl. repeat split; discriminate.
    + intros a row editorResult modalResult o reload [<- | []].
      unfold Manager.handleRowAction. destruct row as [row|]; [|reflexivity].
      simpl. destruct (truthy (wi_url row)); reflexivity.
Qed.

Lemma no_write_without_edit_permission_witness :
  (Creator.handleCreateWorkItem (Resolved None) Creator.initial
   = (Creator.initial, [permissionDenied])
   /\ count is_write
        (snd (Creator.handleCreateWorkItem (Resolved None) Creator.initial))
      = 0%nat)
  /\ rowActionsOf (Manager.buildColumns Manager.initial) = [openInAzure].
Proof.
  split.
  - apply (proj1 no_write_without_edit_permission (Resolved None)
                 Creator.initial).
    reflexivity.
  - apply (proj1 (proj2 no_write_without_edit_permission Manager.initial
                        eq_refl)).
Defined.

(** C9. When the [hasEditPermission] call throws, [checkPermission] ends
    exactly as it does for an answer of false, in the creator and in the
    manager: [hasEdit] is false, creating is disabled and calls no write
    method, and the manager's columns offer neither Edit nor Delete. *)
Theorem permission_check_fails_closed :
  (forall (e : JsError) (c : Creator.Creator),
      let c' := fst (Creator.checkPermission (Rejected e) c) in
      Creator.checkPermission (Rejected e) c
      = Creator.checkPermission (Resolved (JBool false)) c
      /\ Creator.hasEdit c' = false
      /\ Creator.isCreateDisabled c' = true
      /\ forall o, Creator.handleCreateWorkItem o c' = (c', [permissionDenied]))
  /\ (forall (e : JsError) (m : Manager.Manager),
        let m' := fst (Manager.checkPermission (Rejected e) m) in
        Manager.checkPermission (Rejected e) m
        = Manager.checkPermission (Resolved (JBool false)) m
        /\ Manager.hasEdit m' = false
        /\ Manager.createDisabled m' = true
        /\ rowActionsOf (Manager.columns m') = [openInAzure]).
Proof.
  split.
  - intros e c. simpl. repeat split.
    + unfold Creator.isCreateDisabled. simpl.
      now rewrite !orb_true_r.
  - intros e m. simpl. repeat split.
Qed.

(* ------------------------------------------------------------------ *)
(** ** Deleting a work item *)

Lemma manager_delete_effects (row : WorkItem) (mr : option ModalResult)
  (o : Outcome (option ApexResponse))
  (reload : Outcome (option QueryResponse)) (m : Manager.Manager) :
  let effs := snd (Manager.handleDeleteAction row mr o reload m) in
  (exists r rest,
      mr = Some r /\ confirmed r = true
      /\ count is_write rest = 0%nat
      /\ effs = OpenUniversalModal Manager.deleteOptions
                :: Apex (deleteWorkItemWithReason
                           (mkDeleteArgs (JStr (Manager.selectedConfig m))
                              (or_else (wi_workItemId row) (wi_id row))
                              (forwarded (res_reason r))))
                :: rest)
  \/ effs = [OpenUniversalModal Manager.deleteOptions].
Proof.
  unfold Manager.handleDeleteAction.
  destruct mr as [r|]; [|now right].
  destruct (confirmed r) eqn:Hc; simpl; [|now right].
  left. exists r. rewrite forwarded_or_else.
  destruct o as [[res|]|e].
  - destruct (r_success res).
    + pose proof (manager_load_no_write reload m) as Hl.
      destruct (Manager.loadWorkItems reload m) as [m' effs]. simpl in *.
      shape_of_delete Hl.
    + shape_of_delete Hc.
  - shape_of_delete Hc.
  - shape_of_delete Hc.
Qed.

Lemma list_delete_effects (stringify : list WorkItem -> string) (a : JsVal)
  (row : WorkItem) (mr : option ModalResult)
  (o : Outcome (option ApexResponse))
  (reload : Outcome (option QueryResponse)) (c : WorkItemList.WorkItemList) :
  let effs := snd (WorkItemList.handleRowAction stringify a row mr o reload c) in
  (exists r rest,
      mr = Some r /\ confirmed r = true
      /\ count is_write rest = 0%nat
      /\ effs = OpenUniversalModal WorkItemList.deleteOptions
                :: Apex (deleteWorkItemWithReason
                           (mkDeleteArgs (WorkItemList.configName c)
                              (wi_workItemId row)
                              (forwarded (res_reason r))))
                :: rest)
  \/ effs = [OpenUniversalModal WorkItemList.deleteOptions]
  \/ effs = [].
Proof.
  unfold WorkItemList.handleRowAction.
  destruct (strict_eq a (JStr "delete")); [|now right; right].
  destruct mr as [r|]; [|now right; left].
  destruct (confirmed r) eqn:Hc; simpl; [|now right; left].
  left. exists r. rewrite forwarded_or_else.
  destruct o as [[res|]|e].
  - destruct (r_success res).
    + pose proof (list_load_no_write stringify reload c) as Hl.
      destruct (WorkItemList.load stringify reload c) as [c' effs]. simpl in *.
      shape_of_delete Hl.
    + shape_of_delete Hc.
  - shape_of_delete Hc.
  - shape_of_delete Hc.
Qed.

Lemma one_delete_shape (opened : Effect) (args : DeleteArgs)
  (rest : list Effect) :
  is_delete opened = false ->
  count is_write rest = 0%nat ->
  count is_delete (opened :: Apex (deleteWorkItemWithReason args) :: rest)
  = 1%nat
  /\ forall a, In (Apex (deleteWorkItemWithReason a))
                  (opened :: Apex (deleteWorkItemWithReason args) :: rest) ->
               a = args.
Proof.
  intros Ho Hr. split.
  - apply no_write_no_delete in Hr. unfold count in *. simpl.
    rewrite Ho. simpl. now rewrite Hr.
  - intros a [H | [H | H]].
    + rewrite H in Ho. discriminate.
    + now injection H.
    + apply (count_zero_not_in _ _ _ Hr) in H. discriminate.
Qed.

(** C10. One delete action calls [deleteWorkItemWithReason] at most once,
    in the manager's [handleDeleteAction] and in the list's
    [handleRowAction]; a call is made only when the confirmation modal
    resolved with [confirmed] true, and its [reason] argument is the
    modal's reason, or null when that reason is missing or the empty
    string. *)
Theorem delete_once_when_confirmed :
  (forall row mr o reload m,
      let effs := snd (Manager.handleDeleteAction row mr o reload m) in
      (count is_delete effs <= 1)%nat
      /\ forall a, In (Apex (deleteWorkItemWithReason a)) effs ->
           exists r, mr = Some r /\ confirmed r = true
                     /\ d_reason a = forwarded (res_reason r))
  /\ (forall stringify act row mr o reload c,
        let effs :=
          snd (WorkItemList.handleRowAction stringify act row mr o reload c) in
        (count is_delete effs <= 1)%nat
        /\ forall a, In (Apex (deleteWorkItemWithReason a)) effs ->
             exists r, mr = Some r /\ confirmed r = true
                       /\ d_reason a = forwarded (res_reason r))
  /\ forwarded None = JNull /\ forwarded (Some "") = JNull.
Proof.
  split; [|split; [|split; reflexivity]].
  - intros row mr o reload m effs. subst effs.
    destruct (manager_delete_effects row mr o reload m)
      as [(r & rest & Hmr & Hc & Hrest & ->) | ->].
    + match goal with
      | |- context [deleteWorkItemWithReason ?args] =>
          destruct (one_delete_shape (OpenUniversalModal Manager.deleteOptions)
                      args rest eq_refl Hrest) as [Hcount Hin]
      end.
      rewrite Hcount. split; [lia|].
      intros a Ha. apply Hin in Ha. subst a. exists r. auto.
    + split; [unfold count; simpl; lia|]. intros a [H | []]. discriminate.
  - intros stringify act row mr o reload c effs. subst effs.
    destruct (list_delete_effects stringify act row mr o reload c)
      as [(r & rest & Hmr & Hc & Hrest & ->) | [-> | ->]].
    + match goal with
      | |- context [deleteWorkItemWithReason ?args] =>
          destruct (one_delete_shape (OpenUniversalModal WorkItemList.deleteOptions)
                      args rest eq_refl Hrest) as [Hcount Hin]
      end.
      rewrite Hcount. split; [lia|].
      intros a Ha. apply Hin in Ha. subst a. exists r. auto.
    + split; [unfold count; simpl; lia|]. intros a [H | []]. discriminate.
    + split; [unfold count; simpl; lia|]. intros a [].
Qed.

(** A confirmed deletion with no reason typed. *)
Lemma delete_once_when_confirmed_witness :
  let row := mkWorkItem (JNum 7) (JStr "Fix login bug") (JStr "Task")
               (JStr "To Do") JUndefined JUndefined (JNum 2) JUndefined
               JUndefined (JStr "7") in
  let answer := mkModalResult true (Some "") "confirm" None in
  let call := mkDeleteArgs (JStr "") (JNum 7) JNull in
  exists r, Some answer = Some r /\ confirmed r = true
            /\ d_reason call = forwarded (res_reason r).
Proof.
  intros row answer call.
  apply (proj2 (proj1 delete_once_when_confirmed row (Some answer)
                      (Resolved None) (Resolved None) Manager.initial) call).
  simpl. right. left. reflexivity.
Defined.

(* ------------------------------------------------------------------ *)
(** ** Priority options *)

Lemma creator_priorities_nonempty (o : Outcome (ApexData PriorityDef))
  (c : Creator.Creator) :
  Creator.priorityOptions (fst (Creator.loadPriorities o c)) <> [].
Proof.
  destruct o as [[[|p ps]|v]|e]; simpl; discriminate.
Qed.

Lemma editor_priorities_nonempty (err : option JsError)
  (data : list PriorityDef) (e : Editor.Editor) :
  Editor.priorityOptions
    (fst (Editor.wiredPriorities (mkWired err (Some data)) e)) <> [].
Proof.
  unfold Editor.wiredPriorities. simpl.
  destruct data as [|p ps]; simpl; discriminate.
Qed.

(** C3. When [getPriorities] yields an empty list, something that is not a
    list, or fails, the priority options of the creator and of the editor
    are exactly the four defaults, whose values read 1, 2, 3, 4 and whose
    labels are non-empty; and whatever [getPriorities] yields, the options
    derived from it are never empty. *)
Theorem priorities_fall_back_to_defaults :
  let defaults := Creator.getDefaultPriorityOptions in
  map (fun o => parseInt (o_value o)) defaults
  = [JNum 1; JNum 2; JNum 3; JNum 4]
  /\ forallb nonEmptyLabel defaults = true
  /\ Editor.defaultPriorityOptions = defaults
  /\ (forall c,
        Creator.priorityOptions
          (fst (Creator.loadPriorities (Resolved (Items [])) c)) = defaults)
  /\ (forall c v,
        Creator.priorityOptions
          (fst (Creator.loadPriorities (Resolved (NotArray v)) c)) = defaults)
  /\ (forall c e,
        Creator.priorityOptions
          (fst (Creator.loadPriorities (Rejected e) c)) = defaults)
  /\ (forall c o,
        Creator.priorityOptions (fst (Creator.loadPriorities o c)) <> [])
  /\ (forall e err,
        Editor.priorityOptions
          (fst (Editor.wiredPriorities (mkWired err (Some [])) e)) = defaults)
  /\ (forall e error,
        Editor.priorityOptions
          (fst (Editor.wiredPriorities (mkWired (Some error) None) e))
        = defaults)
  /\ (forall e err data,
        Editor.priorityOptions
          (fst (Editor.wiredPriorities (mkWired err (Some data)) e)) <> []).
Proof.
  cbv zeta. repeat split; try reflexivity.
  - intros c o. apply creator_priorities_nonempty.
  - intros e err data. apply editor_priorities_nonempty.
Qed.

(* ------------------------------------------------------------------ *)
(** ** The size of a query *)

Lemma manager_load_requests (o : Outcome (option QueryResponse))
  (m : Manager.Manager) (args : QueryArgs) :
  In (Apex (getWorkItems args)) (snd (Manager.loadWorkItems o m)) ->
  args = Manager.queryArgs m.
Proof.
  unfold Manager.loadWorkItems.
  destruct (Manager.selectedConfig m =? "")%string; [intros []|].
  destruct o as [[res|]|e]; simpl.
  - destruct (qr_success res); simpl.
    + destruct (Manager.applyFilters _); simpl.
      * intros [H | [H | []]]; [now injection H | discriminate].
      * intros [H | []]. now injection H.
    + intros [H | [H | []]]; [now injection H | discriminate].
  - intros [H | [H | []]]; [now injection H | discriminate].
  - intros [H | [H | []]]; [now injection H | discriminate].
Qed.

Lemma manager_load_issues (o : Outcome (option QueryResponse))
  (m : Manager.Manager) :
  Manager.selectedConfig m <> "" ->
  In (Apex (getWorkItems (Manager.queryArgs m)))
     (snd (Manager.loadWorkItems o m)).
Proof.
  intros Hc. unfold Manager.loadWorkItems.
  apply String.eqb_neq in Hc. rewrite Hc.
  destruct o as [[res|]|e]; simpl; auto.
  destruct (qr_success res); simpl; auto.
  destruct (Manager.applyFilters _); simpl; auto.
Qed.








(* ------------------------------------------------------------------ *)
(** ** Numbers *)

Lemma doubles_end : (twoTo53 <? twoTo1024) = true.
Proof. vm_compute. reflexivity. Qed.

Lemma roundMagnitude_safe (a : Z) :
  (a <? twoTo53) = true -> roundMagnitude a = a.
Proof. intros H. unfold roundMagnitude. now rewrite H. Qed.

(** A safe integer is its own Number. *)
Lemma number_safe (n : Z) : isSafeInteger n = true -> number n = JNum n.
Proof.
  unfold isSafeInteger, number. intros H.
  rewrite (roundMagnitude_safe _ H). cbv zeta.
  assert (Hlt : (Z.abs n <? twoTo1024) = true).
  { pose proof doubles_end as Hd.
    apply Z.ltb_lt in H, Hd. apply Z.ltb_lt. lia. }
  rewrite Hlt. f_equal. destruct n; reflexivity.
Qed.

(** [String] writes a safe integer with all its digits. *)
Lemma toString_safe (n : Z) :
  isSafeInteger n = true -> toString (JNum n) = string_of_Z n.
Proof. intros H. unfold toString, numberToString. now rewrite H. Qed.

Lemma number_is_number (z : Z) :
  is_number (number z) = true /\ is_string (number z) = false
  /\ number z <> JNaN.
Proof.
  unfold number. cbv zeta.
  destruct (roundMagnitude (Z.abs z) <? twoTo1024);
    repeat split; discriminate.
Qed.

(* ------------------------------------------------------------------ *)
(** ** Reading a priority *)

Lemma parseDigits_acc (d : Decimal.uint) (p : positive) :
  parseDigits (NilEmpty.string_of_uint d) (Z.pos p) true
  = Some (Z.pos (Pos.of_uint_acc d p)).
Proof.
  revert p. induction d; intros p; digit_step; try reflexivity;
    match goal with
    | |- parseDigits _ ?z true = Some (Z.pos (Pos.of_uint_acc _ ?q)) =>
        replace z with (Z.pos q) by lia
    end; apply IHd.
Qed.

Lemma parseDigits_zero (d : Decimal.uint) :
  parseDigits (NilEmpty.string_of_uint d) 0 true
  = Some (Z.of_N (Pos.of_uint d)).
Proof.
  induction d; digit_step; try reflexivity; try exact IHd;
    apply parseDigits_acc.
Qed.

Lemma parseDigits_unseen (d : Decimal.uint) :
  d <> Decimal.Nil ->
  parseDigits (NilEmpty.string_of_uint d) 0 false
  = Some (Z.of_N (Pos.of_uint d)).
Proof.
  intros Hd. rewrite <- parseDigits_zero.
  destruct d; [congruence | reflexivity ..].
Qed.

Lemma parseInt10_digits (d : Decimal.uint) :
  d <> Decimal.Nil ->
  parseInt10 (NilEmpty.string_of_uint d) = number (Z.of_N (Pos.of_uint d)).
Proof.
  intros Hd. pose proof (parseDigits_unseen d Hd) as H.
  destruct d; [congruence | ..]; unfold parseInt10;
    cbn [NilEmpty.string_of_uint trimStart] in H |- *;
    match goal with
    | |- context [isWhitespace ?c] => change (isWhitespace c) with false
    end; cbv iota; now rewrite H.
Qed.

(** [parseInt] reads the decimal numeral of an integer back as the Number
    of that integer. *)
Lemma parseInt10_numeral (n : Z) : parseInt10 (string_of_Z n) = number n.
Proof.
  unfold string_of_Z. destruct n as [|p|p].
  - reflexivity.
  - pose proof (DecimalPos.Unsigned.to_uint_nonnil p) as Hn.
    pose proof (DecimalPos.Unsigned.of_to p) as Hv.
    cbn [Z.to_int NilZero.string_of_int]. unfold NilZero.string_of_uint.
    destruct (Pos.to_uint p) eqn:E; [congruence | ..];
      rewrite <- E in *; rewrite parseInt10_digits by exact Hn;
      now rewrite Hv.
  - pose proof (DecimalPos.Unsigned.to_uint_nonnil p) as Hn.
    pose proof (DecimalPos.Unsigned.of_to p) as Hv.
    cbn [Z.to_int NilZero.string_of_int].
    unfold NilZero.string_of_uint, parseInt10.
    cbn [trimStart]. change (isWhitespace "-") with false. cbv iota.
    destruct (Pos.to_uint p) eqn:E; [congruence | ..];
      rewrite <- E in *; rewrite parseDigits_unseen by exact Hn;
      now rewrite Hv.
Qed.

(** [parseInt(String(n), 10)] is [n] for a safe integer [n]. *)
Lemma parseInt10_string_of_Z (n : Z) :
  isSafeInteger n = true -> parseInt10 (toString (JNum n)) = JNum n.
Proof.
  intros H. rewrite (toString_safe n H), parseInt10_numeral.
  now apply number_safe.
Qed.

Lemma parseDigits_seen (s : string) (acc : Z) :
  parseDigits s acc true <> None.
Proof.
  revert acc. induction s as [|c r IH]; intros acc; simpl; [discriminate|].
  destruct (isDigit c); [apply IH | discriminate].
Qed.

Lemma parseDigits_none (s : string) :
  parseDigits s 0 false = None <-> startsWithDigit s = false.
Proof.
  destruct s as [|c r]; simpl; [tauto|].
  destruct (isDigit c).
  - split; [|discriminate]. intros H. now apply parseDigits_seen in H.
  - tauto.
Qed.

(** [parseInt] gives NaN exactly when the string does not start with an
    integer. *)
Lemma parseInt10_NaN (s : string) :
  parseInt10 s = JNaN <-> startsWithInteger s = false.
Proof.
  assert (H : forall r,
             match parseDigits r 0 false with
             | Some n => number n
             | None => JNaN
             end = JNaN <-> startsWithDigit r = false).
  { intros r. rewrite <- parseDigits_none.
    destruct (parseDigits r 0 false) as [n|]; [|tauto].
    split; [|discriminate]. intros E. now apply number_is_number in E. }
  assert (H' : forall r,
             match parseDigits r 0 false with
             | Some n => number (- n)
             | None => JNaN
             end = JNaN <-> startsWithDigit r = false).
  { intros r. rewrite <- parseDigits_none.
    destruct (parseDigits r 0 false) as [n|]; [|tauto].
    split; [|discriminate]. intros E. now apply number_is_number in E. }
  unfold parseInt10, startsWithInteger.
  destruct (trimStart s) as [|c r]; [apply H|].
  destruct c as [[] [] [] [] [] [] [] []];
    first [apply H' | apply (H (String _ r)) | apply H].
Qed.

Lemma parseInt10_number (s : string) :
  is_number (parseInt10 s) = true /\ is_string (parseInt10 s) = false.
Proof.
  unfold parseInt10.
  repeat match goal with
         | |- context [match ?x with _ => _ end] => destruct x
         end;
    first [split; reflexivity
          | split; apply number_is_number].
Qed.

Lemma toInt_number (v : JsVal) : is_number (Editor.toInt v) = true.
Proof.
  unfold Editor.toInt. destruct (isInteger v) eqn:Hv.
  - destruct v; simpl in *; congruence.
  - apply parseInt10_number.
Qed.

Lemma toInt_not_string (v : JsVal) : is_string (Editor.toInt v) = false.
Proof.
  unfold Editor.toInt. destruct (isInteger v) eqn:Hv.
  - destruct v; simpl in *; congruence.
  - apply parseInt10_number.
Qed.

Lemma creator_create_requests (o : Outcome (option ApexResponse))
  (c : Creator.Creator) (a : CreateArgs) :
  In (Apex (createWorkItem a)) (snd (Creator.handleCreateWorkItem o c)) ->
  a = Creator.createArgs c.
Proof.
  unfold Creator.handleCreateWorkItem.
  destruct (negb (Creator.hasEdit c)).
  { intros [H | []]. discriminate. }
  destruct (_ || _ || _).
  { intros [H | []]. discriminate. }
  destruct o as [[res|]|err]; [destruct (r_success res)| |]; simpl;
    (intros [H | [H | []]]; [now injection H | discriminate]).
Qed.

Lemma editor_update_requests (o : Outcome (option ApexResponse))
  (e : Editor.Editor) (a : UpdateArgs) :
  In (Apex (updateWorkItem a)) (snd (Editor.handleSave o e)) ->
  a = Editor.updateArgs e.
Proof.
  unfold Editor.handleSave.
  destruct (_ || _).
  { intros [H | []]. discriminate. }
  destruct o as [[res|]|err]; [destruct (r_success res)| |]; simpl.
  - intros [H | [H | [H | []]]]; [now injection H | discriminate ..].
  - intros [H | [H | []]]; [now injection H | discriminate].
  - intros [H | [H | []]]; [now injection H | discriminate].
  - intros [H | [H | []]]; [now injection H | discriminate].
Qed.

(** The creator's guard: every condition of [isCreateDisabled] but
    [isLoading]. *)
Lemma creator_guard (o : Outcome (option ApexResponse)) (c : Creator.Creator) :
  let open := negb (Creator.isCreateDisabled (Creator.set_isLoading false c)) in
  (open = true ->
   exists rest,
     snd (Creator.handleCreateWorkItem o c)
     = Apex (createWorkItem (Creator.createArgs c)) :: rest
     /\ count is_write rest = 0%nat
     /\ Creator.isLoading (fst (Creator.handleCreateWorkItem o c)) = false)
  /\ (open = false ->
      fst (Creator.handleCreateWorkItem o c) = c
      /\ exists t, snd (Creator.handleCreateWorkItem o c) = [ShowToast t]
                   /\ toast_variant t = VError).
Proof.
  cbv zeta. unfold Creator.isCreateDisabled, Creator.handleCreateWorkItem.
  simpl.
  change (Creator.titleMissing (Creator.set_isLoading false c))
    with (Creator.titleMissing c).
  destruct (Creator.hasEdit c); simpl.
  - rewrite orb_false_r.
    destruct ((Creator.selectedConfig c =? "")%string
              || (Creator.selectedWorkItemType c =? "")%string
              || Creator.titleMissing c); simpl.
    + split; [discriminate|]. intros _. split; [reflexivity|].
      eexists. split; reflexivity.
    + split; [|discriminate]. intros _.
      destruct o as [[res|]|err]; [destruct (r_success res)| |];
        eexists; repeat split.
  - rewrite orb_true_r. simpl. split; [discriminate|]. intros _.
    split; [reflexivity|]. eexists. split; reflexivity.
Qed.

(** The editor's guard: a config name and a work item id. *)
Lemma editor_guard (o : Outcome (option ApexResponse)) (e : Editor.Editor) :
  truthy (configName (Editor.props e)) = true ->
  truthy (workItemId (Editor.props e)) = true ->
  exists rest,
    snd (Editor.handleSave o e)
    = Apex (updateWorkItem (Editor.updateArgs e)) :: rest
    /\ count is_write rest = 0%nat.
Proof.
  intros Hc Hw. unfold Editor.handleSave. rewrite Hc, Hw. simpl.
  destruct o as [[res|]|err]; [destruct (r_success res)| |];
    eexists; split; reflexivity.
Qed.

(** C6, as the claim has it, fails where the selected priority does not
    start with an integer: a priority option the controller names "High"
    reaches [createWorkItem] as NaN, which is of type number but is no
    integer. *)
Lemma priority_sent_as_NaN :
  let ps := [mkPriorityDef (JStr "High") (JStr "High")] in
  let c := Creator.mkCreator "standard" "Task" (Some "Fix login bug") ""
             (JStr "To Do") "2" [] [] false None true false in
  let c1 := fst (Creator.loadPriorities (Resolved (Items ps)) c) in
  map o_value (Creator.priorityOptions c1) = [JStr "High"]
  /\ exists a rest,
       snd (Creator.handleCreateWorkItem (Resolved None)
              (Creator.handlePriorityChange "High" c1))
       = Apex (createWorkItem a) :: rest
       /\ c_priority a = JNaN
       /\ isInteger (c_priority a) = false.
Proof.
  split; [reflexivity|]. eexists. eexists.
  split; [reflexivity|]. split; reflexivity.
Qed.

(** C6, amended. With its guards passed, [handleCreateWorkItem] calls
    [createWorkItem] first of its effects, and every such call carries as
    priority [parseInt(selectedPriority, 10)]; with a config name and a
    work item id, [handleSave] calls [updateWorkItem], and every such call
    carries the priority itself when it is an integer and
    [parseInt(priority, 10)] otherwise.  Such a priority is of type
    number, never a string.  [parseInt] gives NaN exactly when the string
    does not start with an integer, and reads the numeral of a safe
    integer back as that integer. *)
Theorem priority_is_sent_as_number :
  (forall o c,
      Creator.hasEdit c = true ->
      Creator.selectedConfig c <> "" ->
      Creator.selectedWorkItemType c <> "" ->
      Creator.titleMissing c = false ->
      exists a rest,
        snd (Creator.handleCreateWorkItem o c) = Apex (createWorkItem a) :: rest
        /\ count is_write rest = 0%nat
        /\ c_priority a = parseInt10 (Creator.selectedPriority c))
  /\ (forall o c a,
        In (Apex (createWorkItem a)) (snd (Creator.handleCreateWorkItem o c)) ->
        c_priority a = parseInt10 (Creator.selectedPriority c)
        /\ is_number (c_priority a) = true
        /\ is_string (c_priority a) = false)
  /\ (forall o e,
        truthy (configName (Editor.props e)) = true ->
        truthy (workItemId (Editor.props e)) = true ->
        exists a rest,
          snd (Editor.handleSave o e) = Apex (updateWorkItem a) :: rest
          /\ count is_write rest = 0%nat
          /\ u_priority a
             = if isInteger (Editor.priority e) then Editor.priority e
               else parseInt10 (toString (Editor.priority e)))
  /\ (forall o e a,
        In (Apex (updateWorkItem a)) (snd (Editor.handleSave o e)) ->
        u_priority a
        = (if isInteger (Editor.priority e) then Editor.priority e
           else parseInt10 (toString (Editor.priority e)))
        /\ is_number (u_priority a) = true
        /\ is_string (u_priority a) = false)
  /\ (forall s, parseInt10 s = JNaN <-> startsWithInteger s = false)
  /\ (forall n, isSafeInteger n = true ->
        parseInt10 (string_of_Z n) = JNum n
        /\ parseInt10 (toString (JNum n)) = JNum n).
Proof.
  split; [|split; [|split; [|split; [|split]]]].
  - intros o c He Hc Hty Htitle.
    destruct (creator_guard o c) as [Hopen _].
    destruct Hopen as (rest & Hr & Hw & _).
    { cbv zeta. unfold Creator.isCreateDisabled. simpl.
      change (Creator.titleMissing (Creator.set_isLoading false c))
        with (Creator.titleMissing c).
      apply String.eqb_neq in Hc, Hty. now rewrite He, Hc, Hty, Htitle. }
    exists (Creator.createArgs c), rest.
    split; [exact Hr|]. split; [exact Hw | reflexivity].
  - intros o c a Hin. apply creator_create_requests in Hin. subst a.
    simpl. split; [reflexivity|]. apply parseInt10_number.
  - intros o e Hc Hw. destruct (editor_guard o e Hc Hw) as (rest & Hr & Hn).
    exists (Editor.updateArgs e), rest.
    split; [exact Hr|]. split; [exact Hn | reflexivity].
  - intros o e a Hin. apply editor_update_requests in Hin. subst a.
    split; [reflexivity|]. simpl.
    split; [apply toInt_number | apply toInt_not_string].
  - exact parseInt10_NaN.
  - intros n Hn. split.
    + rewrite parseInt10_numeral. now apply number_safe.
    + now apply parseInt10_string_of_Z.
Qed.

Lemma priority_is_sent_as_number_witness :
  let c := Creator.mkCreator "standard" "Task" (Some "Fix login bug") ""
             (JStr "To Do") "3" [] [] false None true false in
  exists a rest,
    snd (Creator.handleCreateWorkItem (Resolved None) c)
    = Apex (createWorkItem a) :: rest
    /\ count is_write rest = 0%nat
    /\ c_priority a = parseInt10 "3".
Proof.
  intros c.
  apply (proj1 priority_is_sent_as_number (Resolved None) c);
    [reflexivity | discriminate | discriminate | reflexivity].
Defined.

(* ------------------------------------------------------------------ *)
(** ** Terminal states on create *)

Lemma remove_drops_key (k : string) (m : Service.FieldSet) :
  Forall (fun kv => fst kv <> k) (Service.remove k m).
Proof.
  unfold Service.remove. apply Forall_forall. intros kv Hin.
  apply filter_In in Hin. destruct Hin as [_ Hk].
  apply negb_true_iff in Hk. now apply String.eqb_neq.
Qed.

Lemma remove_keeps_others (k : string) (m : Service.FieldSet)
  (kv : string * Service.FieldValue) :
  In kv m -> fst kv <> k -> In kv (Service.remove k m).
Proof.
  intros Hin Hk. unfold Service.remove. apply filter_In. split; [exact Hin|].
  apply negb_true_iff. now apply String.eqb_neq.
Qed.

Lemma buildPatch_paths (m : Service.FieldSet) (p : Service.PatchOperation) :
  In p (Service.buildPatch m) ->
  exists kv, In kv m /\ Service.path p = ("/fields/" ++ fst kv)%string
             /\ Service.op p = "add" /\ Service.value p = snd kv.
Proof.
  unfold Service.buildPatch. intros Hin. apply in_map_iff in Hin.
  destruct Hin as (kv & <- & Hkv). exists kv. simpl. auto.
Qed.

Lemma fields_path_inj (k1 k2 : string) :
  ("/fields/" ++ k1)%string = ("/fields/" ++ k2)%string -> k1 = k2.
Proof. simpl. intros H. now injection H. Qed.

(** C1. When the fields of a create request hold a state whose value is
    one of the terminal-state names, whatever its case, the body of the
    request has no operation on the state field, and still has the
    operation of every other field. *)
Theorem create_strips_terminal_state (fields : Service.FieldSet)
  (v : Service.FieldValue) :
  Service.get "System.State" fields = Some v ->
  Service.isTerminalState v = true ->
  (forall p, In p (Service.createRequestBody fields) ->
             Service.path p <> "/fields/System.State")
  /\ (forall k w, In (k, w) fields -> k <> "System.State" ->
                  In (Service.mkPatch "add" ("/fields/" ++ k)%string w)
                     (Service.createRequestBody fields)).
Proof.
  intros Hget Hterm.
  unfold Service.createRequestBody, Service.removeTerminalState.
  rewrite Hget, Hterm. split.
  - intros p Hin Hpath. apply buildPatch_paths in Hin.
    destruct Hin as (kv & Hkv & Hp & _).
    pose proof (remove_drops_key "System.State" fields) as Hall.
    rewrite Forall_forall in Hall. apply (Hall kv Hkv).
    apply fields_path_inj. now rewrite <- Hp.
  - intros k w Hin Hk. unfold Service.buildPatch.
    apply in_map_iff. exists (k, w). split; [reflexivity|].
    now apply remove_keeps_others.
Qed.

Lemma create_strips_terminal_state_witness :
  let fields := [("System.Title", Service.FText "Fix login bug");
                 ("System.State", Service.FText "DONE")] in
  (forall p, In p (Service.createRequestBody fields) ->
             Service.path p <> "/fields/System.State")
  /\ (forall k w, In (k, w) fields -> k <> "System.State" ->
                  In (Service.mkPatch "add" ("/fields/" ++ k)%string w)
                     (Service.createRequestBody fields)).
Proof.
  apply (create_strips_terminal_state
           [("System.Title", Service.FText "Fix login bug");
            ("System.State", Service.FText "DONE")]
           (Service.FText "DONE")); reflexivity.
Defined.

(** In modal mode the creator offers no terminal state. *)
Lemma creator_modal_states_not_terminal (data : list StateDef)
  (c : Creator.Creator) (opt : SelectOption) :
  Creator.modalMode c = true ->
  In opt (Creator.stateOptions
            (fst (Creator.loadStatesForType (Resolved (Items data)) c))) ->
  Creator.keepOption opt = true.
Proof.
  intros Hm. unfold Creator.loadStatesForType. rewrite Hm. simpl.
  intros Hin. now apply filter_In in Hin.
Qed.

(* ------------------------------------------------------------------ *)
(** ** Authentication with one fallback *)

Section DualAuthFacts.

Variable World : Type.
Variable hasNamedCredential hasPersonalAccessToken : Service.AzureConfig -> bool.
Variable withNamedCredential :
  Service.AzureConfig -> string -> Service.FieldSet ->
  World -> (Service.ApexException + Service.AzureResult) * World.
Variable withToken :
  string -> Service.AzureConfig -> string -> Service.FieldSet ->
  World -> (Service.ApexException + Service.AzureResult) * World.

Local Abbreviation run :=
  (Service.createWorkItem World hasNamedCredential hasPersonalAccessToken
     withNamedCredential withToken).
Local Abbreviation attempts :=
  (Service.attempts World hasNamedCredential hasPersonalAccessToken
     withNamedCredential withToken).

Lemma managed_first (config : Service.AzureConfig) (type : string)
  (fields : Service.FieldSet) (w : World) :
  hasNamedCredential config = true ->
  attempts config type fields w = [Service.ManagedCredential]
  \/ attempts config type fields w
     = [Service.ManagedCredential; Service.SecretToken].
Proof.
  intros Hn. unfold Service.attempts, Service.createWorkItem. rewrite Hn.
  unfold Service.tryCatch, Service.attempt. simpl.
  destruct (withNamedCredential config type fields w) as [[[ex|ex|ex]|res] w1];
    simpl; auto.
  destruct (hasPersonalAccessToken config); simpl; auto.
  destruct (withToken _ config type fields w1); simpl; auto.
Qed.

Lemma fallback_outcome (config : Service.AzureConfig) (type : string)
  (fields : Service.FieldSet) (w w1 : World) (log : list Service.Strategy)
  (ex : string) :
  hasNamedCredential config = true ->
  withNamedCredential config type fields w
  = (inl (Service.AzureDevOpsException ex), w1) ->
  hasPersonalAccessToken config = true ->
  run config type fields (w, log)
  = (fst (withToken (Service.personalAccessToken config) config type fields w1),
     (snd (withToken (Service.personalAccessToken config) config type fields w1),
      log ++ [Service.ManagedCredential; Service.SecretToken])).
Proof.
  intros Hn Hfail Hp. unfold Service.createWorkItem. rewrite Hn.
  unfold Service.tryCatch, Service.attempt. simpl.
  rewrite Hfail, Hp. simpl.
  destruct (withToken _ config type fields w1) as [r w2]. simpl.
  now rewrite <- app_assoc.
Qed.

Lemma no_fallback_propagates (config : Service.AzureConfig) (type : string)
  (fields : Service.FieldSet) (w w1 : World) (log : list Service.Strategy)
  (ex : string) :
  hasNamedCredential config = true ->
  withNamedCredential config type fields w
  = (inl (Service.AzureDevOpsException ex), w1) ->
  hasPersonalAccessToken config = false ->
  run config type fields (w, log)
  = (inl (Service.AzureDevOpsException ex),
     (w1, log ++ [Service.ManagedCredential])).
Proof.
  intros Hn Hfail Hp. unfold Service.createWorkItem. rewrite Hn.
  unfold Service.tryCatch, Service.attempt. simpl.
  now rewrite Hfail, Hp.
Qed.

End DualAuthFacts.

(** C2. A call on a config with a managed credential tries the managed
    strategy first and tries at most the two strategies.  When the managed
    strategy raises the service's own exception and the config holds a
    secret token, the secret-token strategy is tried once: the call ends
    exactly as that strategy ends, in a result or in an exception, in the
    world that strategy leaves, with two attempts on record.  Without a
    secret token the exception of the managed strategy leaves the call. *)
Theorem dual_auth_falls_back_once (World : Type)
  (hasNamedCredential hasPersonalAccessToken : Service.AzureConfig -> bool)
  (withNamedCredential :
     Service.AzureConfig -> string -> Service.FieldSet ->
     World -> (Service.ApexException + Service.AzureResult) * World)
  (withToken :
     string -> Service.AzureConfig -> string -> Service.FieldSet ->
     World -> (Service.ApexException + Service.AzureResult) * World)
  (config : Service.AzureConfig) (type : string) (fields : Service.FieldSet)
  (w w1 : World) (ex : string) :
  let run := Service.createWorkItem World hasNamedCredential
               hasPersonalAccessToken withNamedCredential withToken in
  let tried := Service.attempts World hasNamedCredential
                 hasPersonalAccessToken withNamedCredential withToken in
  let fallback :=
    withToken (Service.personalAccessToken config) config type fields w1 in
  hasNamedCredential config = true ->
  withNamedCredential config type fields w
  = (inl (Service.AzureDevOpsException ex), w1) ->
  (tried config type fields w = [Service.ManagedCredential]
   \/ tried config type fields w
      = [Service.ManagedCredential; Service.SecretToken])
  /\ (hasPersonalAccessToken config = true ->
      run config type fields (w, [])
      = (fst fallback,
         (snd fallback, [Service.ManagedCredential; Service.SecretToken])))
  /\ (hasPersonalAccessToken config = false ->
      run config type fields (w, [])
      = (inl (Service.AzureDevOpsException ex),
         (w1, [Service.ManagedCredential]))).
Proof.
  intros run tried fallback Hn Hfail. split; [|split].
  - now apply managed_first.
  - intros Hp.
    apply (fallback_outcome World hasNamedCredential hasPersonalAccessToken
             withNamedCredential withToken config type fields w w1 [] ex);
      assumption.
  - intros Hp.
    apply (no_fallback_propagates World hasNamedCredential
             hasPersonalAccessToken withNamedCredential withToken config type
             fields w w1 [] ex); assumption.
Qed.

(** A world that counts the callouts, a managed credential that is
    refused, and a secret token that is accepted. *)
Lemma dual_auth_falls_back_once_witness :
  let config := Service.mkConfig "org" "proj" "AzureDevOps_POC" "pat" in
  let ok := Service.mkResult true (Some 123) "Created" 200 in
  let refused (_ : Service.AzureConfig) (_ : string) (_ : Service.FieldSet)
              (n : nat) :=
    (@inl Service.ApexException Service.AzureResult
          (Service.AzureDevOpsException "401"), S n) in
  let accepted (_ : string) (_ : Service.AzureConfig) (_ : string)
               (_ : Service.FieldSet) (n : nat) :=
    (@inr Service.ApexException Service.AzureResult ok, S n) in
  Service.createWorkItem nat (fun _ => true) (fun _ => true) refused accepted
    config "Task" [] (0%nat, [])
  = (inr ok, (2%nat, [Service.ManagedCredential; Service.SecretToken])).
Proof.
  intros config ok refused accepted.
  apply (proj1 (proj2 (dual_auth_falls_back_once nat (fun _ => true)
                         (fun _ => true) refused accepted config "Task" []
                         0%nat 1%nat "401" eq_refl eq_refl))).
  reflexivity.
Defined.

(* ------------------------------------------------------------------ *)
(** ** Filtering the fetched rows *)

Lemma strict_eq_text (v : JsVal) (s : string) :
  strict_eq v (JStr s) = true <-> v = JStr s.
Proof.
  destruct v; simpl; try (split; [discriminate | congruence]).
  rewrite String.eqb_eq. split; congruence.
Qed.

Lemma filter_twice {A : Type} (p q : A -> bool) (l : list A) :
  filter q (filter p l) = filter (fun x => p x && q x) l.
Proof.
  induction l as [|x l IH]; simpl; [reflexivity|].
  destruct (p x); simpl; [destruct (q x)|]; now rewrite IH.
Qed.

Lemma filter_all {A : Type} (l : list A) : filter (fun _ => true) l = l.
Proof. induction l as [|x l IH]; simpl; congruence. Qed.

Lemma forallb_filter {A : Type} (p q : A -> bool) (l : list A) :
  forallb p l = true -> forallb p (filter q l) = true.
Proof.
  rewrite !forallb_forall. intros H x Hx. apply filter_In in Hx. now apply H.
Qed.

Lemma sortable_filter (k : string) (q : WorkItem -> bool) (l : list WorkItem) :
  sortable k l = true -> sortable k (filter q l) = true.
Proof.
  unfold sortable. rewrite !orb_true_iff.
  intros [H | H]; [left | right]; now apply forallb_filter.
Qed.

Lemma compareRows_defined (k : string) (rev : Z) (a b : WorkItem) :
  is_string (getField k a) = false \/ is_string (getField k b) = true ->
  exists n, Manager.compareRows k rev a b = inr n.
Proof.
  unfold Manager.compareRows. intros H.
  destruct (getField k a) as [| | | | |sa|ia]; simpl;
    try (eexists; reflexivity).
  destruct H as [H | H]; [discriminate|].
  destruct (getField k b); try discriminate. simpl. eexists. reflexivity.
Qed.

Lemma compareRows_sortable (k : string) (rev : Z) (l : list WorkItem)
  (a b : WorkItem) :
  sortable k l = true -> In a l -> In b l ->
  exists n, Manager.compareRows k rev a b = inr n.
Proof.
  unfold sortable. rewrite orb_true_iff, !forallb_forall.
  intros [H | H] Ha Hb; apply compareRows_defined.
  - right. now apply H.
  - left. apply negb_true_iff. now apply H.
Qed.

Section Sorting.

Variable cmp : WorkItem -> WorkItem -> Throws Z.

Lemma insertRow_perm (x : WorkItem) (l : list WorkItem) :
  (forall y, In y l -> exists n, cmp x y = inr n) ->
  exists l', Manager.insertRow cmp x l = inr l' /\ Permutation (x :: l) l'.
Proof.
  induction l as [|y r IH]; intros Hdef; simpl.
  - eexists. split; [reflexivity | apply Permutation_refl].
  - destruct (Hdef y (or_introl eq_refl)) as [n Hn]. rewrite Hn. simpl.
    destruct (n <? 0).
    + eexists. split; [reflexivity | apply Permutation_refl].
    + destruct IH as (r' & Hr & Hp).
      { intros z Hz. apply Hdef. now right. }
      rewrite Hr. simpl. eexists. split; [reflexivity|].
      eapply Permutation_trans; [apply perm_swap|]. now apply perm_skip.
Qed.

Lemma sortRows_perm (todo done : list WorkItem) :
  (forall x y, In x (done ++ todo) -> In y (done ++ todo) ->
               exists n, cmp x y = inr n) ->
  exists l', Manager.sortRows cmp done todo = inr l'
             /\ Permutation (done ++ todo) l'.
Proof.
  revert done. induction todo as [|x r IH]; intros done Hdef; simpl.
  - eexists. split; [reflexivity|]. rewrite app_nil_r. apply Permutation_refl.
  - destruct (insertRow_perm x done) as (done' & Hi & Hp).
    { intros y Hy. apply Hdef; apply in_or_app; [right; now left | now left]. }
    rewrite Hi. simpl.
    assert (Hall : Permutation (done ++ x :: r) (done' ++ r)).
    { eapply Permutation_trans; [apply Permutation_sym, Permutation_middle|].
      change (x :: done ++ r) with ((x :: done) ++ r).
      now apply Permutation_app_tail. }
    destruct (IH done') as (l' & Hs & Hq).
    { intros a b Ha Hb. apply Hdef.
      - apply (Permutation_in _ (Permutation_sym Hall) Ha).
      - apply (Permutation_in _ (Permutation_sym Hall) Hb). }
    exists l'. split; [exact Hs|].
    eapply Permutation_trans; [exact Hall | exact Hq].
Qed.

End Sorting.

Lemma sortData_perm (m : Manager.Manager) (d : list WorkItem) :
  sortable (Manager.sortedBy m) d = true ->
  exists d', Manager.sortData m d = inr d' /\ Permutation d d'.
Proof.
  intros Hs. unfold Manager.sortData.
  destruct (sortRows_perm
              (Manager.compareRows (Manager.sortedBy m)
                 (if (Manager.sortedDirection m =? "desc")%string
                  then -1 else 1)) d []) as (d' & Hd & Hp).
  - simpl. intros x y Hx Hy. now apply (compareRows_sortable _ _ d).
  - exists d'. split; [exact Hd | exact Hp].
Qed.

Lemma filters_compose (m : Manager.Manager) (l : list WorkItem) :
  (if (Manager.selectedStateFilter m =? "")%string
   then if (Manager.selectedTypeFilter m =? "")%string then l
        else filter (Manager.typeMatches m) l
   else filter (Manager.stateMatches m)
          (if (Manager.selectedTypeFilter m =? "")%string then l
           else filter (Manager.typeMatches m) l))
  = filter (passes m) l.
Proof.
  unfold passes.
  destruct (Manager.selectedTypeFilter m =? "")%string;
    destruct (Manager.selectedStateFilter m =? "")%string; simpl.
  - now rewrite filter_all.
  - reflexivity.
  - apply filter_ext. intros a. now rewrite andb_true_r.
  - apply filter_twice.
Qed.

Lemma passes_spec (m : Manager.Manager) (i : WorkItem) :
  passes m i = true <->
  (Manager.selectedTypeFilter m = ""
   \/ wi_workItemType i = JStr (Manager.selectedTypeFilter m))
  /\ (Manager.selectedStateFilter m = ""
      \/ wi_state i = JStr (Manager.selectedStateFilter m)).
Proof.
  unfold passes, Manager.typeMatches, Manager.stateMatches.
  now rewrite andb_true_iff, !orb_true_iff, !String.eqb_eq, !strict_eq_text.
Qed.

Lemma applyFilters_result (m : Manager.Manager) :
  Manager.activeSearch m = None ->
  sortable (Manager.sortedBy m) (Manager.workItems m) = true ->
  exists shown,
    Manager.applyFilters m = inr (Manager.set_filteredWorkItems shown m)
    /\ Permutation (filter (passes m) (Manager.workItems m)) shown.
Proof.
  intros Hsearch Hsort. unfold Manager.applyFilters.
  rewrite Hsearch. cbn [bindT]. cbv zeta.
  rewrite (filters_compose m (Manager.workItems m)).
  destruct (sortData_perm m (filter (passes m) (Manager.workItems m)))
    as (shown & Hs & Hp).
  { now apply sortable_filter. }
  rewrite Hs. cbn [bindT]. exists shown. split; [reflexivity | exact Hp].
Qed.

Lemma lowerOf_textual (v : JsVal) :
  textual v = true -> lowerOf (or_else v (JStr "")) = inr (searchText v).
Proof.
  unfold textual, or_else. destruct v as [| |[]|z| |t|i]; simpl;
    try discriminate; try reflexivity.
  - destruct (z =? 0); simpl; [reflexivity | discriminate].
  - intros _. destruct (t =? "")%string eqn:E; simpl; [|reflexivity].
    apply String.eqb_eq in E. now subst.
Qed.

Lemma lowerOf_not_textual (v : JsVal) :
  textual v = false -> lowerOf (or_else v (JStr "")) = inl typeError.
Proof.
  unfold textual, or_else. destruct v as [| |[]|z| |t|i]; simpl;
    try discriminate; try reflexivity.
  destruct (z =? 0); simpl; [discriminate | reflexivity].
Qed.

Lemma matchesSearch_found (s : string) (i : WorkItem) :
  textual (wi_title i) = true -> textual (wi_assignedTo i) = true ->
  Manager.matchesSearch s i = inr (found s i).
Proof.
  intros Ht Ha. unfold Manager.matchesSearch, found.
  rewrite (lowerOf_textual _ Ht), (lowerOf_textual _ Ha). simpl.
  destruct (includes s (searchText (wi_title i))); [reflexivity|].
  destruct (includes s (toString (wi_workItemId i))); reflexivity.
Qed.

Lemma filterT_total {A : Type} (p : A -> Throws bool) (q : A -> bool)
  (l : list A) :
  (forall x, In x l -> p x = inr (q x)) -> filterT p l = inr (filter q l).
Proof.
  induction l as [|x l IH]; intros H; simpl; [reflexivity|].
  rewrite (H x (or_introl eq_refl)). simpl.
  rewrite IH by (intros y Hy; apply H; now right). reflexivity.
Qed.

Lemma filterT_throws {A : Type} (p : A -> Throws bool) (err : JsError)
  (l : list A) (x : A) :
  (forall y e, p y = inl e -> e = err) ->
  In x l -> p x = inl err -> filterT p l = inl err.
Proof.
  intros Herr. induction l as [|y l IH]; intros Hin Hx; [destruct Hin|].
  simpl. destruct (p y) as [e|b] eqn:Hy; simpl.
  - now rewrite (Herr y e Hy).
  - destruct Hin as [-> | Hin]; [congruence|].
    now rewrite (IH Hin Hx).
Qed.

Lemma matchesSearch_error (s : string) (i : WorkItem) (e : JsError) :
  Manager.matchesSearch s i = inl e -> e = typeError.
Proof.
  unfold Manager.matchesSearch.
  destruct (or_else (wi_title i) (JStr "")); simpl; try congruence.
  destruct (includes s _); [discriminate|].
  destruct (includes s _); [discriminate|].
  destruct (or_else (wi_assignedTo i) (JStr "")); simpl; congruence.
Qed.

Lemma searched_filter (m : Manager.Manager) :
  readable m = true ->
  match Manager.activeSearch m with
  | Some s => filterT (Manager.matchesSearch s) (Manager.workItems m)
  | None => inr (Manager.workItems m)
  end = inr (filter (searched m) (Manager.workItems m)).
Proof.
  unfold readable, searched. intros Hs.
  destruct (Manager.activeSearch m) as [s|].
  - apply filterT_total. intros i Hi.
    unfold searchable in Hs. rewrite forallb_forall in Hs.
    pose proof (Hs i Hi) as H. apply andb_true_iff in H.
    now apply matchesSearch_found.
  - now rewrite filter_all.
Qed.

(** What [applyFilters] hands to [sortData]. *)
Lemma applyFilters_sorts (m : Manager.Manager) :
  readable m = true ->
  Manager.applyFilters m
  = let* f := Manager.sortData m
                (filter (fun i => searched m i && passes m i)
                        (Manager.workItems m)) in
    inr (Manager.set_filteredWorkItems f m).
Proof.
  intros Hread. unfold Manager.applyFilters.
  rewrite (searched_filter m Hread). cbn [bindT]. cbv zeta.
  rewrite (filters_compose m). now rewrite filter_twice.
Qed.

Lemma applyFilters_searched (m : Manager.Manager) :
  readable m = true ->
  sortable (Manager.sortedBy m) (Manager.workItems m) = true ->
  exists shown,
    Manager.applyFilters m = inr (Manager.set_filteredWorkItems shown m)
    /\ Permutation shown
         (filter (fun i => searched m i && passes m i) (Manager.workItems m)).
Proof.
  intros Hread Hsort. rewrite (applyFilters_sorts m Hread).
  destruct (sortData_perm m
              (filter (fun i => searched m i && passes m i)
                      (Manager.workItems m)))
    as (shown & Hs & Hp).
  { now apply sortable_filter. }
  rewrite Hs. cbn [bindT]. exists shown.
  split; [reflexivity | now apply Permutation_sym].
Qed.

(** C7, as the claim has it, fails in two ways.  The search box is a third
    predicate: with no filter selected, a fetched row the search term does
    not occur in is not displayed.  And the rows are sorted before they
    are displayed: where the sort column holds a string in one row and
    none in another, the comparator throws when it is called with the
    string first, as it is here for the second row against the first;
    then [applyFilters] throws, and the rows displayed before stay,
    whatever the filter selects. *)
Lemma filters_do_not_decide_alone :
  let task := mkWorkItem (JNum 1) (JStr "Fix login bug") (JStr "Task")
                (JStr "To Do") (JStr "Ada") JUndefined (JNum 2) JUndefined
                JUndefined (JStr "1") in
  let docs := mkWorkItem (JNum 2) (JStr "Write docs") (JStr "Task")
                (JStr "Done") JUndefined JUndefined (JNum 3) JUndefined
                JUndefined (JStr "2") in
  let searching :=
    Manager.mkManager (JNum 10) [task; docs] [] false None "standard" "" ""
      (Some "login") "title" "asc" (Manager.mkStats 0 0 0) [] false in
  let sorting :=
    Manager.mkManager (JNum 10) [docs; task] [docs] false None "standard"
      "Task" "" (Some "") "assignedTo" "asc" (Manager.mkStats 0 0 0) []
      false in
  (Manager.selectedTypeFilter searching = ""
   /\ Manager.selectedStateFilter searching = ""
   /\ In docs (Manager.workItems searching)
   /\ exists m', Manager.applyFilters searching = inr m'
                 /\ Manager.filteredWorkItems m' = [task])
  /\ (wi_workItemType task = JStr (Manager.selectedTypeFilter sorting)
      /\ In task (Manager.workItems sorting)
      /\ Manager.applyFilters sorting = inl typeError
      /\ Manager.filteredWorkItems sorting = [docs]).
Proof.
  cbv zeta. split.
  - split; [reflexivity|]. split; [reflexivity|].
    split; [simpl; auto|]. eexists. split; reflexivity.
  - split; [reflexivity|]. split; [simpl; auto|]. split; reflexivity.
Qed.

(** C7, amended. When the search can read every fetched row (no term is
    set, or every title and assignee is a string or falsy) and the sort
    column holds strings in every fetched row or in none, [applyFilters]
    ends and leaves the fetched rows as they are, and a fetched row is
    displayed, as often as it was fetched, exactly when the search term
    (if any) occurs in it, its type is the selected type (if any) and its
    state is the selected state (if any).  So with no search term and a
    type filter alone a row is displayed exactly when it is fetched and
    its type is the selected one, likewise with a state filter alone, and
    with no search term and no filter every fetched row is displayed. *)
Theorem filters_select_from_fetched (m : Manager.Manager) :
  readable m = true ->
  sortable (Manager.sortedBy m) (Manager.workItems m) = true ->
  exists m',
    Manager.applyFilters m = inr m'
    /\ Manager.workItems m' = Manager.workItems m
    /\ Permutation (Manager.filteredWorkItems m')
         (filter (fun i => searched m i && passes m i) (Manager.workItems m))
    /\ (forall i,
          In i (Manager.filteredWorkItems m') <->
          In i (Manager.workItems m)
          /\ searched m i = true
          /\ (Manager.selectedTypeFilter m = ""
              \/ wi_workItemType i = JStr (Manager.selectedTypeFilter m))
          /\ (Manager.selectedStateFilter m = ""
              \/ wi_state i = JStr (Manager.selectedStateFilter m)))
    /\ (Manager.activeSearch m = None ->
        Manager.selectedTypeFilter m <> "" ->
        Manager.selectedStateFilter m = "" ->
        forall i, In i (Manager.filteredWorkItems m') <->
                  In i (Manager.workItems m)
                  /\ wi_workItemType i = JStr (Manager.selectedTypeFilter m))
    /\ (Manager.activeSearch m = None ->
        Manager.selectedStateFilter m <> "" ->
        Manager.selectedTypeFilter m = "" ->
        forall i, In i (Manager.filteredWorkItems m') <->
                  In i (Manager.workItems m)
                  /\ wi_state i = JStr (Manager.selectedStateFilter m))
    /\ (Manager.activeSearch m = None ->
        Manager.selectedTypeFilter m = "" ->
        Manager.selectedStateFilter m = "" ->
        Permutation (Manager.filteredWorkItems m') (Manager.workItems m)).
Proof.
  intros Hread Hsort.
  destruct (applyFilters_searched m Hread Hsort) as (shown & Happly & Hperm).
  exists (Manager.set_filteredWorkItems shown m).
  split; [exact Happly|]. split; [reflexivity|]. simpl.
  assert (Hin : forall i,
             In i shown <->
             In i (Manager.workItems m)
             /\ searched m i = true /\ passes m i = true).
  { intros i. split.
    - intros Hi. apply (Permutation_in _ Hperm) in Hi.
      apply filter_In in Hi. destruct Hi as [Hi Hb].
      apply andb_true_iff in Hb. tauto.
    - intros (Hi & Hs1 & Hs2). apply (Permutation_in _ (Permutation_sym Hperm)).
      apply filter_In. split; [exact Hi|]. now rewrite Hs1, Hs2. }
  assert (Hnone : Manager.activeSearch m = None ->
                  forall i, searched m i = true).
  { intros Hs i. unfold searched. now rewrite Hs. }
  split; [exact Hperm|]. split; [|split; [|split]].
  - intros i. rewrite Hin, passes_spec. tauto.
  - intros Hs Hty Hst i. rewrite Hin, passes_spec.
    pose proof (Hnone Hs i). intuition congruence.
  - intros Hs Hst Hty i. rewrite Hin, passes_spec.
    pose proof (Hnone Hs i). intuition congruence.
  - intros Hs Hty Hst.
    assert (E : filter (fun i => searched m i && passes m i)
                       (Manager.workItems m)
                = Manager.workItems m).
    { rewrite <- (filter_all (Manager.workItems m)) at 2.
      apply filter_ext. intros i. unfold passes.
      now rewrite (Hnone Hs i), Hty, Hst. }
    rewrite E in Hperm. exact Hperm.
Qed.

Lemma filters_select_from_fetched_witness :
  let bug := mkWorkItem (JNum 2) (JStr "Crash on save") (JStr "Bug")
               (JStr "Active") JUndefined JUndefined (JNum 1) JUndefined
               JUndefined (JStr "2") in
  let task := mkWorkItem (JNum 1) (JStr "Fix login bug") (JStr "Task")
                (JStr "To Do") JUndefined JUndefined (JNum 2) JUndefined
                JUndefined (JStr "1") in
  let m := Manager.mkManager (JNum 10) [task; bug] [] false None "standard"
             "Bug" "" (Some "") "title" "asc" (Manager.mkStats 0 0 0) []
             false in
  exists m',
    Manager.applyFilters m = inr m'
    /\ Manager.workItems m' = [task; bug]
    /\ (forall i, In i (Manager.filteredWorkItems m') <->
                  In i [task; bug] /\ wi_workItemType i = JStr "Bug").
Proof.
  intros bug task m.
  destruct (filters_select_from_fetched m eq_refl eq_refl)
    as (m' & Happly & Hitems & _ & _ & Htype & _).
  exists m'. split; [exact Happly|]. split; [exact Hitems|].
  apply Htype; [reflexivity | discriminate | reflexivity].
Defined.

(** After a successful fetch the manager keeps the fetched rows, each with
    its [id], and displays those that pass the filters. *)
Lemma load_then_filter (res : QueryResponse) (items : list WorkItem)
  (m : Manager.Manager) :
  Manager.selectedConfig m <> "" ->
  qr_success res = true ->
  qr_workItems res = Some items ->
  Manager.activeSearch m = None ->
  sortable (Manager.sortedBy m) (map withId items) = true ->
  let m' := fst (Manager.loadWorkItems (Resolved (Some res)) m) in
  Manager.workItems m' = map withId items
  /\ Permutation (Manager.filteredWorkItems m')
                 (filter (passes m) (map withId items)).
Proof.
  intros Hc Hok Hitems Hsearch Hsort. unfold Manager.loadWorkItems.
  apply String.eqb_neq in Hc. rewrite Hc, Hok, Hitems.
  set (m2 := Manager.set_workItems (map withId items)
               (Manager.set_isLoading true m)).
  destruct (applyFilters_result m2) as (shown & Happly & Hperm).
  - unfold Manager.activeSearch in *. exact Hsearch.
  - exact Hsort.
  - rewrite Happly. simpl. split; [reflexivity|].
    apply Permutation_sym. exact Hperm.
Qed.

(* ------------------------------------------------------------------ *)
(** ** The components on concrete inputs *)

Example parseInt_reads_digits :
  parseInt10 "3" = JNum 3 /\ parseInt10 "  42px" = JNum 42
  /\ parseInt10 "-7" = JNum (-7) /\ parseInt10 "high" = JNaN
  /\ parseInt10 "" = JNaN.
Proof. repeat split. Qed.

Example parseInt_rounds_to_a_double :
  parseInt10 "9007199254740993" = JNum 9007199254740992
  /\ parseInt10 "-9007199254740995" = JNum (-9007199254740996)
  /\ parseInt10 "1e+21" = JNum 1
  /\ parseInt10 (toString (JNum (10 ^ 21))) = JNum 1
  /\ parseInt10 (toString (number (10 ^ 400))) = JNaN.
Proof. vm_compute. repeat split. Qed.

Example String_of_a_number :
  toString (JNum 7) = "7" /\ toString (JNum (-42)) = "-42"
  /\ toString (JNum (2 ^ 53)) = "9007199254740992"
  /\ toString (JNum (2 ^ 63)) = "9223372036854776000"
  /\ toString (JNum (10 ^ 21)) = "1e+21"
  /\ toString (JNum (2 ^ 70)) = "1.1805916207174113e+21"
  /\ toString (JNum (- (2 ^ 100))) = "-1.2676506002282294e+30"
  /\ toString (number (10 ^ 400)) = "Infinity".
Proof. vm_compute. repeat split. Qed.

Example trim_and_lower :
  trim "  Fix login bug  " = "Fix login bug" /\ trim "   " = ""
  /\ toLowerCase "Resolved" = "resolved".
Proof. repeat split. Qed.

Example creator_sends_number :
  let c := Creator.mkCreator "standard" "Task" (Some " Fix login bug ") ""
             (JStr "Done") "2" [] [] false None true false in
  snd (Creator.handleCreateWorkItem (Resolved None) c)
  = [Apex (createWorkItem
             (mkCreateArgs (JStr "standard") (JStr "Task")
                (JStr "Fix login bug") (JStr "") (JStr "Done") (JNum 2)));
     showErrorToast "Creation Failed" (JStr "Unknown error")].
Proof. reflexivity. Qed.

Example create_body_without_state :
  Service.createRequestBody
    [("System.Title", Service.FText "Fix login bug");
     ("System.State", Service.FText "Done")]
  = [Service.mkPatch "add" "/fields/System.Title"
       (Service.FText "Fix login bug")].
Proof. reflexivity. Qed.

Example update_body_keeps_state :
  Service.updateRequestBody [("System.State", Service.FText "Done")]
  = [Service.mkPatch "add" "/fields/System.State" (Service.FText "Done")].
Proof. reflexivity. Qed.

Example sort_by_title_descending :
  let a := mkWorkItem (JNum 1) (JStr "alpha") (JStr "Task") (JStr "To Do")
             JUndefined JUndefined JUndefined JUndefined JUndefined (JStr "1") in
  let b := mkWorkItem (JNum 2) (JStr "Beta") (JStr "Bug") (JStr "Done")
             JUndefined JUndefined JUndefined JUndefined JUndefined (JStr "2") in
  let m := Manager.mkManager (JNum 10) [a; b] [] false None "standard" "" ""
             None "title" "desc" (Manager.mkStats 0 0 0) [] false in
  Manager.sortData m [a; b] = inr [b; a].
Proof. reflexivity. Qed.

Example sort_meets_missing_title :
  let a := mkWorkItem (JNum 1) JUndefined (JStr "Task") (JStr "To Do")
             JUndefined JUndefined JUndefined JUndefined JUndefined (JStr "1") in
  let b := mkWorkItem (JNum 2) (JStr "Beta") (JStr "Bug") (JStr "Done")
             JUndefined JUndefined JUndefined JUndefined JUndefined (JStr "2") in
  let m := Manager.mkManager (JNum 10) [a; b] [] false None "standard" "" ""
             None "title" "asc" (Manager.mkStats 0 0 0) [] false in
  Manager.sortData m [a; b] = inl typeError.
Proof. reflexivity. Qed.

Example manager_requests_its_row_limit :
  let m := Manager.mkManager (JNum 10) [] [] false None "standard" "" ""
             (Some "") "title" "asc" (Manager.mkStats 0 0 0) [] false in
  Manager.queryArgs m
  = mkQueryArgs (JStr "standard") JNull JNull (JNum 10)
  /\ Manager.queryArgs
       (Manager.mkManager (JNum 0) [] [] false None "standard" "Bug" "" (Some "")
          "title" "asc" (Manager.mkStats 0 0 0) [] false)
     = mkQueryArgs (JStr "standard") (JStr "Bug") JNull (JNum 50).
Proof. split; reflexivity. Qed.

Example confirm_with_blank_reason_stays_open :
  let m := UniversalModal.mkModal "confirm" true None [] (Some "   ") false in
  UniversalModal.handleConfirm m = (m, [])
  /\ UniversalModal.handleConfirm
       (UniversalModal.handleReasonChange "duplicate" m)
     = (UniversalModal.handleReasonChange "duplicate" m,
        [CloseModal (mkModalResult true (Some "duplicate") "confirm" None)]).
Proof. split; reflexivity. Qed.

Example delete_forwards_null_reason :
  let row := mkWorkItem (JNum 7) (JStr "Fix login bug") (JStr "Task")
               (JStr "To Do") JUndefined JUndefined (JNum 2) JUndefined
               JUndefined (JStr "7") in
  let m := Manager.mkManager (JNum 10) [row] [row] false None "standard" "" ""
             (Some "") "title" "asc" (Manager.mkStats 1 0 0) [] true in
  snd (Manager.handleDeleteAction row
         (Some (mkModalResult true (Some "") "confirm" None))
         (Resolved None) (Resolved None) m)
  = [OpenUniversalModal Manager.deleteOptions;
     Apex (deleteWorkItemWithReason
             (mkDeleteArgs (JStr "standard") (JNum 7) JNull));
     showErrorToast "Delete Failed" (JStr "Unknown error")].
Proof. reflexivity. Qed.

(* ------------------------------------------------------------------ *)
(** ** Form modals *)

Lemma lookup_store_same (k : string) (v : JsVal) (d : list (string * JsVal)) :
  UniversalModal.lookup k (UniversalModal.store k v d) = v.
Proof.
  induction d as [|[k' w] r IH]; simpl.
  - now rewrite String.eqb_refl.
  - destruct (k' =? k)%string eqn:E; simpl; rewrite E; [reflexivity | exact IH].
Qed.

Lemma lookup_store_other (k k' : string) (v : JsVal)
  (d : list (string * JsVal)) :
  k' <> k ->
  UniversalModal.lookup k' (UniversalModal.store k v d)
  = UniversalModal.lookup k' d.
Proof.
  intros Hk. induction d as [|[k0 w] r IH]; simpl.
  - apply String.eqb_neq in Hk. rewrite String.eqb_sym in Hk. now rewrite Hk.
  - destruct (k0 =? k)%string eqn:E; simpl.
    + apply String.eqb_eq in E. subst k0.
      destruct (k =? k')%string eqn:E'; [|reflexivity].
      apply String.eqb_eq in E'. congruence.
    + now rewrite IH.
Qed.

Lemma hasOwn_store_same (k : string) (v : JsVal) (d : list (string * JsVal)) :
  UniversalModal.hasOwn k (UniversalModal.store k v d) = true.
Proof.
  unfold UniversalModal.hasOwn.
  induction d as [|[k' w] r IH]; simpl.
  - now rewrite String.eqb_refl.
  - destruct (k' =? k)%string eqn:E; simpl; rewrite E; [reflexivity | exact IH].
Qed.

Lemma hasOwn_store_other (k k' : string) (v : JsVal)
  (d : list (string * JsVal)) :
  k' <> k ->
  UniversalModal.hasOwn k' (UniversalModal.store k v d)
  = UniversalModal.hasOwn k' d.
Proof.
  unfold UniversalModal.hasOwn.
  intros Hk. induction d as [|[k0 w] r IH]; simpl.
  - apply String.eqb_neq in Hk. rewrite String.eqb_sym in Hk. now rewrite Hk.
  - destruct (k0 =? k)%string eqn:E; simpl.
    + apply String.eqb_eq in E. subst k0. reflexivity.
    + now rewrite IH.
Qed.

(** A property just written is read back, under any name. *)
Lemma get_store_same (k : string) (v : JsVal) (d : list (string * JsVal)) :
  UniversalModal.get k (UniversalModal.store k v d) = UniversalModal.Own v.
Proof.
  unfold UniversalModal.get.
  now rewrite hasOwn_store_same, lookup_store_same.
Qed.

Lemma get_store_other (k k' : string) (v : JsVal)
  (d : list (string * JsVal)) :
  k' <> k ->
  UniversalModal.get k' (UniversalModal.store k v d) = UniversalModal.get k' d.
Proof.
  intros Hk. unfold UniversalModal.get.
  now rewrite hasOwn_store_other, lookup_store_other.
Qed.

Lemma forallb_same {A : Type} (p q : A -> bool) (l : list A) :
  (forall x, In x l -> p x = q x) -> forallb p l = forallb q l.
Proof.
  induction l as [|x l IH]; intros H; simpl; [reflexivity|].
  rewrite (H x (or_introl eq_refl)), IH; [reflexivity|].
  intros y Hy. apply H. now right.
Qed.

Lemma fieldFilled_held (d : list (string * JsVal))
  (f : UniversalModal.FormField) :
  UniversalModal.fieldFilled d f
  = negb (UniversalModal.f_required f)
    || held (UniversalModal.get (UniversalModal.f_name f) d).
Proof.
  unfold UniversalModal.fieldFilled, held, filledIn.
  destruct (UniversalModal.f_required f); simpl; [|reflexivity].
  destruct (UniversalModal.get _ d) as [v|]; [|reflexivity].
  destruct v; try reflexivity; now rewrite trim_eqb_blank.
Qed.

Lemma form_submits_only_when_filled_aux (m : UniversalModal.Modal)
  (fields : list UniversalModal.FormField) :
  UniversalModal.modalType m = "form" ->
  UniversalModal.formConfig m = Some fields ->
  let filled :=
    forallb (fun f => negb (UniversalModal.f_required f)
                      || held (UniversalModal.get
                                 (UniversalModal.f_name f)
                                 (UniversalModal.formData m))) fields in
  UniversalModal.isConfirmDisabled m = UniversalModal.loading m || negb filled
  /\ (filled = true ->
      UniversalModal.handleConfirm m
      = (UniversalModal.set_loading true m,
         [CloseModal (mkModalResult true None "submit"
                        (Some (UniversalModal.formData m)))]))
  /\ (filled = false -> UniversalModal.handleConfirm m = (m, [])).
Proof.
  intros Hty Hcfg filled.
  assert (Hvalid : UniversalModal.isFormValid m = filled).
  { unfold UniversalModal.isFormValid, filled. rewrite Hcfg.
    apply forallb_same. intros f _. apply fieldFilled_held. }
  unfold UniversalModal.isConfirmDisabled, UniversalModal.handleConfirm.
  rewrite Hty, Hvalid. simpl. split; [reflexivity|].
  split; intros ->; reflexivity.
Qed.

(** X1. A form modal submits exactly when, under the name of every
    required field, the form data hold a value that is neither null nor
    undefined nor blank once written as a string, or hold no value of
    their own while the name is one every object inherits: then
    [handleConfirm] closes with the form data and the action "submit" and
    sets [loading]; otherwise it returns with the modal open and
    unchanged.  The confirm button is disabled while the modal is loading
    or the form is not valid. *)
Theorem form_submits_only_when_filled (m : UniversalModal.Modal)
  (fields : list UniversalModal.FormField) :
  UniversalModal.modalType m = "form" ->
  UniversalModal.formConfig m = Some fields ->
  let filled :=
    forallb (fun f => negb (UniversalModal.f_required f)
                      || held (UniversalModal.get
                                 (UniversalModal.f_name f)
                                 (UniversalModal.formData m))) fields in
  UniversalModal.isConfirmDisabled m = UniversalModal.loading m || negb filled
  /\ (filled = true ->
      UniversalModal.handleConfirm m
      = (UniversalModal.set_loading true m,
         [CloseModal (mkModalResult true None "submit"
                        (Some (UniversalModal.formData m)))]))
  /\ (filled = false -> UniversalModal.handleConfirm m = (m, [])).
Proof.
  intros Hty Hcfg. now apply form_submits_only_when_filled_aux.
Qed.

Lemma form_submits_only_when_filled_witness :
  let fields := [UniversalModal.mkField "title" true (JStr "");
                 UniversalModal.mkField "notes" false JUndefined] in
  let m := UniversalModal.mkModal "form" false (Some fields)
             [("title", JStr "   ")] None false in
  UniversalModal.handleConfirm m = (m, []).
Proof.
  intros fields m.
  apply (proj2 (proj2 (form_submits_only_when_filled m fields
                         eq_refl eq_refl))).
  reflexivity.
Defined.

(** X2. [handleFieldChange] writes one field: the form data then hold the
    event's value under the event's field name, every other field reads
    as before, and nothing else of the modal changes.  The name is the
    target's name or else its data attribute, the value is the detail's
    unless that is undefined. *)
Theorem field_change_writes_one_field (e : UniversalModal.FieldEvent)
  (m : UniversalModal.Modal) :
  let m' := UniversalModal.handleFieldChange e m in
  let key := toString (or_else (UniversalModal.target_name e)
                               (UniversalModal.dataset_fieldName e)) in
  let written := if strict_eq (UniversalModal.detail_value e) JUndefined
                 then UniversalModal.target_value e
                 else UniversalModal.detail_value e in
  UniversalModal.lookup key (UniversalModal.formData m') = written
  /\ (forall k, k <> key ->
        UniversalModal.lookup k (UniversalModal.formData m')
        = UniversalModal.lookup k (UniversalModal.formData m))
  /\ UniversalModal.set_formData (UniversalModal.formData m) m' = m
  /\ UniversalModal.get key (UniversalModal.formData m')
     = UniversalModal.Own written
  /\ (forall k, k <> key ->
        UniversalModal.get k (UniversalModal.formData m')
        = UniversalModal.get k (UniversalModal.formData m)).
Proof.
  cbv zeta. unfold UniversalModal.handleFieldChange. simpl.
  split; [|split; [|split; [|split]]].
  - rewrite lookup_store_same.
    now destruct (UniversalModal.detail_value e).
  - intros k Hk. now apply lookup_store_other.
  - now destruct m.
  - rewrite get_store_same.
    now destruct (UniversalModal.detail_value e).
  - intros k Hk. now apply get_store_other.
Qed.

Lemma get_assign_other (k k' : string) (v : JsVal)
  (d : list (string * JsVal)) :
  k' <> k ->
  UniversalModal.get k' (UniversalModal.assign k v d) = UniversalModal.get k' d.
Proof.
  intros Hk. unfold UniversalModal.assign.
  destruct (k =? "__proto__")%string; [reflexivity|].
  now apply get_store_other.
Qed.

Lemma get_fold_other (k : string) (l : list UniversalModal.FormField)
  (d : list (string * JsVal)) :
  ~ In k (map UniversalModal.f_name l) ->
  UniversalModal.get k
    (fold_left
       (fun d f => UniversalModal.assign (UniversalModal.f_name f)
                     (or_else (UniversalModal.f_defaultValue f) (JStr "")) d)
       l d)
  = UniversalModal.get k d.
Proof.
  revert d. induction l as [|h l IHl]; intros d Hn; [reflexivity|].
  simpl. rewrite IHl.
  - apply get_assign_other. intros E. apply Hn. left. now symmetry.
  - intros Hl. apply Hn. now right.
Qed.

Lemma get_defaults (fields : list UniversalModal.FormField)
  (d : list (string * JsVal)) (f : UniversalModal.FormField) :
  NoDup (map UniversalModal.f_name fields) ->
  In f fields ->
  UniversalModal.f_name f <> "__proto__" ->
  UniversalModal.get (UniversalModal.f_name f)
    (fold_left
       (fun d f => UniversalModal.assign (UniversalModal.f_name f)
                     (or_else (UniversalModal.f_defaultValue f) (JStr "")) d)
       fields d)
  = UniversalModal.Own (or_else (UniversalModal.f_defaultValue f) (JStr "")).
Proof.
  revert d. induction fields as [|g r IH]; intros d Hnd Hin Hname;
    [destruct Hin|].
  simpl in Hnd. inversion Hnd as [|? ? Hnotin Hnd']; subst.
  destruct Hin as [-> | Hin]; simpl.
  - rewrite (get_fold_other _ r _ Hnotin). unfold UniversalModal.assign.
    apply String.eqb_neq in Hname. rewrite Hname. apply get_store_same.
  - now apply IH.
Qed.

(** The assignments of [initializeFormData] leave what the form data hold
    under [__proto__] alone. *)
Lemma get_proto_fold (fields : list UniversalModal.FormField)
  (d : list (string * JsVal)) :
  UniversalModal.get "__proto__"
    (fold_left
       (fun d f => UniversalModal.assign (UniversalModal.f_name f)
                     (or_else (UniversalModal.f_defaultValue f) (JStr "")) d)
       fields d)
  = UniversalModal.get "__proto__" d.
Proof.
  revert d. induction fields as [|g r IH]; intros d; [reflexivity|].
  simpl. rewrite IH. unfold UniversalModal.assign.
  destruct (UniversalModal.f_name g =? "__proto__")%string eqn:E;
    [reflexivity|].
  apply get_store_other. apply String.eqb_neq in E. congruence.
Qed.

Lemma or_else_text_filledIn (v : JsVal) :
  filledIn (or_else v (JStr ""))
  = negb (allWhitespace (toString (or_else v (JStr "")))).
Proof.
  unfold filledIn.
  destruct (or_else v (JStr "")) eqn:E; try reflexivity;
    unfold or_else in E; destruct (truthy v) eqn:T;
    try discriminate; rewrite E in T; discriminate.
Qed.

(** X3. When the fields of a form have distinct names, [initializeFormData]
    gives each field its default value, or the empty string when the
    default is falsy, but for a field named [__proto__]: under that name
    the form data keep holding the prototype.  So a fresh form is valid
    exactly when every required field has a default that is not blank or
    is named [__proto__]. *)
Theorem fresh_form_valid_iff_defaults (m : UniversalModal.Modal)
  (fields : list UniversalModal.FormField) :
  UniversalModal.formConfig m = Some fields ->
  NoDup (map UniversalModal.f_name fields) ->
  let m' := UniversalModal.initializeFormData m in
  (forall f, In f fields ->
     UniversalModal.f_name f <> "__proto__" ->
     UniversalModal.get (UniversalModal.f_name f)
                        (UniversalModal.formData m')
     = UniversalModal.Own (or_else (UniversalModal.f_defaultValue f) (JStr "")))
  /\ UniversalModal.get "__proto__" (UniversalModal.formData m')
     = UniversalModal.Inherited
  /\ UniversalModal.isFormValid m'
     = forallb (fun f => negb (UniversalModal.f_required f)
                         || (UniversalModal.f_name f =? "__proto__")%string
                         || negb (allWhitespace
                                    (toString
                                       (or_else (UniversalModal.f_defaultValue f)
                                                (JStr ""))))) fields.
Proof.
  intros Hcfg Hnd m'.
  assert (Hlook : forall f, In f fields ->
            UniversalModal.f_name f <> "__proto__" ->
            UniversalModal.get (UniversalModal.f_name f)
                               (UniversalModal.formData m')
            = UniversalModal.Own
                (or_else (UniversalModal.f_defaultValue f) (JStr ""))).
  { intros f Hf Hname. unfold m', UniversalModal.initializeFormData.
    rewrite Hcfg. simpl. now apply get_defaults. }
  assert (Hproto : UniversalModal.get "__proto__" (UniversalModal.formData m')
                   = UniversalModal.Inherited).
  { unfold m', UniversalModal.initializeFormData.
    rewrite Hcfg. simpl. now rewrite get_proto_fold. }
  split; [exact Hlook|]. split; [exact Hproto|].
  unfold UniversalModal.isFormValid.
  replace (UniversalModal.formConfig m') with (Some fields)
    by (unfold m', UniversalModal.initializeFormData; now rewrite Hcfg).
  apply forallb_same. intros f Hf.
  rewrite fieldFilled_held, <- orb_assoc. f_equal.
  destruct (UniversalModal.f_name f =? "__proto__")%string eqn:E.
  - apply String.eqb_eq in E. rewrite E, Hproto. reflexivity.
  - apply String.eqb_neq in E. rewrite (Hlook f Hf E). simpl.
    apply or_else_text_filledIn.
Qed.

Lemma fresh_form_valid_iff_defaults_witness :
  let fields := [UniversalModal.mkField "title" true JUndefined;
                 UniversalModal.mkField "priority" true (JStr "2")] in
  let m := UniversalModal.mkModal "form" false (Some fields) [] None false in
  UniversalModal.isFormValid (UniversalModal.initializeFormData m) = false.
Proof.
  intros fields m.
  rewrite (proj2 (proj2 (fresh_form_valid_iff_defaults m fields eq_refl
                    ltac:(repeat constructor; simpl; intuition discriminate)))).
  reflexivity.
Defined.

Lemma or_else_defined (v d : JsVal) :
  defined d = true -> defined (or_else v d) = true.
Proof.
  intros Hd. unfold or_else. destruct (truthy v) eqn:T; [|exact Hd].
  destruct v; simpl in *; congruence.
Qed.

(** A field made by [createField] has at most one of the three kind
    flags set, and its [required], [placeholder], [defaultValue] and
    [value] are never null or undefined; its label is the config's, or
    the name when the config has none; its value is the config's value,
    or else the default value. *)
Theorem createField_fills_the_gaps (name type : string)
  (config : UniversalModalHelper.FieldConfig) :
  let f := UniversalModalHelper.createField name type config in
  (UniversalModalHelper.isText f && UniversalModalHelper.isTextarea f = false)
  /\ (UniversalModalHelper.isText f && UniversalModalHelper.isCombobox f = false)
  /\ (UniversalModalHelper.isTextarea f && UniversalModalHelper.isCombobox f
      = false)
  /\ defined (UniversalModalHelper.required f) = true
  /\ defined (UniversalModalHelper.placeholder f) = true
  /\ defined (UniversalModalHelper.defaultValue f) = true
  /\ defined (UniversalModalHelper.value f) = true
  /\ (truthy (UniversalModalHelper.cfg_label config) = false ->
      UniversalModalHelper.label f = JStr name)
  /\ (truthy (UniversalModalHelper.cfg_value config) = false ->
      UniversalModalHelper.value f = UniversalModalHelper.defaultValue f).
Proof.
  cbv zeta. unfold UniversalModalHelper.createField. simpl.
  repeat match goal with |- _ /\ _ => split end;
    try (apply or_else_defined; reflexivity).
  - destruct (type =? "text")%string eqn:E; [|reflexivity].
    apply String.eqb_eq in E. now subst.
  - destruct (type =? "text")%string eqn:E; [|reflexivity].
    apply String.eqb_eq in E. now subst.
  - destruct (type =? "textarea")%string eqn:E; [|reflexivity].
    apply String.eqb_eq in E. now subst.
  - intros H. unfold or_else. now rewrite H.
  - intros H. unfold or_else. rewrite H.
    destruct (truthy (UniversalModalHelper.cfg_defaultValue config));
      reflexivity.
Qed.

Lemma createField_fills_the_gaps_witness :
  let f := UniversalModalHelper.createField "title" "text"
             UniversalModalHelper.emptyConfig in
  UniversalModalHelper.label f = JStr "title"
  /\ UniversalModalHelper.value f = UniversalModalHelper.defaultValue f.
Proof.
  intros f.
  destruct (createField_fills_the_gaps "title" "text"
              UniversalModalHelper.emptyConfig)
    as (_ & _ & _ & _ & _ & _ & _ & Hl & Hv).
  split; [apply Hl | apply Hv]; reflexivity.
Defined.

(** X4. A form whose first field was made by [createField] as required
    and without a default value does not submit when it opens:
    [handleConfirm] leaves it open, unless the field is named [__proto__]:
    under that name the form data hold the prototype, and the form
    submits at once when no other field is required.  Once
    [handleFieldChange] has written a filled-in value under the field's
    name, whatever the name, and no other field is required,
    [handleConfirm] closes the form with that value in the form data. *)
Theorem required_field_blocks_submit (name type : string)
  (config : UniversalModalHelper.FieldConfig)
  (rest : list UniversalModalHelper.Field) (e : UniversalModal.FieldEvent) :
  truthy (UniversalModalHelper.cfg_required config) = true ->
  truthy (UniversalModalHelper.cfg_defaultValue config) = false ->
  ~ In name (map UniversalModalHelper.name rest) ->
  let m := UniversalModal.initializeFormData
             (UniversalModalHelper.openForm
                (UniversalModalHelper.createField name type config :: rest)) in
  (name <> "__proto__" -> UniversalModal.handleConfirm m = (m, []))
  /\ (UniversalModal.target_name e = JStr name ->
      name <> "" ->
      filledIn (UniversalModal.detail_value e) = true ->
      forallb (fun f => negb (truthy (UniversalModalHelper.required f))) rest
      = true ->
      let m' := UniversalModal.handleFieldChange e m in
      exists data,
        snd (UniversalModal.handleConfirm m')
        = [CloseModal (mkModalResult true None "submit" (Some data))]
        /\ UniversalModal.get name data
           = UniversalModal.Own (UniversalModal.detail_value e))
  /\ (name = "__proto__" ->
      forallb (fun f => negb (truthy (UniversalModalHelper.required f))) rest
      = true ->
      snd (UniversalModal.handleConfirm m)
      = [CloseModal (mkModalResult true None "submit"
                       (Some (UniversalModal.formData m)))]).
Proof.
  intros Hreq Hdef Hfresh m.
  set (fields := map UniversalModalHelper.asFormField
                     (UniversalModalHelper.createField name type config :: rest)).
  assert (Hcfg : UniversalModal.formConfig m = Some fields) by reflexivity.
  assert (Hnames : map UniversalModal.f_name
                       (map UniversalModalHelper.asFormField rest)
                   = map UniversalModalHelper.name rest).
  { rewrite map_map. reflexivity. }
  assert (Hlook : name <> "__proto__" ->
                  UniversalModal.get name (UniversalModal.formData m)
                  = UniversalModal.Own (JStr "")).
  { intros Hname. unfold m, UniversalModal.initializeFormData. simpl.
    rewrite get_fold_other by (now rewrite Hnames).
    unfold UniversalModal.assign. apply String.eqb_neq in Hname.
    rewrite Hname, get_store_same.
    unfold or_else. rewrite Hdef. reflexivity. }
  assert (Hproto : UniversalModal.get "__proto__" (UniversalModal.formData m)
                   = UniversalModal.Inherited).
  { unfold m, UniversalModal.initializeFormData. simpl.
    rewrite (get_proto_fold
               (map UniversalModalHelper.asFormField rest)).
    unfold UniversalModal.assign.
    destruct (name =? "__proto__")%string eqn:E; [reflexivity|].
    rewrite get_store_other; [reflexivity|].
    apply String.eqb_neq in E. congruence. }
  assert (Hty : UniversalModal.modalType m = "form") by reflexivity.
  assert (Hothers : forall d,
             forallb (fun f => negb (truthy (UniversalModalHelper.required f)))
                     rest = true ->
             forallb (fun f => negb (UniversalModal.f_required f)
                               || held (UniversalModal.get
                                          (UniversalModal.f_name f) d))
                     (map UniversalModalHelper.asFormField rest) = true).
  { intros d Hrest. rewrite forallb_forall in Hrest |- *. intros f Hf.
    apply in_map_iff in Hf. destruct Hf as (g & <- & Hg). simpl.
    now rewrite (Hrest g Hg). }
  clearbody m. split; [|split].
  - intros Hname.
    apply (proj2 (proj2 (form_submits_only_when_filled_aux m fields
                           Hty Hcfg))).
    unfold fields. simpl. rewrite (Hlook Hname).
    unfold or_else. repeat rewrite Hreq. reflexivity.
  - intros Hname Hne Hfilled Hrest m'.
    assert (Hkey : toString (or_else (UniversalModal.target_name e)
                                     (UniversalModal.dataset_fieldName e))
                   = name).
    { rewrite Hname. unfold or_else. simpl.
      apply String.eqb_neq in Hne. now rewrite Hne. }
    assert (Hval : UniversalModal.get name (UniversalModal.formData m')
                   = UniversalModal.Own (UniversalModal.detail_value e)).
    { unfold m', UniversalModal.handleFieldChange. simpl. rewrite Hkey.
      rewrite get_store_same.
      destruct (UniversalModal.detail_value e); try reflexivity.
      discriminate. }
    assert (Hcfg' : UniversalModal.formConfig m' = Some fields)
      by exact Hcfg.
    assert (Hty' : UniversalModal.modalType m' = "form") by exact Hty.
    clearbody m'.
    exists (UniversalModal.formData m'). split; [|exact Hval].
    rewrite (proj1 (proj2 (form_submits_only_when_filled_aux m' fields
                             Hty' Hcfg'))); [reflexivity|].
    unfold fields. simpl. rewrite Hval. simpl. rewrite Hfilled, orb_true_r.
    simpl. now apply Hothers.
  - intros Hname Hrest.
    rewrite (proj1 (proj2 (form_submits_only_when_filled_aux m fields
                             Hty Hcfg))); [reflexivity|].
    unfold fields. simpl. rewrite Hname, Hproto. simpl. rewrite orb_true_r.
    simpl. now apply Hothers.
Qed.

Lemma required_field_blocks_submit_witness :
  let config := UniversalModalHelper.mkFieldConfig (JStr "Title") (JBool true)
                  JUndefined JUndefined JUndefined None JUndefined JUndefined
                  JUndefined in
  let e := UniversalModal.mkFieldEvent (JStr "title") JUndefined
             (JStr "Fix login bug") JUndefined in
  let m := UniversalModal.initializeFormData
             (UniversalModalHelper.openForm
                [UniversalModalHelper.createField "title" "text" config]) in
  UniversalModal.handleConfirm m = (m, [])
  /\ exists data,
       snd (UniversalModal.handleConfirm (UniversalModal.handleFieldChange e m))
       = [CloseModal (mkModalResult true None "submit" (Some data))]
       /\ UniversalModal.get "title" data
          = UniversalModal.Own (JStr "Fix login bug").
Proof.
  intros config e m.
  destruct (required_field_blocks_submit "title" "text" config [] e
              eq_refl eq_refl (fun H => H)) as (Hshut & Hopen & _).
  split; [apply Hshut; discriminate|].
  apply Hopen; [reflexivity | discriminate | reflexivity | reflexivity].
Defined.

(* ------------------------------------------------------------------ *)
(** ** The creator's requests *)

Lemma trimEnd_idempotent (s : string) : trimEnd (trimEnd s) = trimEnd s.
Proof.
  induction s as [|c r IH]; [reflexivity|]. simpl.
  destruct (isWhitespace c && (trimEnd r =? "")%string) eqn:E;
    [reflexivity|].
  simpl. rewrite IH, E. reflexivity.
Qed.

Lemma trim_idempotent (s : string) : trim (trim s) = trim s.
Proof.
  unfold trim. destruct (trimStart s) as [|c r] eqn:Hs; [reflexivity|].
  pose proof (trimStart_head s c r Hs) as Hc.
  assert (Hfix : trimStart (trimEnd (String c r)) = trimEnd (String c r)).
  { simpl. rewrite Hc. simpl. now rewrite Hc. }
  rewrite Hfix. apply trimEnd_idempotent.
Qed.

(** X5. [handleCreateWorkItem] calls [createWorkItem] exactly when the
    create button would be enabled apart from [isLoading]: then it makes
    that one write call, first of its effects, and ends with [isLoading]
    false; otherwise it leaves the component as it is and shows one error.
    A request it sends has a truthy config and type, a title that is
    trimmed and not empty, and a truthy state. *)
Theorem creator_sends_complete_requests (o : Outcome (option ApexResponse))
  (c : Creator.Creator) :
  let open := negb (Creator.isCreateDisabled (Creator.set_isLoading false c)) in
  let effs := snd (Creator.handleCreateWorkItem o c) in
  (open = true ->
   exists rest,
     effs = Apex (createWorkItem (Creator.createArgs c)) :: rest
     /\ count is_write rest = 0%nat
     /\ Creator.isLoading (fst (Creator.handleCreateWorkItem o c)) = false)
  /\ (open = false ->
      fst (Creator.handleCreateWorkItem o c) = c
      /\ exists t, effs = [ShowToast t] /\ toast_variant t = VError)
  /\ (forall a, In (Apex (createWorkItem a)) effs ->
        truthy (c_configName a) = true
        /\ truthy (c_workItemType a) = true
        /\ truthy (c_state a) = true
        /\ exists t, c_title a = JStr t /\ t <> "" /\ trim t = t).
Proof.
  intros open effs.
  destruct (creator_guard o c) as [Hopen Hshut].
  split; [exact Hopen|]. split; [exact Hshut|].
  intros a Hin. pose proof (creator_create_requests o c a Hin) as ->.
  destruct open eqn:E.
  - unfold open, Creator.isCreateDisabled in E. simpl in E.
    change (Creator.titleMissing (Creator.set_isLoading false c))
      with (Creator.titleMissing c) in E.
    apply negb_true_iff in E. rewrite !orb_false_iff in E.
    destruct E as [[[Hc Hty] Htitle] _]. simpl.
    rewrite Hc, Hty. split; [reflexivity|]. split; [reflexivity|]. split.
    + unfold or_else.
      now destruct (truthy (Creator.selectedState c)) eqn:T; [rewrite T|].
    + unfold Creator.titleMissing, Creator.trimmedTitle in *.
      destruct (Creator.title c) as [s|]; [|discriminate].
      exists (trim s). split; [reflexivity|].
      split; [now apply String.eqb_neq | apply trim_idempotent].
  - destruct (Hshut E) as (_ & t & Ht & _).
    unfold effs in Hin. rewrite Ht in Hin.
    destruct Hin as [H | []]. discriminate.
Qed.

Lemma creator_sends_complete_requests_witness :
  let c := Creator.mkCreator "standard" "Task" (Some "  Fix login bug ") ""
             (JStr "") "2" [] [] true None true false in
  exists rest,
    snd (Creator.handleCreateWorkItem (Resolved None) c)
    = Apex (createWorkItem (Creator.createArgs c)) :: rest
    /\ count is_write rest = 0%nat
    /\ Creator.isLoading (fst (Creator.handleCreateWorkItem (Resolved None) c))
       = false.
Proof.
  intros c.
  apply (proj1 (creator_sends_complete_requests (Resolved None) c)).
  reflexivity.
Defined.

(** X6. The creator closes only on a response that reports success, and
    then hands over that response's work item and message and keeps the
    work item as [lastCreatedWorkItem]; a null response, a response
    without success and a rejected call leave the modal open. *)
Theorem creator_closes_only_on_success (o : Outcome (option ApexResponse))
  (c : Creator.Creator) (r : CreatorResult) :
  In (CloseCreator r) (snd (Creator.handleCreateWorkItem o c)) ->
  exists res,
    o = Resolved (Some res) /\ r_success res = true
    /\ r = mkCreatorResult true
             (Some (mkSummary (r_workItemId res) (r_workItemType res)
                              (r_title res) (r_workItemUrl res)))
             (r_message res)
    /\ Creator.lastCreatedWorkItem (fst (Creator.handleCreateWorkItem o c))
       = cr_workItem r.
Proof.
  unfold Creator.handleCreateWorkItem.
  destruct (negb (Creator.hasEdit c)).
  { intros [H | []]. discriminate. }
  destruct (_ || _ || _).
  { intros [H | []]. discriminate. }
  destruct o as [[res|]|err]; [destruct (r_success res) eqn:Hs| |]; simpl;
    intros [H | [H | []]]; try discriminate.
  injection H as <-. exists res. repeat split. exact Hs.
Qed.

Lemma creator_closes_only_on_success_witness :
  let c := Creator.mkCreator "standard" "Task" (Some "Fix login bug") ""
             (JStr "To Do") "2" [] [] false None true false in
  let res := mkResponse true (JStr "Created") (JNum 7) (JStr "Task")
               (JStr "Fix login bug") (JStr "https://dev.azure.com/x/7") in
  let r := mkCreatorResult true
             (Some (mkSummary (JNum 7) (JStr "Task") (JStr "Fix login bug")
                              (JStr "https://dev.azure.com/x/7")))
             (JStr "Created") in
  exists res',
    Resolved (Some res) = Resolved (Some res') /\ r_success res' = true
    /\ r = mkCreatorResult true
             (Some (mkSummary (r_workItemId res') (r_workItemType res')
                              (r_title res') (r_workItemUrl res')))
             (r_message res')
    /\ Creator.lastCreatedWorkItem
         (fst (Creator.handleCreateWorkItem (Resolved (Some res)) c))
       = cr_workItem r.
Proof.
  intros c res r.
  apply (creator_closes_only_on_success (Resolved (Some res)) c r).
  simpl. right. left. reflexivity.
Defined.

Lemma strict_eq_true (a b : JsVal) : strict_eq a b = true -> a = b.
Proof.
  destruct a, b; simpl; try discriminate; try reflexivity.
  - intros H. apply Bool.eqb_prop in H. now subst.
  - intros H. apply Z.eqb_eq in H. now subst.
  - intros H. apply String.eqb_eq in H. now subst.
  - intros H. apply Bool.eqb_prop in H. now subst.
Qed.

Lemma strict_eq_same (a : JsVal) : a <> JNaN -> strict_eq a a = true.
Proof.
  destruct a; simpl; try reflexivity; try congruence.
  - intros _. apply Bool.eqb_reflx.
  - intros _. apply Z.eqb_refl.
  - intros _. apply String.eqb_refl.
  - intros _. apply Bool.eqb_reflx.
Qed.

Lemma or_else_not_NaN (v : JsVal) (d : string) : or_else v (JStr d) <> JNaN.
Proof.
  unfold or_else. destruct (truthy v) eqn:T; [|discriminate].
  intros E. rewrite E in T. discriminate.
Qed.

(** X7. After the states of a type are loaded, the selected state is the
    value of one of the offered options, and is 'To Do' when none is
    offered; a selection that is still offered is kept.  Outside modal
    mode every state the controller returned is offered, in its order.  A
    response that is not a list, or a rejected call, leaves the component
    as it is. *)
Theorem creator_selected_state_is_offered (data : list StateDef)
  (c : Creator.Creator) :
  let c' := fst (Creator.loadStatesForType (Resolved (Items data)) c) in
  (Creator.stateOptions c' = [] -> Creator.selectedState c' = JStr "To Do")
  /\ (Creator.stateOptions c' <> [] ->
      exists opt, In opt (Creator.stateOptions c')
                  /\ o_value opt = Creator.selectedState c')
  /\ ((exists opt, In opt (Creator.stateOptions c')
                   /\ strict_eq (o_value opt) (Creator.selectedState c) = true) ->
      Creator.selectedState c' = Creator.selectedState c)
  /\ (Creator.modalMode c = false ->
      map o_value (Creator.stateOptions c') = map st_value data)
  /\ (forall v, fst (Creator.loadStatesForType (Resolved (NotArray v)) c) = c)
  /\ (forall e, fst (Creator.loadStatesForType (Rejected e) c) = c).
Proof.
  cbv zeta. unfold Creator.loadStatesForType. simpl.
  set (options := if Creator.modalMode c
                  then filter Creator.keepOption
                         (map (fun s => mkOption (st_label s) (st_value s)
                                                 (st_description s)) data)
                  else map (fun s => mkOption (st_label s) (st_value s)
                                              (st_description s)) data).
  destruct (existsb (fun opt => strict_eq (o_value opt)
                                          (Creator.selectedState c)) options)
    eqn:Hfound.
  - apply existsb_exists in Hfound. destruct Hfound as (opt & Hin & Heq).
    split; [|split; [|split; [|split; [|split]]]]; try reflexivity.
    + intros Hnil. rewrite Hnil in Hin. destruct Hin.
    + intros _. exists opt. split; [exact Hin | now apply strict_eq_true].
    + intros Hm. unfold options. rewrite Hm, map_map. reflexivity.
  - split; [|split; [|split; [|split; [|split]]]]; try reflexivity.
    + intros Hnil. now rewrite Hnil.
    + intros Hne. destruct options as [|first rest]; [congruence|].
      exists first. split; [now left | reflexivity].
    + intros (opt & Hin & Heq).
      assert (Hex : existsb (fun opt => strict_eq (o_value opt)
                                          (Creator.selectedState c)) options
                    = true).
      { apply existsb_exists. now exists opt. }
      congruence.
    + intros Hm. unfold options. rewrite Hm, map_map. reflexivity.
Qed.

Lemma creator_selected_state_is_offered_witness :
  let data := [mkStateDef (JStr "New") (JStr "New") JUndefined;
               mkStateDef (JStr "Active") (JStr "Active") JUndefined] in
  let c' := fst (Creator.loadStatesForType (Resolved (Items data))
                   Creator.initial) in
  exists opt, In opt (Creator.stateOptions c')
              /\ o_value opt = Creator.selectedState c'.
Proof.
  intros data c'.
  apply (proj1 (proj2 (creator_selected_state_is_offered data
                         Creator.initial))).
  discriminate.
Defined.

(** X8. A priority the controller returns with a safe integer for value
    comes back as that integer: [loadPriorities] offers it as an option
    whose value is a string, and once that string is selected the create
    request carries the integer. *)
Theorem creator_priority_round_trip (ps : list PriorityDef) (p : PriorityDef)
  (n : Z) (c : Creator.Creator) :
  In p ps ->
  p_value p = JNum n ->
  isSafeInteger n = true ->
  let c1 := fst (Creator.loadPriorities (Resolved (Items ps)) c) in
  exists opt s,
    In opt (Creator.priorityOptions c1)
    /\ o_label opt = p_label p
    /\ o_value opt = JStr s
    /\ c_priority (Creator.createArgs (Creator.handlePriorityChange s c1))
       = JNum n.
Proof.
  intros Hin Hval Hsafe c1.
  exists (mkOption (p_label p) (JStr (toString (p_value p))) JUndefined),
         (toString (p_value p)).
  split.
  - unfold c1, Creator.loadPriorities.
    destruct ps as [|q qs]; [destruct Hin|]. simpl Creator.priorityOptions.
    apply (in_map (fun p => mkOption (p_label p) (JStr (toString (p_value p)))
                                     JUndefined) _ _ Hin).
  - split; [reflexivity|]. split; [reflexivity|].
    unfold Creator.createArgs, Creator.handlePriorityChange.
    cbn [c_priority Creator.selectedPriority]. rewrite Hval.
    now apply parseInt10_string_of_Z.
Qed.

Lemma creator_priority_round_trip_witness :
  let ps := [mkPriorityDef (JStr "Critical") (JNum 1);
             mkPriorityDef (JStr "Low") (JNum 4)] in
  let c1 := fst (Creator.loadPriorities (Resolved (Items ps))
                   Creator.initial) in
  exists opt s,
    In opt (Creator.priorityOptions c1)
    /\ o_label opt = JStr "Low"
    /\ o_value opt = JStr s
    /\ c_priority (Creator.createArgs (Creator.handlePriorityChange s c1))
       = JNum 4.
Proof.
  intros ps c1.
  apply (creator_priority_round_trip ps (mkPriorityDef (JStr "Low") (JNum 4))
           4 Creator.initial).
  - simpl. right. left. reflexivity.
  - reflexivity.
  - reflexivity.
Defined.

(* ------------------------------------------------------------------ *)
(** ** The editor *)

(** X9. [handleReset] leaves nothing to save: afterwards [hasChanges] is
    false and the save button is disabled, whatever the editor was opened
    with. *)
Theorem editor_reset_leaves_no_changes (e : Editor.Editor) :
  Editor.hasChanges (Editor.handleReset e) = false
  /\ Editor.isSaveDisabled (Editor.handleReset e) = inr true.
Proof.
  assert (H : Editor.hasChanges (Editor.handleReset e) = false).
  { unfold Editor.hasChanges, Editor.handleReset, Editor.strict_ne. simpl.
    rewrite !strict_eq_same by apply or_else_not_NaN. reflexivity. }
  split; [exact H|].
  unfold Editor.isSaveDisabled. rewrite H.
  now destruct (Editor.isSaving (Editor.handleReset e)).
Qed.

Lemma or_else_text_twice (v : JsVal) (d : string) :
  or_else (or_else v (JStr d)) (JStr d) = or_else v (JStr d).
Proof.
  unfold or_else. destruct (truthy v) eqn:T; [now rewrite T|].
  now destruct (truthy (JStr d)).
Qed.

Lemma coalesce_or_else (v : JsVal) (d : string) (w : JsVal) :
  coalesce (or_else v (JStr d)) w = or_else v (JStr d).
Proof.
  unfold or_else. destruct (truthy v) eqn:T; [|reflexivity].
  destruct v; simpl in *; congruence.
Qed.

(** X10. The editor the manager opens on a row starts with the row's
    values.  It reports changes at once exactly when the row's priority is
    truthy and not a string, for the editor keeps the priority as a
    string; and a row priority that is a safe integer other than zero is
    the priority an update sends when the field is left alone. *)
Theorem editor_opened_on_row (row : WorkItem) (result : option bool)
  (reload : Outcome (option QueryResponse)) (m : Manager.Manager) :
  exists p rest,
    snd (Manager.handleEditAction row result reload m) = OpenEditor p :: rest
    /\ let e := Editor.connectedCallback (Editor.initial p) in
       Editor.title e = or_else (wi_title row) (JStr "")
       /\ Editor.state e = or_else (wi_state row) (JStr "")
       /\ Editor.priority e
          = JStr (toString (or_else (wi_priority row) (JStr "2")))
       /\ Editor.hasChanges e
          = truthy (wi_priority row) && negb (is_string (wi_priority row))
       /\ (forall n, wi_priority row = JNum n -> n <> 0 ->
             isSafeInteger n = true ->
             u_priority (Editor.updateArgs e) = JNum n).
Proof.
  unfold Manager.handleEditAction.
  eexists. exists (match result with
                   | Some true =>
                       showSuccessToast "Updated"
                         (JStr "Work item updated successfully")
                       :: snd (Manager.loadWorkItems reload m)
                   | _ => []
                   end).
  split.
  - destruct result as [[|]|]; try reflexivity.
    now destruct (Manager.loadWorkItems reload m).
  - cbv zeta. unfold Editor.connectedCallback, Editor.initial. simpl.
    rewrite !coalesce_or_else.
    split; [reflexivity|]. split; [reflexivity|]. split; [reflexivity|].
    split.
    + unfold Editor.hasChanges, Editor.strict_ne. simpl.
      rewrite !or_else_text_twice.
      rewrite !strict_eq_same by apply or_else_not_NaN. simpl.
      unfold or_else.
      destruct (wi_priority row) as [| |[]|z| |s|i]; simpl; try reflexivity.
      * destruct (z =? 0); reflexivity.
      * destruct (s =? "")%string eqn:E; simpl; [reflexivity|].
        now rewrite String.eqb_refl.
    + intros n Hn Hz Hsafe. unfold Editor.updateArgs, Editor.toInt.
      cbn [u_priority Editor.priority isInteger].
      rewrite Hn. unfold or_else. cbn [truthy].
      apply Z.eqb_neq in Hz. rewrite Hz. cbn [negb].
      now apply parseInt10_string_of_Z.
Qed.

Lemma editor_opened_on_row_witness :
  let row := mkWorkItem (JNum 7) (JStr "Fix login bug") (JStr "Task")
               (JStr "To Do") JUndefined JUndefined (JNum 3) JUndefined
               JUndefined (JStr "7") in
  exists p rest,
    snd (Manager.handleEditAction row None (Resolved None) Manager.initial)
    = OpenEditor p :: rest
    /\ Editor.hasChanges (Editor.connectedCallback (Editor.initial p)) = true
    /\ u_priority (Editor.updateArgs
                     (Editor.connectedCallback (Editor.initial p))) = JNum 3.
Proof.
  intros row.
  destruct (editor_opened_on_row row None (Resolved None) Manager.initial)
    as (p & rest & Heffs & _ & _ & _ & Hchanges & Hprio).
  exists p, rest. split; [exact Heffs|]. split.
  - rewrite Hchanges. reflexivity.
  - apply Hprio; [reflexivity | discriminate | reflexivity].
Defined.

(** X11. [handleSave] calls [updateWorkItem] exactly when the config name
    and the work item id are truthy: then it makes that one write call,
    with a work item id that is a number, and ends with [isSaving] false;
    otherwise it only shows the validation error.  It closes the editor
    only on a response that reports success, with the id it sent. *)
Theorem editor_saves_when_identified (o : Outcome (option ApexResponse))
  (e : Editor.Editor) :
  let ok := truthy (configName (Editor.props e))
            && truthy (workItemId (Editor.props e)) in
  let effs := snd (Editor.handleSave o e) in
  (ok = false ->
   Editor.handleSave o e
   = (e, [showErrorToast "Validation Error"
            (JStr "Missing configuration or work item id")]))
  /\ (ok = true ->
      exists rest,
        effs = Apex (updateWorkItem (Editor.updateArgs e)) :: rest
        /\ count is_write rest = 0%nat
        /\ Editor.isSaving (fst (Editor.handleSave o e)) = false)
  /\ is_number (u_workItemId (Editor.updateArgs e)) = true
  /\ (forall success id, In (CloseEditor success id) effs ->
        success = true
        /\ id = u_workItemId (Editor.updateArgs e)
        /\ exists res, o = Resolved (Some res) /\ r_success res = true).
Proof.
  cbv zeta. unfold Editor.handleSave.
  destruct (truthy (configName (Editor.props e))) eqn:Hc;
    destruct (truthy (workItemId (Editor.props e))) eqn:Hw; simpl;
    (split; [|split; [|split]]);
    try (intros _; reflexivity); try discriminate;
    try apply toInt_number;
    try (intros success id [H | []]; discriminate).
  - intros _. destruct o as [[res|]|err]; [destruct (r_success res)| |];
      eexists; (split; [reflexivity|]); split; reflexivity.
  - intros success id.
    destruct o as [[res|]|err]; [destruct (r_success res) eqn:Hs| |]; simpl.
    + intros [H | [H | [H | []]]]; try discriminate.
      injection H as <- <-. split; [reflexivity|]. split; [reflexivity|].
      exists res. split; [reflexivity | exact Hs].
    + intros [H | [H | []]]; discriminate.
    + intros [H | [H | []]]; discriminate.
    + intros [H | [H | []]]; discriminate.
Qed.

Lemma editor_saves_when_identified_witness :
  let p := mkProps (JStr "7") (JStr "Task") (JStr "Fix login bug") (JStr "")
             (JStr "To Do") (JStr "2") (JStr "standard")
             (JStr "Fix login bug") (JStr "") (JStr "To Do") (JStr "2") in
  let e := Editor.connectedCallback (Editor.initial p) in
  exists rest,
    snd (Editor.handleSave (Resolved None) e)
    = Apex (updateWorkItem (Editor.updateArgs e)) :: rest
    /\ count is_write rest = 0%nat
    /\ Editor.isSaving (fst (Editor.handleSave (Resolved None) e)) = false.
Proof.
  intros p e.
  apply (proj1 (proj2 (editor_saves_when_identified (Resolved None) e))).
  reflexivity.
Defined.

(* ------------------------------------------------------------------ *)
(** ** The manager's statistics and order *)

Lemma filter_length_disjoint {A : Type} (p q : A -> bool) (l : list A) :
  (forall x, p x = true -> q x = false) ->
  (List.length (filter p l) + List.length (filter q l) <= List.length l)%nat.
Proof.
  intros Hpq. induction l as [|x l IH]; simpl; [lia|].
  destruct (p x) eqn:Hp.
  - rewrite (Hpq x Hp). simpl. lia.
  - destruct (q x); simpl; lia.
Qed.

(** X12. [calculateStats] counts every fetched row in [total]; no row
    counts both as in progress and as completed, so the two counts
    together never exceed the total; nothing else of the manager
    changes. *)
Theorem stats_count_each_row_once (m : Manager.Manager) :
  let s := Manager.workItemStats (Manager.calculateStats m) in
  Manager.total s = List.length (Manager.workItems m)
  /\ (Manager.inProgress s + Manager.completed s <= Manager.total s)%nat
  /\ Manager.set_workItemStats (Manager.workItemStats m)
       (Manager.calculateStats m) = m.
Proof.
  cbv zeta. unfold Manager.calculateStats.
  cbn [Manager.workItemStats Manager.set_workItemStats Manager.total
       Manager.inProgress Manager.completed Manager.workItems].
  split; [reflexivity|]. split.
  - apply filter_length_disjoint. intros i.
    unfold Manager.oneOf.
    destruct (wi_state i) as [| | | | |s|inf]; cbn [existsb strict_eq];
      try discriminate.
    intros H. rewrite orb_false_r in H.
    apply orb_true_iff in H. destruct H as [H | H];
      [|apply orb_true_iff in H; destruct H as [H | H]];
      apply String.eqb_eq in H; subst s; reflexivity.
  - now destruct m.
Qed.

Lemma ltb_asym (x y : string) : String.ltb x y = true -> String.ltb y x = false.
Proof.
  unfold String.ltb. rewrite (String.compare_antisym x y).
  now destruct (String.compare y x).
Qed.

Lemma js_lt_asym (a b : JsVal) : js_lt a b = true -> js_lt b a = false.
Proof.
  assert (Hnum : forall n m : option Z,
             match n, m with Some n, Some m => n <? m | _, _ => false end = true ->
             match m, n with Some m, Some n => m <? n | _, _ => false end = false).
  { intros [n|] [m|]; try discriminate; try reflexivity.
    intros H. apply Z.ltb_lt in H. apply Z.ltb_ge. lia. }
  destruct a as [| | | | |x|i], b as [| | | | |y|j];
    try (apply ltb_asym);
    match goal with
    | |- js_lt ?u ?v = true -> _ => exact (Hnum (toNumber u) (toNumber v))
    end.
Qed.

Lemma compareRows_sortKey (k : string) (rev : Z) (l : list WorkItem)
  (a b : WorkItem) :
  sortable k l = true -> In a l -> In b l ->
  Manager.compareRows k rev a b
  = inr (if js_lt (sortKey k a) (sortKey k b) then -1 * rev
         else if js_lt (sortKey k b) (sortKey k a) then 1 * rev
         else 0).
Proof.
  unfold sortable. rewrite orb_true_iff, !forallb_forall.
  intros Hs Ha Hb. unfold Manager.compareRows, sortKey.
  destruct Hs as [Hs | Hs].
  - pose proof (Hs a Ha) as Hsa. pose proof (Hs b Hb) as Hsb.
    destruct (getField k a); try discriminate.
    destruct (getField k b); try discriminate. reflexivity.
  - pose proof (Hs a Ha) as Hsa. pose proof (Hs b Hb) as Hsb.
    destruct (getField k a); try discriminate;
      destruct (getField k b); try discriminate; reflexivity.
Qed.

(** *** The order of strings and of numbers *)

Lemma ascii_compare_refl (a : ascii) : Ascii.compare a a = Eq.
Proof. unfold Ascii.compare. apply N.compare_refl. Qed.

Lemma string_compare_refl (x : string) : String.compare x x = Eq.
Proof.
  induction x as [|a x IH]; simpl; [reflexivity|].
  now rewrite ascii_compare_refl.
Qed.

Lemma string_compare_trans (x y z : string) :
  String.compare x y = Lt -> String.compare y z = Lt ->
  String.compare x z = Lt.
Proof.
  revert y z. induction x as [|a x IH]; intros [|b y] [|c z]; simpl;
    try discriminate; try reflexivity.
  destruct (Ascii.compare a b) eqn:Eab; try discriminate;
    destruct (Ascii.compare b c) eqn:Ebc; try discriminate.
  - apply Ascii.compare_eq_iff in Eab, Ebc. subst b c.
    rewrite ascii_compare_refl. apply IH.
  - apply Ascii.compare_eq_iff in Eab. subst b. now rewrite Ebc.
  - apply Ascii.compare_eq_iff in Ebc. subst c. now rewrite Eab.
  - intros _ _. unfold Ascii.compare in *.
    rewrite N.compare_lt_iff in Eab, Ebc.
    assert (H : (N_of_ascii a ?= N_of_ascii c)%N = Lt)
      by (apply N.compare_lt_iff; lia).
    now rewrite H.
Qed.

Lemma ltb_compare (x y : string) :
  String.ltb x y = true <-> String.compare x y = Lt.
Proof.
  unfold String.ltb. destruct (String.compare x y);
    split; congruence.
Qed.

Lemma ltb_irrefl (x : string) : String.ltb x x = false.
Proof. unfold String.ltb. now rewrite string_compare_refl. Qed.

Lemma ltb_trans (x y z : string) :
  String.ltb x y = true -> String.ltb y z = true -> String.ltb x z = true.
Proof. rewrite !ltb_compare. apply string_compare_trans. Qed.

Lemma ltb_total (x y : string) :
  String.ltb x y = false -> String.ltb y x = false -> x = y.
Proof.
  unfold String.ltb. rewrite (String.compare_antisym y x).
  destruct (String.compare x y) eqn:E; try discriminate.
  intros _ _. now apply String.compare_eq_iff.
Qed.

Lemma ltb_negtrans (x y z : string) :
  String.ltb x y = false -> String.ltb y z = false -> String.ltb x z = false.
Proof.
  intros Hxy Hyz. destruct (String.ltb x z) eqn:Hxz; [|reflexivity].
  destruct (String.ltb y x) eqn:Hyx.
  - rewrite (ltb_trans y x z Hyx Hxz) in Hyz. discriminate.
  - pose proof (ltb_total x y Hxy Hyx). subst y. congruence.
Qed.

(** Three values that are all strings, or all numbers other than NaN. *)
Local Abbreviation alike a b c :=
  ((is_string a = true /\ is_string b = true /\ is_string c = true)
   \/ (isNumeric a = true /\ isNumeric b = true /\ isNumeric c = true)).

Lemma js_lt_numeric (a b : JsVal) :
  isNumeric a = true -> isNumeric b = true ->
  exists n m, toNumber a = Some n /\ toNumber b = Some m
              /\ js_lt a b = (n <? m).
Proof.
  destruct a as [| | |x| | |i]; try discriminate;
    destruct b as [| | |y| | |j]; try discriminate;
    intros _ _; eexists; eexists; repeat split.
Qed.

Lemma js_lt_irrefl (a : JsVal) : js_lt a a = false.
Proof.
  destruct (js_lt a a) eqn:E; [|reflexivity].
  pose proof (js_lt_asym a a E). congruence.
Qed.

Lemma js_lt_trans (a b c : JsVal) :
  alike a b c ->
  js_lt a b = true -> js_lt b c = true -> js_lt a c = true.
Proof.
  intros [(Ha & Hb & Hc) | (Ha & Hb & Hc)].
  - destruct a, b, c; try discriminate. apply ltb_trans.
  - destruct (js_lt_numeric a b Ha Hb) as (n & m & Hn & Hm & ->).
    destruct (js_lt_numeric b c Hb Hc) as (m' & p & Hm' & Hp & ->).
    destruct (js_lt_numeric a c Ha Hc) as (n' & p' & Hn' & Hp' & ->).
    rewrite Hn in Hn'. rewrite Hm in Hm'. rewrite Hp in Hp'.
    injection Hn' as <-. injection Hm' as <-. injection Hp' as <-.
    rewrite !Z.ltb_lt. lia.
Qed.

Lemma js_lt_negtrans (a b c : JsVal) :
  alike a b c ->
  js_lt a b = false -> js_lt b c = false -> js_lt a c = false.
Proof.
  intros [(Ha & Hb & Hc) | (Ha & Hb & Hc)].
  - destruct a, b, c; try discriminate. apply ltb_negtrans.
  - destruct (js_lt_numeric a b Ha Hb) as (n & m & Hn & Hm & ->).
    destruct (js_lt_numeric b c Hb Hc) as (m' & p & Hm' & Hp & ->).
    destruct (js_lt_numeric a c Ha Hc) as (n' & p' & Hn' & Hp' & ->).
    rewrite Hn in Hn'. rewrite Hm in Hm'. rewrite Hp in Hp'.
    injection Hn' as <-. injection Hm' as <-. injection Hp' as <-.
    rewrite !Z.ltb_ge. lia.
Qed.

Lemma comparable_sortable (k : string) (l : list WorkItem) :
  comparable k l = true -> sortable k l = true.
Proof.
  unfold comparable, sortable. rewrite !orb_true_iff, !forallb_forall.
  intros [H | H]; [now left | right].
  intros x Hx. specialize (H x Hx). now destruct (getField k x).
Qed.

Lemma comparable_filter (k : string) (q : WorkItem -> bool)
  (l : list WorkItem) :
  comparable k l = true -> comparable k (filter q l) = true.
Proof.
  unfold comparable. rewrite !orb_true_iff.
  intros [H | H]; [left | right]; now apply forallb_filter.
Qed.

Lemma comparable_keys (k : string) (l : list WorkItem) (a b c : WorkItem) :
  comparable k l = true -> In a l -> In b l -> In c l ->
  alike (sortKey k a) (sortKey k b) (sortKey k c).
Proof.
  unfold comparable, sortKey. rewrite orb_true_iff, !forallb_forall.
  intros [H | H] Ha Hb Hc; [left | right];
    pose proof (H a Ha); pose proof (H b Hb); pose proof (H c Hc);
    destruct (getField k a); try discriminate;
    destruct (getField k b); try discriminate;
    destruct (getField k c); try discriminate; repeat split.
Qed.

(** *** The comparator and the display order *)

Lemma displayOrder_before (m : Manager.Manager) (a b : WorkItem) :
  displayOrder m a b <-> before m b a = false.
Proof.
  unfold displayOrder, before, ascending, descending.
  destruct (Manager.sortedDirection m =? "desc")%string; reflexivity.
Qed.

Lemma compareRows_before (m : Manager.Manager) (l : list WorkItem)
  (a b : WorkItem) :
  sortable (Manager.sortedBy m) l = true -> In a l -> In b l ->
  exists n,
    Manager.compareRows (Manager.sortedBy m)
      (if (Manager.sortedDirection m =? "desc")%string then -1 else 1) a b
    = inr n
    /\ (n <? 0) = before m a b.
Proof.
  intros Hs Ha Hb. rewrite (compareRows_sortKey _ _ l a b Hs Ha Hb).
  eexists. split; [reflexivity|]. unfold before.
  destruct (Manager.sortedDirection m =? "desc")%string;
    destruct (js_lt (sortKey (Manager.sortedBy m) a)
                    (sortKey (Manager.sortedBy m) b)) eqn:Hab;
    destruct (js_lt (sortKey (Manager.sortedBy m) b)
                    (sortKey (Manager.sortedBy m) a)) eqn:Hba;
    try (apply js_lt_asym in Hab; congruence); reflexivity.
Qed.

Lemma before_irrefl (m : Manager.Manager) (x : WorkItem) :
  before m x x = false.
Proof.
  unfold before.
  destruct (Manager.sortedDirection m =? "desc")%string; apply js_lt_irrefl.
Qed.

Lemma before_trans (m : Manager.Manager) (l : list WorkItem)
  (x y z : WorkItem) :
  comparable (Manager.sortedBy m) l = true -> In x l -> In y l -> In z l ->
  before m x y = true -> before m y z = true -> before m x z = true.
Proof.
  intros Hc Hx Hy Hz. unfold before.
  destruct (Manager.sortedDirection m =? "desc")%string.
  - intros Hxy Hyz.
    apply (js_lt_trans _ _ _ (comparable_keys _ l z y x Hc Hz Hy Hx) Hyz Hxy).
  - apply js_lt_trans. now apply (comparable_keys _ l).
Qed.

Lemma before_negtrans (m : Manager.Manager) (l : list WorkItem)
  (x y z : WorkItem) :
  comparable (Manager.sortedBy m) l = true -> In x l -> In y l -> In z l ->
  before m x y = false -> before m y z = false -> before m x z = false.
Proof.
  intros Hc Hx Hy Hz. unfold before.
  destruct (Manager.sortedDirection m =? "desc")%string.
  - intros Hxy Hyz.
    apply (js_lt_negtrans _ _ _ (comparable_keys _ l z y x Hc Hz Hy Hx)
             Hyz Hxy).
  - apply js_lt_negtrans. now apply (comparable_keys _ l).
Qed.

Lemma StronglySorted_ext {A : Type} (R R' : A -> A -> Prop) (l : list A) :
  (forall a b, R a b -> R' a b) ->
  StronglySorted R l -> StronglySorted R' l.
Proof.
  intros H. induction 1 as [|a l Hs IH Hf]; constructor; [exact IH|].
  apply (Forall_impl _ (H a)). exact Hf.
Qed.

Lemma filter_none {A : Type} (p : A -> bool) (l : list A) :
  (forall x, In x l -> p x = false) -> filter p l = [].
Proof.
  induction l as [|x l IH]; intros H; simpl; [reflexivity|].
  rewrite (H x (or_introl eq_refl)). apply IH.
  intros y Hy. apply H. now right.
Qed.

(** *** Sorting by insertion is stable, and a stable sorting is unique *)

Section StableInsertion.

Variable cmp : WorkItem -> WorkItem -> Throws Z.
Variable lt : WorkItem -> WorkItem -> bool.
Variable dom : WorkItem -> Prop.

Hypothesis cmp_lt :
  forall x y, dom x -> dom y -> exists n, cmp x y = inr n /\ (n <? 0) = lt x y.
Hypothesis lt_irrefl : forall x, dom x -> lt x x = false.
Hypothesis lt_trans :
  forall x y z, dom x -> dom y -> dom z ->
                lt x y = true -> lt y z = true -> lt x z = true.
Hypothesis lt_negtrans :
  forall x y z, dom x -> dom y -> dom z ->
                lt x y = false -> lt y z = false -> lt x z = false.

Local Abbreviation le := (notAfter lt).
Local Abbreviation eqv := (equalUnder lt).

Lemma eqv_refl (x : WorkItem) : dom x -> eqv x x = true.
Proof. intros Hx. unfold equalUnder. now rewrite (lt_irrefl x Hx). Qed.

Lemma insertRow_stable (x : WorkItem) (l : list WorkItem) :
  dom x -> Forall dom l -> StronglySorted le l ->
  exists l',
    Manager.insertRow cmp x l = inr l'
    /\ Permutation (x :: l) l'
    /\ StronglySorted le l'
    /\ forall c, dom c ->
         filter (eqv c) l' = filter (eqv c) l ++ (if eqv c x then [x] else []).
Proof.
  intros Hx. induction l as [|y r IH]; intros Hdom Hsorted.
  - exists [x]. split; [reflexivity|]. split; [apply Permutation_refl|].
    split; [repeat constructor|]. intros c _. simpl.
    now destruct (negb (lt c x) && negb (lt x c)).
  - inversion Hdom as [|? ? Hy Hr]; subst.
    inversion Hsorted as [|? ? Hsr Hle]; subst.
    cbn [Manager.insertRow].
    destruct (cmp_lt x y Hx Hy) as (n & Hn & Hlt). rewrite Hn.
    cbn [bindT]. rewrite Hlt. destruct (lt x y) eqn:Hxy.
    + assert (Hall : forall z, In z (y :: r) -> lt x z = true).
      { intros z [<- | Hz]; [exact Hxy|].
        assert (Hdz : dom z) by (rewrite Forall_forall in Hr; now apply Hr).
        rewrite Forall_forall in Hle. specialize (Hle z Hz).
        unfold notAfter in Hle.
        destruct (lt x z) eqn:Hxz; [reflexivity|].
        rewrite (lt_negtrans x z y Hx Hdz Hy Hxz Hle) in Hxy. discriminate. }
      exists (x :: y :: r). split; [reflexivity|].
      split; [apply Permutation_refl|]. split.
      * constructor; [exact Hsorted|].
        apply Forall_forall. intros z Hz. unfold notAfter.
        assert (Hdz : dom z)
          by (rewrite Forall_forall in Hdom; now apply Hdom).
        destruct (lt z x) eqn:Hzx; [|reflexivity].
        pose proof (lt_trans x z x Hx Hdz Hx (Hall z Hz) Hzx) as Hbad.
        rewrite (lt_irrefl x Hx) in Hbad. discriminate.
      * intros c Hc.
        change (filter (eqv c) (x :: y :: r))
          with (if eqv c x then x :: filter (eqv c) (y :: r)
                else filter (eqv c) (y :: r)).
        destruct (eqv c x) eqn:Hcx; [|now rewrite app_nil_r].
        assert (Hnone : filter (eqv c) (y :: r) = []).
        { apply filter_none. intros z Hz.
          assert (Hdz : dom z)
            by (rewrite Forall_forall in Hdom; now apply Hdom).
          unfold equalUnder in Hcx |- *.
          apply andb_true_iff in Hcx. destruct Hcx as [Hcx1 Hcx2].
          apply negb_true_iff in Hcx1, Hcx2.
          destruct (lt c z) eqn:Hcz; [reflexivity|].
          pose proof (lt_negtrans x c z Hx Hc Hdz Hcx2 Hcz) as Hbad.
          rewrite (Hall z Hz) in Hbad. discriminate. }
        rewrite Hnone. reflexivity.
    + destruct (IH Hr Hsr) as (r' & Hi & Hp & Hs' & Hf).
      rewrite Hi. cbn [bindT]. exists (y :: r'). split; [reflexivity|].
      split.
      { eapply Permutation_trans; [apply perm_swap|]. now apply perm_skip. }
      split.
      * constructor; [exact Hs'|].
        apply Forall_forall. intros z Hz.
        apply (Permutation_in _ (Permutation_sym Hp)) in Hz.
        destruct Hz as [<- | Hz]; [exact Hxy|].
        rewrite Forall_forall in Hle. now apply Hle.
      * intros c Hc.
        change (filter (eqv c) (y :: r'))
          with (if eqv c y then y :: filter (eqv c) r'
                else filter (eqv c) r').
        change (filter (eqv c) (y :: r))
          with (if eqv c y then y :: filter (eqv c) r
                else filter (eqv c) r).
        rewrite (Hf c Hc). now destruct (eqv c y).
Qed.

Lemma sortRows_stable (todo done : list WorkItem) :
  Forall dom done -> Forall dom todo -> StronglySorted le done ->
  exists l',
    Manager.sortRows cmp done todo = inr l'
    /\ Permutation (done ++ todo) l'
    /\ StronglySorted le l'
    /\ forall c, dom c -> filter (eqv c) l' = filter (eqv c) (done ++ todo).
Proof.
  revert done. induction todo as [|x r IH]; intros done Hdone Htodo Hsorted.
  - exists done. split; [reflexivity|]. rewrite app_nil_r.
    split; [apply Permutation_refl|]. split; [exact Hsorted|]. reflexivity.
  - inversion Htodo as [|? ? Hx Hr]; subst.
    destruct (insertRow_stable x done Hx Hdone Hsorted)
      as (done' & Hi & Hp & Hs & Hf).
    cbn [Manager.sortRows]. rewrite Hi. cbn [bindT].
    assert (Hdone' : Forall dom done').
    { apply Forall_forall. intros z Hz.
      apply (Permutation_in _ (Permutation_sym Hp)) in Hz.
      destruct Hz as [<- | Hz]; [exact Hx|].
      rewrite Forall_forall in Hdone. now apply Hdone. }
    destruct (IH done' Hdone' Hr Hs) as (l' & Hl & Hq & Hs' & Hf').
    exists l'. split; [exact Hl|]. split.
    { eapply Permutation_trans; [|exact Hq].
      eapply Permutation_trans; [apply Permutation_sym, Permutation_middle|].
      change (x :: done ++ r) with ((x :: done) ++ r).
      now apply Permutation_app_tail. }
    split; [exact Hs'|].
    intros c Hc. rewrite (Hf' c Hc), !filter_app, (Hf c Hc).
    change (filter (eqv c) (x :: r))
      with (if eqv c x then x :: filter (eqv c) r else filter (eqv c) r).
    rewrite <- app_assoc. now destruct (eqv c x).
Qed.

Lemma stable_unique (l1 l2 : list WorkItem) :
  Forall dom l1 -> Forall dom l2 ->
  StronglySorted le l1 -> StronglySorted le l2 ->
  (forall c, dom c -> filter (eqv c) l1 = filter (eqv c) l2) ->
  l1 = l2.
Proof.
  revert l2. induction l1 as [|a r1 IH]; intros l2 Hd1 Hd2 Hs1 Hs2 Hf.
  - destruct l2 as [|b r2]; [reflexivity|].
    inversion Hd2 as [|? ? Hb _]; subst.
    specialize (Hf b Hb). cbn [filter] in Hf.
    rewrite (eqv_refl b Hb) in Hf. discriminate.
  - inversion Hd1 as [|? ? Ha Hr1]; subst.
    destruct l2 as [|b r2].
    { specialize (Hf a Ha). cbn [filter] in Hf.
      rewrite (eqv_refl a Ha) in Hf. discriminate. }
    inversion Hd2 as [|? ? Hb Hr2]; subst.
    inversion Hs1 as [|? ? Hsr1 Hle1]; subst.
    inversion Hs2 as [|? ? Hsr2 Hle2]; subst.
    assert (Hab : a = b).
    { pose proof (Hf a Ha) as Hfa. pose proof (Hf b Hb) as Hfb.
      cbn [filter] in Hfa, Hfb.
      rewrite (eqv_refl a Ha) in Hfa. rewrite (eqv_refl b Hb) in Hfb.
      assert (Hina : In a (b :: r2)).
      { destruct (eqv a b); [injection Hfa as ->; now left|].
        right. apply (proj1 (filter_In (eqv a) a r2)).
        rewrite <- Hfa. now left. }
      assert (Hinb : In b (a :: r1)).
      { destruct (eqv b a); [injection Hfb as ->; now left|].
        right. apply (proj1 (filter_In (eqv b) b r1)).
        rewrite Hfb. now left. }
      destruct Hina as [E | Hina]; [now symmetry|].
      destruct Hinb as [E | Hinb]; [exact E|].
      rewrite Forall_forall in Hle1, Hle2.
      pose proof (Hle2 a Hina) as H1. pose proof (Hle1 b Hinb) as H2.
      unfold notAfter in H1, H2.
      assert (Htie : eqv a b = true)
        by (unfold equalUnder; now rewrite H1, H2).
      rewrite Htie in Hfa. now injection Hfa. }
    subst b. f_equal. apply IH; try assumption.
    intros c Hc. specialize (Hf c Hc). cbn [filter] in Hf.
    destruct (eqv c a); [now injection Hf | exact Hf].
Qed.

End StableInsertion.

(** [sortData] on a column it can order: the one stable sorting. *)
Lemma sortData_stable (m : Manager.Manager) (d : list WorkItem) :
  comparable (Manager.sortedBy m) d = true ->
  exists d',
    Manager.sortData m d = inr d'
    /\ stableSorting m d d'
    /\ forall l, stableSorting m d l -> l = d'.
Proof.
  intros Hc.
  pose proof (comparable_sortable _ _ Hc) as Hsort.
  set (dom := fun x : WorkItem => In x d).
  assert (Hcmp : forall x y, dom x -> dom y ->
            exists n,
              Manager.compareRows (Manager.sortedBy m)
                (if (Manager.sortedDirection m =? "desc")%string
                 then -1 else 1) x y = inr n
              /\ (n <? 0) = before m x y).
  { intros x y Hx Hy. now apply (compareRows_before m d). }
  assert (Hirr : forall x, dom x -> before m x x = false)
    by (intros x _; apply before_irrefl).
  assert (Htr : forall x y z, dom x -> dom y -> dom z ->
            before m x y = true -> before m y z = true ->
            before m x z = true)
    by (intros x y z; now apply (before_trans m d)).
  assert (Hneg : forall x y z, dom x -> dom y -> dom z ->
            before m x y = false -> before m y z = false ->
            before m x z = false)
    by (intros x y z; now apply (before_negtrans m d)).
  assert (Hall : Forall dom d) by (apply Forall_forall; auto).
  destruct (sortRows_stable _ (before m) dom Hcmp Hirr Htr Hneg d []
              (Forall_nil _) Hall (SSorted_nil _))
    as (d' & Hd & Hp & Hs & Hf).
  simpl in Hp, Hf.
  exists d'. split; [exact Hd|].
  assert (Hstable : stableSorting m d d').
  { split; [exact Hp|]. split.
    - apply (StronglySorted_ext _ _ _
               (fun a b => proj2 (displayOrder_before m a b)) Hs).
    - intros x Hx. now apply Hf. }
  split; [exact Hstable|].
  intros l (Hpl & Hsl & Hfl).
  apply (stable_unique (before m) dom Hirr l d').
  - apply Forall_forall. intros z Hz.
    apply (Permutation_in _ (Permutation_sym Hpl) Hz).
  - apply Forall_forall. intros z Hz.
    apply (Permutation_in _ (Permutation_sym Hp) Hz).
  - apply (StronglySorted_ext _ _ _
             (fun a b => proj1 (displayOrder_before m a b)) Hsl).
  - exact Hs.
  - intros c Hc'. transitivity (filter (tied m c) d);
      [exact (Hfl c Hc') | symmetry; exact (Hf c Hc')].
Qed.

(** X13. When the sort column holds strings in every row, or numbers
    other than NaN in every row, [sortData] returns the rows it was given,
    each as often as before, every row in display order with all the rows
    after it (ascending by the column, strings compared without regard
    to case, or descending when the direction is "desc"), and the rows
    the comparator takes for equal in the order they came in.  There is
    one such list: it is what any stable sort returns. *)
Theorem sortData_orders_the_rows (m : Manager.Manager) (d : list WorkItem) :
  comparable (Manager.sortedBy m) d = true ->
  exists d',
    Manager.sortData m d = inr d'
    /\ stableSorting m d d'
    /\ forall l, stableSorting m d l -> l = d'.
Proof. apply sortData_stable. Qed.

Lemma sortData_orders_the_rows_witness :
  let a := mkWorkItem (JNum 1) (JStr "alpha") (JStr "Task") (JStr "To Do")
             JUndefined JUndefined JUndefined JUndefined JUndefined (JStr "1") in
  let b := mkWorkItem (JNum 2) (JStr "Beta") (JStr "Bug") (JStr "Done")
             JUndefined JUndefined JUndefined JUndefined JUndefined (JStr "2") in
  let m := Manager.mkManager (JNum 10) [a; b] [] false None "standard" "" ""
             None "title" "desc" (Manager.mkStats 0 0 0) [] false in
  exists d',
    Manager.sortData m [a; b] = inr d'
    /\ stableSorting m [a; b] d'
    /\ forall l, stableSorting m [a; b] l -> l = d'.
Proof.
  intros a b m. apply (sortData_orders_the_rows m [a; b]). reflexivity.
Defined.

(* ------------------------------------------------------------------ *)
(** ** Searching the fetched rows *)

Lemma applyFilters_displays_the_matches_aux (m : Manager.Manager) :
  readable m = true ->
  comparable (Manager.sortedBy m) (Manager.workItems m) = true ->
  let matches := filter (fun i => searched m i && passes m i)
                        (Manager.workItems m) in
  exists shown,
    Manager.applyFilters m = inr (Manager.set_filteredWorkItems shown m)
    /\ stableSorting m matches shown
    /\ (forall l, stableSorting m matches l -> l = shown)
    /\ forall i, In i shown <->
                 In i (Manager.workItems m)
                 /\ searched m i = true /\ passes m i = true.
Proof.
  intros Hread Hc matches. rewrite (applyFilters_sorts m Hread).
  destruct (sortData_stable m matches) as (shown & Hs & Hst & Huniq).
  { now apply comparable_filter. }
  fold matches. rewrite Hs. cbn [bindT]. exists shown.
  split; [reflexivity|]. split; [exact Hst|]. split; [exact Huniq|].
  destruct Hst as (Hp & _ & _).
  intros i. split.
  - intros Hi. apply (Permutation_in _ (Permutation_sym Hp)) in Hi.
    apply filter_In in Hi. destruct Hi as [Hi Hb].
    apply andb_true_iff in Hb. tauto.
  - intros (Hi & Hs1 & Hs2). apply (Permutation_in _ Hp).
    apply filter_In. split; [exact Hi|]. now rewrite Hs1, Hs2.
Qed.

(** X14. When the search can read every fetched row, and the sort column
    holds strings in every fetched row or numbers other than NaN in every
    fetched row, [applyFilters] ends and displays the stable sorting of
    the matches: the fetched rows in which the search term (if any)
    occurs, in the lower-cased title, the id or the lower-cased assignee,
    and which pass the type and state filters; each as often as it was
    fetched, in the display order, rows the comparator takes for equal in
    the order they were fetched.  No other list is a stable sorting of
    the matches. *)
Theorem applyFilters_displays_the_matches (m : Manager.Manager) :
  readable m = true ->
  comparable (Manager.sortedBy m) (Manager.workItems m) = true ->
  let matches := filter (fun i => searched m i && passes m i)
                        (Manager.workItems m) in
  exists shown,
    Manager.applyFilters m = inr (Manager.set_filteredWorkItems shown m)
    /\ stableSorting m matches shown
    /\ (forall l, stableSorting m matches l -> l = shown)
    /\ forall i, In i shown <->
                 In i (Manager.workItems m)
                 /\ searched m i = true /\ passes m i = true.
Proof. apply applyFilters_displays_the_matches_aux. Qed.

Lemma applyFilters_displays_the_matches_witness :
  let a := mkWorkItem (JNum 1) (JStr "Fix Login bug") (JStr "Task")
             (JStr "To Do") JUndefined JUndefined JUndefined JUndefined
             JUndefined (JStr "1") in
  let b := mkWorkItem (JNum 2) (JStr "Write docs") (JStr "Task") (JStr "Done")
             (JStr "Ada") JUndefined JUndefined JUndefined JUndefined
             (JStr "2") in
  let m := Manager.mkManager (JNum 10) [a; b] [] false None "standard" "Task"
             "" (Some "LOGIN") "title" "asc" (Manager.mkStats 0 0 0) []
             false in
  exists shown,
    Manager.applyFilters m = inr (Manager.set_filteredWorkItems shown m)
    /\ stableSorting m [a] shown
    /\ (forall l, stableSorting m [a] l -> l = shown)
    /\ forall i, In i shown <->
                 In i [a; b] /\ searched m i = true /\ passes m i = true.
Proof.
  intros a b m.
  apply (applyFilters_displays_the_matches m); reflexivity.
Defined.

(** X15. While a search term is set, one fetched row whose title is truthy
    and not a string makes [applyFilters] throw a TypeError.  When that
    happens inside [loadWorkItems], the manager keeps the new rows as
    [workItems] but leaves the displayed rows and the statistics as they
    were, records the error, shows it, and ends with [isLoading] false. *)
Theorem search_throws_on_unreadable_title (m : Manager.Manager) (s : string)
  (i : WorkItem) :
  Manager.activeSearch m = Some s ->
  textual (wi_title i) = false ->
  (In i (Manager.workItems m) -> Manager.applyFilters m = inl typeError)
  /\ (forall res items,
        Manager.selectedConfig m <> "" ->
        qr_success res = true ->
        qr_workItems res = Some items ->
        In i items ->
        let r := Manager.loadWorkItems (Resolved (Some res)) m in
        Manager.workItems (fst r) = map withId items
        /\ Manager.filteredWorkItems (fst r) = Manager.filteredWorkItems m
        /\ Manager.workItemStats (fst r) = Manager.workItemStats m
        /\ Manager.error (fst r) = Some (ErrObject typeError)
        /\ Manager.isLoading (fst r) = false
        /\ exists t,
             snd r = [Apex (getWorkItems (Manager.queryArgs m)); ShowToast t]
             /\ toast_title t = "Failed to load work items"
             /\ toast_variant t = VError).
Proof.
  intros Hsearch Htitle.
  assert (Hthrow : forall m' j, Manager.activeSearch m' = Some s ->
                                textual (wi_title j) = false ->
                                In j (Manager.workItems m') ->
                                Manager.applyFilters m' = inl typeError).
  { intros m' j Hs Hj Hin. unfold Manager.applyFilters. rewrite Hs.
    rewrite (filterT_throws (Manager.matchesSearch s) typeError
               (Manager.workItems m') j); [reflexivity | | exact Hin |].
    - intros y e. apply matchesSearch_error.
    - unfold Manager.matchesSearch.
      now rewrite (lowerOf_not_textual _ Hj). }
  split; [now apply (Hthrow m i)|].
  intros res items Hc Hok Hitems Hin r. unfold r, Manager.loadWorkItems.
  apply String.eqb_neq in Hc. rewrite Hc, Hok, Hitems.
  rewrite (Hthrow (Manager.set_workItems (map withId items)
                     (Manager.set_isLoading true m)) (withId i)).
  - simpl. do 5 (split; [reflexivity|]).
    eexists. split; [reflexivity|]. split; reflexivity.
  - exact Hsearch.
  - exact Htitle.
  - simpl. now apply in_map.
Qed.

Lemma search_throws_on_unreadable_title_witness :
  let i := mkWorkItem (JNum 1) (JNum 404) (JStr "Task") (JStr "To Do")
             JUndefined JUndefined JUndefined JUndefined JUndefined
             (JStr "1") in
  let m := Manager.mkManager (JNum 10) [i] [] false None "standard" "" ""
             (Some "bug") "title" "asc" (Manager.mkStats 0 0 0) [] false in
  Manager.applyFilters m = inl typeError.
Proof.
  intros i m.
  apply (proj1 (search_throws_on_unreadable_title m "bug" i
                  eq_refl eq_refl)).
  simpl. left. reflexivity.
Defined.

(* ------------------------------------------------------------------ *)
(** ** Loading and row actions *)

(** X16. [loadWorkItems] does nothing without a selected config.  With
    one, it issues the query and ends with [isLoading] false whatever the
    outcome; and on a null response, a response without success or a
    rejected call it keeps the fetched rows, the displayed rows and the
    statistics as they were and shows one error toast.  Its [error]
    field then holds what went wrong: the error of a rejected call, the
    message of a response without success, and null, as at first, for a
    null response. *)
Theorem failed_load_keeps_the_rows (o : Outcome (option QueryResponse))
  (m : Manager.Manager) :
  (Manager.selectedConfig m = "" -> Manager.loadWorkItems o m = (m, []))
  /\ (Manager.selectedConfig m <> "" ->
      let r := Manager.loadWorkItems o m in
      Manager.isLoading (fst r) = false
      /\ (exists rest,
            snd r = Apex (getWorkItems (Manager.queryArgs m)) :: rest
            /\ count is_write rest = 0%nat)
      /\ ((forall res, o = Resolved (Some res) -> qr_success res = false) ->
          Manager.workItems (fst r) = Manager.workItems m
          /\ Manager.filteredWorkItems (fst r) = Manager.filteredWorkItems m
          /\ Manager.workItemStats (fst r) = Manager.workItemStats m
          /\ (o = Resolved None -> Manager.error (fst r) = None)
          /\ (forall e, o = Rejected e ->
                Manager.error (fst r) = Some (ErrObject e))
          /\ (forall res, o = Resolved (Some res) ->
                qr_message res <> JNull ->
                Manager.error (fst r) = Some (ErrValue (qr_message res)))
          /\ exists t,
               snd r = [Apex (getWorkItems (Manager.queryArgs m)); ShowToast t]
               /\ toast_variant t = VError)).
Proof.
  split.
  - intros Hc. unfold Manager.loadWorkItems. now rewrite Hc.
  - intros Hc. cbv zeta. unfold Manager.loadWorkItems.
    apply String.eqb_neq in Hc. rewrite Hc.
    destruct o as [[res|]|e].
    + destruct (qr_success res) eqn:Hok.
      * destruct (Manager.applyFilters _) as [err|m3]; simpl;
          (split; [reflexivity|]);
          (split; [eexists; split; reflexivity|]);
          intros Hfail; specialize (Hfail res eq_refl); congruence.
      * simpl. split; [reflexivity|].
        split; [eexists; split; reflexivity|]. intros _.
        do 3 (split; [reflexivity|]). split; [discriminate|].
        split; [discriminate|]. split.
        -- intros res' Hres Hmsg. injection Hres as <-.
           destruct (qr_message res); try reflexivity. congruence.
        -- eexists. split; reflexivity.
    + simpl. split; [reflexivity|].
      split; [eexists; split; reflexivity|]. intros _.
      do 3 (split; [reflexivity|]). split; [reflexivity|].
      split; [discriminate|]. split; [discriminate|].
      eexists. split; reflexivity.
    + simpl. split; [reflexivity|].
      split; [eexists; split; reflexivity|]. intros _.
      do 3 (split; [reflexivity|]). split; [discriminate|].
      split; [intros e' He; now injection He as <-|].
      split; [discriminate|].
      eexists. split; reflexivity.
Qed.

Lemma failed_load_keeps_the_rows_witness :
  let row := mkWorkItem (JNum 7) (JStr "Fix login bug") (JStr "Task")
               (JStr "To Do") JUndefined JUndefined (JNum 2) JUndefined
               JUndefined (JStr "7") in
  let m := Manager.mkManager (JNum 10) [row] [row] false None "standard" "" ""
             (Some "") "title" "asc" (Manager.mkStats 1 0 0) [] true in
  let r := Manager.loadWorkItems (Resolved None) m in
  Manager.workItems (fst r) = [row]
  /\ Manager.filteredWorkItems (fst r) = [row]
  /\ Manager.workItemStats (fst r) = Manager.mkStats 1 0 0
  /\ Manager.error (fst r) = None
  /\ exists t,
       snd r = [Apex (getWorkItems (Manager.queryArgs m)); ShowToast t]
       /\ toast_variant t = VError.
Proof.
  intros row m r.
  destruct (proj2 (failed_load_keeps_the_rows (Resolved None) m))
    as (_ & _ & Hfail); [discriminate|].
  destruct Hfail as (Hw & Hf & Hs & Hnull & _ & _ & Ht);
    [intros res H; discriminate|].
  split; [exact Hw|]. split; [exact Hf|]. split; [exact Hs|].
  split; [now apply Hnull | exact Ht].
Defined.

(** X17. A row action of the manager makes at most one write call, and
    makes one only for the action "delete" on a row, after the
    confirmation modal resolved with [confirmed] true; "open_azure",
    "edit" and any unknown action call no write method. *)
Theorem row_action_writes_only_on_delete (a : JsVal) (r : option WorkItem)
  (editorResult : option bool) (modalResult : option ModalResult)
  (o : Outcome (option ApexResponse))
  (reload : Outcome (option QueryResponse)) (m : Manager.Manager) :
  let effs := snd (Manager.handleRowAction a r editorResult modalResult o
                     reload m) in
  (count is_write effs <= 1)%nat
  /\ (count is_write effs = 1%nat ->
      a = JStr "delete" /\ r <> None
      /\ exists x, modalResult = Some x /\ confirmed x = true).
Proof.
  cbv zeta. unfold Manager.handleRowAction.
  destruct r as [row|]; [|split; [unfold count; simpl; lia | discriminate]].
  destruct (negb (truthy a));
    [split; [unfold count; simpl; lia | discriminate]|].
  destruct (strict_eq a (JStr "open_azure")).
  { destruct (truthy (wi_url row));
      (split; [unfold count; simpl; lia | discriminate]). }
  destruct (strict_eq a (JStr "edit")).
  { unfold Manager.handleEditAction.
    pose proof (manager_load_no_write reload m) as Hl.
    destruct editorResult as [[|]|];
      try (split; [unfold count; simpl; lia | discriminate]).
    destruct (Manager.loadWorkItems reload m) as [m' effs]. simpl in *.
    change (count is_write (OpenEditor _ :: showSuccessToast _ _ :: effs))
      with (count is_write effs).
    rewrite Hl. split; [lia | discriminate]. }
  destruct (strict_eq a (JStr "delete")) eqn:Ha.
  - apply strict_eq_true in Ha.
    destruct (manager_delete_effects row modalResult o reload m)
      as [(x & rest & Hmr & Hc & Hrest & ->) | ->].
    + change (count is_write (OpenUniversalModal Manager.deleteOptions
                              :: Apex (deleteWorkItemWithReason _) :: rest))
        with (S (count is_write rest)).
      rewrite Hrest. split; [lia|]. intros _.
      split; [exact Ha|]. split; [discriminate|]. now exists x.
    + split; [unfold count; simpl; lia | discriminate].
  - split; [unfold count; simpl; lia | discriminate].
Qed.

Lemma row_action_writes_only_on_delete_witness :
  let row := mkWorkItem (JNum 7) (JStr "Fix login bug") (JStr "Task")
               (JStr "To Do") JUndefined JUndefined (JNum 2) JUndefined
               JUndefined (JStr "7") in
  let answer := mkModalResult true (Some "") "confirm" None in
  JStr "delete" = JStr "delete" /\ Some row <> None
  /\ exists x, Some answer = Some x /\ confirmed x = true.
Proof.
  intros row answer.
  apply (proj2 (row_action_writes_only_on_delete (JStr "delete") (Some row)
                  None (Some answer) (Resolved None) (Resolved None)
                  Manager.initial)).
  reflexivity.
Defined.

(** X18. The work item list does nothing without a config name.  Loading
    the same outcome a second time changes nothing: a response whose
    serialisation equals the last one kept leaves the rows alone.  After
    a successful load with a new serialisation every row carries its
    work item id, written as a string, as [id]: the decimal numeral of
    the id when the id is a safe integer. *)
Theorem list_load_is_idempotent (stringify : list WorkItem -> string)
  (o : Outcome (option QueryResponse)) (c : WorkItemList.WorkItemList) :
  (truthy (WorkItemList.configName c) = false ->
   WorkItemList.load stringify o c = (c, []))
  /\ fst (WorkItemList.load stringify o
            (fst (WorkItemList.load stringify o c)))
     = fst (WorkItemList.load stringify o c)
  /\ (forall res items,
        truthy (WorkItemList.configName c) = true ->
        o = Resolved (Some res) -> qr_success res = true ->
        qr_workItems res = Some items ->
        stringify items <> WorkItemList._lastWorkItemsSerialized c ->
        WorkItemList.workItems (fst (WorkItemList.load stringify o c))
        = map withId items
        /\ forall w,
             In w (WorkItemList.workItems
                     (fst (WorkItemList.load stringify o c))) ->
             wi_id w = JStr (toString (wi_workItemId w))
             /\ forall n, wi_workItemId w = JNum n ->
                          isSafeInteger n = true ->
                          wi_id w = JStr (string_of_Z n)).
Proof.
  split; [|split].
  - intros Hc. unfold WorkItemList.load. now rewrite Hc.
  - unfold WorkItemList.load.
    destruct (truthy (WorkItemList.configName c)) eqn:Hc; simpl;
      [|now rewrite Hc].
    destruct o as [[res|]|e]; simpl; try (now rewrite Hc).
    destruct (qr_success res); simpl; [|now rewrite Hc].
    destruct (_ =? _)%string eqn:E; simpl; rewrite Hc; simpl.
    + now rewrite E.
    + now rewrite String.eqb_refl.
  - intros res items Hc -> Hok Hitems Hnew. unfold WorkItemList.load.
    rewrite Hc, Hok, Hitems. simpl.
    apply String.eqb_neq in Hnew. rewrite Hnew. simpl.
    split; [reflexivity|]. intros w Hw. apply in_map_iff in Hw.
    destruct Hw as (x & <- & _). split; [reflexivity|].
    intros n Hn Hsafe. unfold withId in *. cbn [wi_id wi_workItemId] in *.
    now rewrite Hn, (toString_safe n Hsafe).
Qed.

Lemma list_load_is_idempotent_witness :
  let row := mkWorkItem (JNum 7) (JStr "Fix login bug") (JStr "Task")
               (JStr "To Do") JUndefined JUndefined (JNum 2) JUndefined
               JUndefined JUndefined in
  let c := WorkItemList.mkList (JStr "standard") (JNum 25) [] false "" in
  let o := Resolved (Some (mkQueryResponse true JUndefined (Some [row]))) in
  let stringify (l : list WorkItem) :=
    match l with [] => "[]" | _ :: _ => "[...]" end in
  WorkItemList.workItems (fst (WorkItemList.load stringify o c))
  = map withId [row]
  /\ forall w,
       In w (WorkItemList.workItems (fst (WorkItemList.load stringify o c))) ->
       wi_id w = JStr (toString (wi_workItemId w))
       /\ forall n, wi_workItemId w = JNum n ->
                    isSafeInteger n = true ->
                    wi_id w = JStr (string_of_Z n).
Proof.
  intros row c o stringify.
  apply (proj2 (proj2 (list_load_is_idempotent stringify o c))
           (mkQueryResponse true JUndefined (Some [row])) [row]);
    try reflexivity.
  discriminate.
Defined.

(* ------------------------------------------------------------------ *)
(** ** Deleting, from the modal to the call *)

(** X19. The confirmation modal the manager opens for a deletion never
    asks for a reason: whatever was typed, confirming closes it, and
    [handleDeleteAction] then calls [deleteWorkItemWithReason] with the
    selected config, the row's id and the typed reason, null when nothing
    was typed; a reason of white space only is sent as typed.  Cancelling
    the modal makes [handleDeleteAction] call no write method. *)
Theorem delete_flow_forwards_typed_reason (typed : string) (row : WorkItem)
  (o : Outcome (option ApexResponse))
  (reload : Outcome (option QueryResponse)) (m : Manager.Manager) :
  let modal := UniversalModal.handleReasonChange typed
                 (UniversalModal.open Manager.deleteOptions) in
  (exists answer,
      snd (UniversalModal.handleConfirm modal) = [CloseModal answer]
      /\ In (Apex (deleteWorkItemWithReason
                     (mkDeleteArgs (JStr (Manager.selectedConfig m))
                        (or_else (wi_workItemId row) (wi_id row))
                        (if (typed =? "")%string then JNull else JStr typed))))
            (snd (Manager.handleDeleteAction row (Some answer) o reload m)))
  /\ (exists answer,
        snd (UniversalModal.handleCancel modal) = [CloseModal answer]
        /\ count is_write
             (snd (Manager.handleDeleteAction row (Some answer) o reload m))
           = 0%nat).
Proof.
  cbv zeta. split.
  - eexists. split; [reflexivity|].
    destruct (manager_delete_effects row
                (Some (mkModalResult true (Some typed) "confirm" None))
                o reload m)
      as [(x & rest & Hmr & _ & _ & Heffs) | Heffs].
    + injection Hmr as <-. simpl in Heffs |- *. rewrite Heffs.
      right. left. reflexivity.
    + exfalso. unfold Manager.handleDeleteAction in Heffs. simpl in Heffs.
      destruct o as [[res|]|e]; [destruct (r_success res)| |];
        try discriminate.
      destruct (Manager.loadWorkItems reload m). discriminate.
  - eexists. split; reflexivity.
Qed.

(* ------------------------------------------------------------------ *)
(** ** One attempt when the managed strategy settles the call *)

(** X20. On a config with a managed credential, when the managed strategy
    returns a result or throws an exception other than the service's own,
    the call ends as the managed strategy ended and the secret-token
    strategy is not tried, whether or not a token is present. *)
Theorem managed_outcome_stands (World : Type)
  (hasNamedCredential hasPersonalAccessToken : Service.AzureConfig -> bool)
  (withNamedCredential :
     Service.AzureConfig -> string -> Service.FieldSet ->
     World -> (Service.ApexException + Service.AzureResult) * World)
  (withToken :
     string -> Service.AzureConfig -> string -> Service.FieldSet ->
     World -> (Service.ApexException + Service.AzureResult) * World)
  (config : Service.AzureConfig) (type : string) (fields : Service.FieldSet)
  (w w1 : World) (r : Service.ApexException + Service.AzureResult) :
  hasNamedCredential config = true ->
  withNamedCredential config type fields w = (r, w1) ->
  (forall ex, r <> inl (Service.AzureDevOpsException ex)) ->
  Service.createWorkItem World hasNamedCredential hasPersonalAccessToken
    withNamedCredential withToken config type fields (w, [])
  = (r, (w1, [Service.ManagedCredential])).
Proof.
  intros Hn Hcall Hother. unfold Service.createWorkItem. rewrite Hn.
  unfold Service.tryCatch, Service.attempt. simpl. rewrite Hcall.
  destruct r as [[ex|ex|ex]|res]; try reflexivity.
  now destruct (Hother ex).
Qed.

Lemma managed_outcome_stands_witness :
  let config := Service.mkConfig "org" "proj" "AzureDevOps_POC" "pat" in
  let dropped (_ : Service.AzureConfig) (_ : string) (_ : Service.FieldSet)
              (n : nat) :=
    (@inl Service.ApexException Service.AzureResult
          (Service.CalloutException "Read timed out"), S n) in
  let accepted (_ : string) (_ : Service.AzureConfig) (_ : string)
               (_ : Service.FieldSet) (n : nat) :=
    (@inr Service.ApexException Service.AzureResult
          (Service.mkResult true (Some 1) "Created" 200), S n) in
  Service.createWorkItem nat (fun _ => true) (fun _ => true) dropped accepted
    config "Task" [] (0%nat, [])
  = (inl (Service.CalloutException "Read timed out"),
     (1%nat, [Service.ManagedCredential])).
Proof.
  intros config dropped accepted.
  apply (managed_outcome_stands nat (fun _ => true) (fun _ => true) dropped
           accepted config "Task" [] 0%nat 1%nat
           (inl (Service.CalloutException "Read timed out")));
    try reflexivity.
  intros ex. discriminate.
Defined.

(* ------------------------------------------------------------------ *)
(** ** The wrappers of azureIntegration.js *)

(** X21. [fetchWorkItems] makes one [getWorkItems] call and nothing else.
    It fills in an argument only when that argument is undefined: null
    for the type and state filters, 50 for [maxResults]; any other value,
    null and 0 included, reaches the controller as given.  The manager's
    [loadWorkItems] asks for the same number of rows as the wrapper would
    for the same setting exactly when the setting is undefined or
    truthy: a setting of null, 0 or the empty string becomes 50 in the
    manager and is passed on by the wrapper. *)
Theorem fetch_fills_only_undefined (a : QueryArgs) :
  exists sent,
    AzureIntegration.fetchWorkItems a = [Apex (getWorkItems sent)]
    /\ q_configName sent = q_configName a
    /\ (q_workItemType a <> JUndefined -> q_workItemType sent = q_workItemType a)
    /\ (q_state a <> JUndefined -> q_state sent = q_state a)
    /\ (q_maxResults a <> JUndefined -> q_maxResults sent = q_maxResults a)
    /\ (q_workItemType a = JUndefined -> q_workItemType sent = JNull)
    /\ (q_state a = JUndefined -> q_state sent = JNull)
    /\ (q_maxResults a = JUndefined -> q_maxResults sent = JNum 50)
    /\ (forall m, Manager.maxRows m = q_maxResults a ->
          (q_maxResults (Manager.queryArgs m) = q_maxResults sent
           <-> q_maxResults a = JUndefined
               \/ truthy (q_maxResults a) = true)).
Proof.
  eexists. split; [reflexivity|]. simpl. split; [reflexivity|].
  unfold AzureIntegration.withDefault.
  do 6 (split; [destruct (q_workItemType a), (q_state a), (q_maxResults a);
                intros H; try reflexivity; congruence|]).
  intros m ->. unfold or_else.
  destruct (q_maxResults a) as [| |[]|z| |t|i]; simpl;
    try (split; [intros; auto | reflexivity]);
    try (split; [discriminate | intros [H | H]; discriminate]).
  - destruct (z =? 0) eqn:E; simpl.
    + split; [|intros [H | H]; discriminate].
      intros H. injection H as <-. discriminate.
    + split; [auto | reflexivity].
  - destruct (t =? "")%string; simpl.
    + split; [discriminate | intros [H | H]; discriminate].
    + split; [auto | reflexivity].
Qed.

Lemma fetch_fills_only_undefined_witness :
  let a := mkQueryArgs (JStr "standard") JUndefined (JStr "Done") (JNum 0) in
  exists sent,
    AzureIntegration.fetchWorkItems a = [Apex (getWorkItems sent)]
    /\ q_workItemType sent = JNull
    /\ q_state sent = JStr "Done"
    /\ q_maxResults sent = JNum 0.
Proof.
  intros a.
  destruct (fetch_fills_only_undefined a)
    as (sent & Hcall & _ & _ & Hstate & Hmax & Htype & _).
  exists sent. split; [exact Hcall|]. split; [now apply Htype|].
  split; [apply Hstate | apply Hmax]; discriminate.
Defined.

(* ------------------------------------------------------------------ *)
(** ** The options of the filter comboboxes *)

Lemma sameValueZero_same (a : JsVal) : sameValueZero a a = true.
Proof.
  destruct a; simpl; try reflexivity.
  - apply Bool.eqb_reflx.
  - apply Z.eqb_refl.
  - apply String.eqb_refl.
  - apply Bool.eqb_reflx.
Qed.

Lemma sameValueZero_true (a b : JsVal) : sameValueZero a b = true -> a = b.
Proof.
  destruct a, b; simpl; try discriminate; try reflexivity;
    intros H; now apply strict_eq_true.
Qed.

Lemma uniq_In (l : list JsVal) (y : JsVal) : In y (uniq l) <-> In y l.
Proof.
  induction l as [|x r IH]; simpl; [tauto|].
  rewrite filter_In, IH. split.
  - intros [H | [H _]]; auto.
  - intros [H | H]; [now left|].
    destruct (sameValueZero x y) eqn:E.
    + left. now apply sameValueZero_true.
    + right. split; [exact H | reflexivity].
Qed.

Lemma uniq_NoDup (l : list JsVal) : NoDup (uniq l).
Proof.
  induction l as [|x r IH]; simpl; constructor.
  - intros H. apply filter_In in H. destruct H as [_ H].
    now rewrite sameValueZero_same in H.
  - now apply NoDup_filter.
Qed.

Lemma filterOptions_fresh (stringify : list JsVal -> string)
  (column : WorkItem -> JsVal) (allLabel : string)
  (cache : Manager.OptionCache) (m : Manager.Manager) :
  Manager.cachedHash cache
  <> stringify (map (fun i => or_else (column i) (JStr ""))
                    (Manager.workItems m)) ->
  snd (Manager.filterOptions stringify column allLabel cache m)
  = Some (mkOption (JStr allLabel) (JStr "") JUndefined
          :: map (fun t => mkOption t t JUndefined)
                 (uniq (map column (Manager.workItems m)))).
Proof.
  intros H. unfold Manager.filterOptions. cbv zeta.
  apply String.eqb_neq in H. rewrite H. reflexivity.
Qed.

(** X22. When the cached hash is not the hash of the fetched rows, the
    type filter offers "All Types" with the empty value, followed by one
    option for each type among the fetched rows: every row's type is
    offered, every offered value is the type of a fetched row and is its
    own label, and no value is offered twice.  The options and the hash
    are then kept in the cache, and the next read returns the same
    options. *)
Theorem type_options_cover_the_rows (stringify : list JsVal -> string)
  (cache : Manager.OptionCache) (m : Manager.Manager) :
  Manager.cachedHash cache
  <> stringify (map (fun i => or_else (wi_workItemType i) (JStr ""))
                    (Manager.workItems m)) ->
  let r := Manager.typeFilterOptions stringify cache m in
  exists opts,
    snd r = Some (mkOption (JStr "All Types") (JStr "") JUndefined :: opts)
    /\ (forall i, In i (Manager.workItems m) ->
          In (wi_workItemType i) (map o_value opts))
    /\ (forall opt, In opt opts ->
          o_label opt = o_value opt
          /\ exists i, In i (Manager.workItems m)
                       /\ wi_workItemType i = o_value opt)
    /\ NoDup (map o_value opts)
    /\ Manager.typeFilterOptions stringify (fst r) m = r.
Proof.
  intros Hstale r.
  exists (map (fun t => mkOption t t JUndefined)
              (uniq (map wi_workItemType (Manager.workItems m)))).
  assert (Hvalues : forall l : list JsVal,
             map o_value (map (fun t => mkOption t t JUndefined) l) = l).
  { intros l. rewrite map_map. simpl. apply map_id. }
  split; [|split; [|split; [|split]]].
  - now apply filterOptions_fresh.
  - intros i Hi. rewrite Hvalues. apply uniq_In. now apply in_map.
  - intros opt Hopt. apply in_map_iff in Hopt.
    destruct Hopt as (t & <- & Ht). split; [reflexivity|].
    apply uniq_In, in_map_iff in Ht. destruct Ht as (i & <- & Hi).
    now exists i.
  - rewrite Hvalues. apply uniq_NoDup.
  - unfold r, Manager.typeFilterOptions, Manager.filterOptions. cbv zeta.
    apply String.eqb_neq in Hstale. rewrite Hstale. simpl.
    now rewrite String.eqb_refl.
Qed.

Lemma type_options_cover_the_rows_witness :
  let a := mkWorkItem (JNum 1) (JStr "Fix login bug") (JStr "Task")
             (JStr "To Do") JUndefined JUndefined JUndefined JUndefined
             JUndefined (JStr "1") in
  let b := mkWorkItem (JNum 2) (JStr "Write docs") (JStr "Task") (JStr "Done")
             JUndefined JUndefined JUndefined JUndefined JUndefined
             (JStr "2") in
  let m := Manager.mkManager (JNum 10) [a; b] [] false None "standard" "" ""
             (Some "") "title" "asc" (Manager.mkStats 0 0 0) [] false in
  let stringify (l : list JsVal) :=
    match l with [] => "[]" | _ :: _ => "[...]" end in
  exists opts,
    snd (Manager.typeFilterOptions stringify Manager.emptyCache m)
    = Some (mkOption (JStr "All Types") (JStr "") JUndefined :: opts)
    /\ NoDup (map o_value opts).
Proof.
  intros a b m stringify.
  destruct (type_options_cover_the_rows stringify Manager.emptyCache m)
    as (opts & Hopts & _ & _ & Hnodup & _).
  - discriminate.
  - exists opts. split; [exact Hopts | exact Hnodup].
Defined.

(** X23. Choosing a type that some fetched row has never empties the
    table: with no search term and no state filter, and the sort column
    holding strings in every row or in none, [handleTypeFilterChange]
    ends and displays at least that row. *)
Theorem offered_type_shows_a_row (t : string) (i : WorkItem)
  (m : Manager.Manager) :
  In i (Manager.workItems m) ->
  wi_workItemType i = JStr t ->
  Manager.activeSearch m = None ->
  Manager.selectedStateFilter m = "" ->
  sortable (Manager.sortedBy m) (Manager.workItems m) = true ->
  exists m',
    Manager.handleTypeFilterChange t m = inr m'
    /\ Manager.selectedTypeFilter m' = t
    /\ In i (Manager.filteredWorkItems m').
Proof.
  intros Hi Hty Hsearch Hstate Hsort. unfold Manager.handleTypeFilterChange.
  set (m1 := Manager.set_filters t (Manager.selectedStateFilter m) m).
  destruct (applyFilters_result m1 Hsearch Hsort) as (shown & Happly & Hperm).
  exists (Manager.set_filteredWorkItems shown m1).
  split; [exact Happly|]. split; [reflexivity|]. simpl.
  apply (Permutation_in _ Hperm). apply filter_In. split; [exact Hi|].
  apply passes_spec. simpl. rewrite Hstate. auto.
Qed.

Lemma offered_type_shows_a_row_witness :
  let a := mkWorkItem (JNum 1) (JStr "Fix login bug") (JStr "Task")
             (JStr "To Do") JUndefined JUndefined JUndefined JUndefined
             JUndefined (JStr "1") in
  let b := mkWorkItem (JNum 2) (JStr "Crash on save") (JStr "Bug")
             (JStr "Active") JUndefined JUndefined JUndefined JUndefined
             JUndefined (JStr "2") in
  let m := Manager.mkManager (JNum 10) [a; b] [a; b] false None "standard" ""
             "" (Some "") "title" "asc" (Manager.mkStats 2 1 0) [] false in
  exists m',
    Manager.handleTypeFilterChange "Bug" m = inr m'
    /\ Manager.selectedTypeFilter m' = "Bug"
    /\ In b (Manager.filteredWorkItems m').
Proof.
  intros a b m.
  apply (offered_type_shows_a_row "Bug" b m); try reflexivity.
  simpl. right. left. reflexivity.
Defined.

(** X24. Sorting changes the order only: when the search can read every
    fetched row, the old sort column holds strings in every fetched row
    or in none, and the new one holds strings in every fetched row or
    numbers other than NaN in every fetched row, [handleSort] ends, leaves
    the fetched rows as they are, and displays the rows [applyFilters]
    displayed before, each as often, now every row in the new display
    order with all the rows after it. *)
Theorem sorting_keeps_the_rows (fieldName sortDirection : string)
  (m : Manager.Manager) :
  readable m = true ->
  sortable (Manager.sortedBy m) (Manager.workItems m) = true ->
  comparable fieldName (Manager.workItems m) = true ->
  exists m1 m2,
    Manager.applyFilters m = inr m1
    /\ Manager.handleSort fieldName sortDirection m = inr m2
    /\ Manager.workItems m2 = Manager.workItems m
    /\ Manager.sortedBy m2 = fieldName
    /\ Manager.sortedDirection m2 = sortDirection
    /\ Permutation (Manager.filteredWorkItems m1) (Manager.filteredWorkItems m2)
    /\ StronglySorted (displayOrder m2) (Manager.filteredWorkItems m2).
Proof.
  intros Hread Hold Hnew.
  destruct (applyFilters_searched m Hread Hold) as (shown1 & H1 & Hp1).
  unfold Manager.handleSort.
  set (m' := Manager.mkManager _ _ _ _ _ _ _ _ _ _ _ _ _ _).
  destruct (applyFilters_displays_the_matches_aux m' Hread Hnew)
    as (shown2 & H2 & (Hp2 & Hord & _) & _).
  exists (Manager.set_filteredWorkItems shown1 m),
         (Manager.set_filteredWorkItems shown2 m').
  split; [exact H1|]. split; [exact H2|].
  do 3 (split; [reflexivity|]). split; [|exact Hord].
  simpl. eapply Permutation_trans; [exact Hp1|]. exact Hp2.
Qed.

Lemma sorting_keeps_the_rows_witness :
  let a := mkWorkItem (JNum 1) (JStr "alpha") (JStr "Task") (JStr "To Do")
             JUndefined JUndefined JUndefined JUndefined JUndefined (JStr "1") in
  let b := mkWorkItem (JNum 2) (JStr "Beta") (JStr "Bug") (JStr "Done")
             JUndefined JUndefined JUndefined JUndefined JUndefined (JStr "2") in
  let m := Manager.mkManager (JNum 10) [a; b] [] false None "standard" "" ""
             (Some "") "title" "asc" (Manager.mkStats 0 0 0) [] false in
  exists m1 m2,
    Manager.applyFilters m = inr m1
    /\ Manager.handleSort "workItemId" "desc" m = inr m2
    /\ Manager.workItems m2 = [a; b]
    /\ Manager.sortedBy m2 = "workItemId"
    /\ Manager.sortedDirection m2 = "desc"
    /\ Permutation (Manager.filteredWorkItems m1) (Manager.filteredWorkItems m2)
    /\ StronglySorted (displayOrder m2) (Manager.filteredWorkItems m2).
Proof.
  intros a b m.
  apply (sorting_keeps_the_rows "workItemId" "desc" m); reflexivity.
Defined.

Lemma field_change_writes_one_field_witness :
  let e := UniversalModal.mkFieldEvent JUndefined (JStr "priority")
             (JStr "3") JUndefined in
  let m := UniversalModal.mkModal "form" false None
             [("title", JStr "Fix login bug"); ("priority", JStr "2")]
             None false in
  UniversalModal.lookup "title"
    (UniversalModal.formData (UniversalModal.handleFieldChange e m))
  = JStr "Fix login bug".
Proof.
  intros e m.
  apply (proj1 (proj2 (field_change_writes_one_field e m)) "title").
  discriminate.
Defined.
